(** * FTMap hotspot HCA scripts: a shallow embedding of the pipeline layer

    The repository holds five PyMOL scripts ([hca_all_analysis.py],
    [hca_HO.py], [hca_Euclidian.py], [hca_jaccard.py], [hca_overlap.py]).
    Each one is a straight-line program that calls external collaborators
    (glob, XDrugPy, PyMOL, matplotlib, the wall clock).  The collaborators
    are opaque: they are gathered in a record of oracles ([Env]), and every
    call is logged, with its result, in the trace of the run.  The scripts
    themselves are written in a small state/exception/trace monad.

    Modelling choices:
    - clock readings and durations are rationals ([Q]), not binary floats;
      a float field of an f-string keeps its value unformatted ([PFloat]);
    - [S0_CUTOFF] is a Python int;
    - a collaborator answers as a function of its arguments (and, for the
      selection evaluator, of the objects loaded so far);
    - a division raises ZeroDivisionError on a zero divisor;
    - [int(a / b)] on ints is the exact quotient truncated toward zero, and
      an int enters float arithmetic unrounded.  Python agrees on the
      list positions and lengths that the scripts pass to [progress_bar];
      the statements on [progress_bar] alone bound its arguments ([2^48]
      for the bar, [2^53] for the ETA). *)

From Stdlib Require Import String Ascii ZArith QArith List Lia Lqa Bool DecimalString.
Import ListNotations.

Local Open Scope string_scope.
Local Open Scope Z_scope.
Local Open Scope list_scope.

(** String concatenation, kept apart from list append. *)
Infix "+++" := String.append (right associativity, at level 60).

(** ** Python values and formatting *)

(** [str(z)] for a Python int. *)
Definition str_Z (z : Z) : string := NilZero.string_of_int (Z.to_int z).

Definition nl : string := String (ascii_of_nat 10) "".
Definition cr : string := String (ascii_of_nat 13) "".

(** [c * n] for a one-character string [c]; a negative count gives [""]. *)
Fixpoint str_repeat (c : string) (n : nat) : string :=
  match n with
  | O => ""
  | S n' => c +++ str_repeat c n'
  end.

Definition str_mul (c : string) (n : Z) : string := str_repeat c (Z.to_nat n).

(** [s.ljust(width, fill)]. *)
Definition ljust (s : string) (width : nat) (fill : string) : string :=
  s +++ str_repeat fill (width - String.length s).

(** [sub in s] for strings. *)
Fixpoint contains (sub s : string) : bool :=
  String.prefix sub s ||
  match s with
  | EmptyString => false
  | String _ s' => contains sub s'
  end.

(** A formatted line is kept as the pieces of its f-string: literal text
    (integers already rendered through [str_Z]) and float fields
    [{x:W.Pf}], whose value stays symbolic. *)
Inductive piece :=
| PStr (s : string)
| PFloat (width precision : nat) (x : Q).

(** ** Exceptions and collaborators *)

Inductive exn :=
| RuntimeError (msg : string)
| IndexError
| ZeroDivisionError
| CollaboratorError (msg : string).

Record pairwise_args := {
  pw_sel : string;
  pw_function : string;
  pw_align : bool;
  pw_radius : Q;
  pw_color_threshold : option Z;
  pw_hide_threshold : option bool;
  pw_annotate : bool
}.

Record euclidean_args := {
  eu_sel : string;
  eu_properties : list string;
  eu_normalize : bool;
  eu_linkage_method : string;
  eu_hide_threshold : option bool;
  eu_annotate : bool
}.

(** The environment a script runs in.  A collaborator that may raise
    answers [Some msg] (the exception's text) when it does. *)
Record Env := {
  env_has_undo_disable : bool;
  env_expanduser : string -> string;
  env_expandvars : string -> string;
  env_glob : string -> list string;
  env_load_ftmap : string -> list string + string;
  env_select : string -> list string -> list string;
  env_count_atoms : string -> list string -> Z;
  env_align : string -> string -> option string;
  env_plot_pairwise_hca : pairwise_args -> option string;
  env_plot_euclidean_hca : euclidean_args -> option string;
  env_savefig : string -> option string;
  env_clock : nat -> Q
}.

(** One entry per collaborator call, with what the call answered. *)
Inductive event :=
| EvUndoDisable
| EvPrint (line : list piece)
| EvStdoutWrite (line : list piece)
| EvGlob (pattern : string) (files : list string)
| EvLoadFtmap (file : string) (res : option string)
| EvGetObjectList (sel : option string) (objs : list string)
| EvCountAtoms (sel : string) (n : Z)
| EvAlign (mobile target : string) (res : option string)
| EvPlotPairwiseHca (args : pairwise_args) (res : option string)
| EvPlotEuclideanHca (args : euclidean_args) (res : option string)
| EvTitle (label : string)
| EvSavefig (fname : string) (dpi : Z) (bbox_inches : string) (res : option string)
| EvClose.

(** ** The monad of the scripts *)

(** The PyMOL session (names of the loaded objects, in load order) and
    the number of clock readings taken so far. *)
Record state := {
  session : list string;
  ticks : nat
}.

Definition init_state : state := {| session := []; ticks := 0 |}.

Inductive outcome (A : Type) :=
| Ok (a : A)
| Raise (e : exn).
Arguments Ok {A} a.
Arguments Raise {A} e.

Definition M (A : Type) : Type := Env -> state -> outcome A * state * list event.

Definition ret {A} (a : A) : M A := fun _ s => (Ok a, s, []).

Definition raise {A} (e : exn) : M A := fun _ s => (Raise e, s, []).

Definition bind {A B} (m : M A) (f : A -> M B) : M B := fun w s =>
  match m w s with
  | (Ok a, s1, tr1) =>
      match f a w s1 with
      | (r, s2, tr2) => (r, s2, tr1 ++ tr2)
      end
  | (Raise e, s1, tr1) => (Raise e, s1, tr1)
  end.

Notation "x <- m ;; k" := (bind m (fun x => k))
  (at level 61, m at next level, right associativity).
Notation "m ;; k" := (bind m (fun _ => k))
  (at level 61, right associativity).

(** [try: m except e: handler e]. *)
Definition try_except {A} (m : M A) (handler : exn -> M A) : M A := fun w s =>
  match m w s with
  | (Ok a, s1, tr1) => (Ok a, s1, tr1)
  | (Raise e, s1, tr1) =>
      match handler e w s1 with
      | (r, s2, tr2) => (r, s2, tr1 ++ tr2)
      end
  end.

Definition emit (e : event) : M unit := fun _ s => (Ok tt, s, [e]).

(** [for i, x in enumerate(xs, i0): body]. *)
Fixpoint for_enumerate {A} (xs : list A) (i : Z) (body : Z -> A -> M unit) : M unit :=
  match xs with
  | [] => ret tt
  | x :: xs' => body i x ;; for_enumerate xs' (i + 1) body
  end.

(** [[x for x in xs if test(x)]] with an effectful test. *)
Fixpoint filter_M {A} (test : A -> M bool) (xs : list A) : M (list A) :=
  match xs with
  | [] => ret []
  | x :: xs' =>
      b <- test x ;;
      rest <- filter_M test xs' ;;
      ret (if b then x :: rest else rest)
  end.

(** A script is run from the empty session. *)
Definition run_script (m : M unit) (w : Env) : outcome unit * list event :=
  match m w init_state with
  | (r, _, tr) => (r, tr)
  end.

(** ** Collaborator calls *)

(** The state after one more clock reading. *)
Definition tick (s : state) : state :=
  {| session := session s; ticks := S (ticks s) |}.

(** [time.time()]: the next reading of the clock. *)
Definition time_time : M Q := fun w s => (Ok (env_clock w (ticks s)), tick s, []).

Definition print (line : list piece) : M unit := emit (EvPrint line).

(** [sys.stdout.write(line); sys.stdout.flush()]. *)
Definition stdout_write (line : list piece) : M unit := emit (EvStdoutWrite line).

(** [if hasattr(pm, "undo_disable"): pm.undo_disable()]. *)
Definition pm_undo_disable_if_present : M unit := fun w s =>
  if env_has_undo_disable w then (Ok tt, s, [EvUndoDisable]) else (Ok tt, s, []).

(** [glob(expandvars(expanduser(pattern)))]. *)
Definition glob_expanded (pattern : string) : M (list string) := fun w s =>
  let p := env_expandvars w (env_expanduser w pattern) in
  (Ok (env_glob w p), s, [EvGlob p (env_glob w p)]).

Definition load_ftmap (file : string) : M unit := fun w s =>
  match env_load_ftmap w file with
  | inl objs =>
      (Ok tt, {| session := session s ++ objs; ticks := ticks s |},
       [EvLoadFtmap file None])
  | inr msg => (Raise (CollaboratorError msg), s, [EvLoadFtmap file (Some msg)])
  end.

(** [pm.get_object_list()]. *)
Definition pm_get_object_list : M (list string) := fun _ s =>
  (Ok (session s), s, [EvGetObjectList None (session s)]).

(** [pm.get_object_list(sel)]. *)
Definition pm_get_object_list_sel (sel : string) : M (list string) := fun w s =>
  let objs := env_select w sel (session s) in
  (Ok objs, s, [EvGetObjectList (Some sel) objs]).

Definition pm_count_atoms (sel : string) : M Z := fun w s =>
  let n := env_count_atoms w sel (session s) in
  (Ok n, s, [EvCountAtoms sel n]).

Definition pm_align (mobile target : string) : M unit := fun w s =>
  match env_align w mobile target with
  | None => (Ok tt, s, [EvAlign mobile target None])
  | Some msg => (Raise (CollaboratorError msg), s, [EvAlign mobile target (Some msg)])
  end.

Definition plot_pairwise_hca (args : pairwise_args) : M unit := fun w s =>
  match env_plot_pairwise_hca w args with
  | None => (Ok tt, s, [EvPlotPairwiseHca args None])
  | Some msg => (Raise (CollaboratorError msg), s, [EvPlotPairwiseHca args (Some msg)])
  end.

Definition plot_euclidean_hca (args : euclidean_args) : M unit := fun w s =>
  match env_plot_euclidean_hca w args with
  | None => (Ok tt, s, [EvPlotEuclideanHca args None])
  | Some msg => (Raise (CollaboratorError msg), s, [EvPlotEuclideanHca args (Some msg)])
  end.

Definition plt_title (label : string) : M unit := emit (EvTitle label).

Definition plt_savefig (fname : string) (dpi : Z) (bbox_inches : string) : M unit :=
  fun w s =>
  match env_savefig w fname with
  | None => (Ok tt, s, [EvSavefig fname dpi bbox_inches None])
  | Some msg =>
      (Raise (CollaboratorError msg), s, [EvSavefig fname dpi bbox_inches (Some msg)])
  end.

Definition plt_close : M unit := emit EvClose.

(** [xs[0]]. *)
Definition list_first (xs : list string) : M string :=
  match xs with
  | [] => raise IndexError
  | x :: _ => ret x
  end.

(** [int(a / b)] on two ints: true division, then truncation toward zero;
    a zero divisor raises.  The quotient is taken exactly: Python rounds
    [a / b] to the nearest double before truncating, which gives the same
    integer as long as [|a / b| <= 30] and [|b| < 2^48]. *)
Definition int_truediv (a b : Z) : M Z :=
  if b =? 0 then raise ZeroDivisionError else ret (Z.quot a b).

(** [x / n] for a float [x] and an int [n]: a zero divisor raises.  The
    int is converted to a float first, and the conversion is taken as
    exact, which it is for [|n| <= 2^53]; Python rounds a larger int and
    refuses one of [2^1024 - 2^970] or more with an OverflowError, here
    and in the product of a float and an int.  The statements on
    [progress_bar] alone keep its arguments below these bounds; the
    scripts call it with positions in a list and the length of the
    list. *)
Definition float_truediv (x : Q) (n : Z) : M Q :=
  if n =? 0 then raise ZeroDivisionError else ret (x / inject_Z n)%Q.

(** [len(xs)]. *)
Definition len {A} (xs : list A) : Z := Z.of_nat (length xs).

(** The arguments every script passes to [plt.savefig]. *)
Definition savefig_300_tight (fname : string) : M unit :=
  plt_savefig fname 300 "tight".

(** ** hca_all_analysis.py *)

Module HcaAll.

(** The user parameters at the top of the script.  [S0_CUTOFF] is taken
    as a Python int, as in the three scripts that set it. *)
Record config := {
  BASE_PATH : string;
  S0_CUTOFF : Z;
  ALIGN_STRUCTURES : bool;
  OUTPUT_PREFIX : string
}.

(** The numbers that lines 46 and 47 compute: [avg] and [eta]. *)
Definition avg_of (elapsed : Q) (current : Z) : Q :=
  if 0 <? current then (elapsed / inject_Z current)%Q else 0%Q.

Definition eta_of (elapsed : Q) (current total : Z) : Q :=
  (avg_of elapsed current * inject_Z (total - current))%Q.

(** Line 46: [avg = elapsed / current if current > 0 else 0]: the division
    is not evaluated unless [current] is positive. *)
Definition average (elapsed : Q) (current : Z) : M Q :=
  if 0 <? current then float_truediv elapsed current else ret 0%Q.

Definition progress_bar (current total : Z) (start_time : Q) (prefix : string)
  : M unit :=
  now <- time_time ;;
  let elapsed := (now - start_time)%Q in
  avg <- average elapsed current ;;
  let eta := (avg * inject_Z (total - current))%Q in
  let bar_len := 30 in
  filled <- int_truediv (bar_len * current) total ;;
  let bar := str_mul "=" filled +++ str_mul "-" (bar_len - filled) in
  stdout_write
    [PStr (cr +++ prefix +++ " [" +++ bar +++ "] " +++ str_Z current +++ "/"
           +++ str_Z total +++ " | " +++ "Elapsed: ");
     PFloat 6 1 elapsed; PStr "s | ETA: "; PFloat 6 1 eta; PStr "s"].

Definition HOTSPOT_SEL (cfg : config) : string :=
  "((*.B* *.D*) AND p.S0>" +++ str_Z (S0_CUTOFF cfg) +++ ")".

Definition EUCLIDEAN_SEL (cfg : config) : string :=
  "*.K15_* AND p.S0>" +++ str_Z (S0_CUTOFF cfg).

Definition too_few_hotspots_msg (k cutoff : Z) : string :=
  "Only " +++ str_Z k +++ " hotspots found with S0 > " +++ str_Z cutoff +++ ". "
  +++ "At least two are required for HCA.".

Definition out_HO (cfg : config) : string := OUTPUT_PREFIX cfg +++ "_01_HO_dendrogram.png".
Definition out_Jaccard (cfg : config) : string :=
  OUTPUT_PREFIX cfg +++ "_02_Jaccard_dendrogram.png".
Definition out_Overlap (cfg : config) : string :=
  OUTPUT_PREFIX cfg +++ "_03_Overlap_dendrogram.png".
Definition out_Euclidean (cfg : config) : string :=
  OUTPUT_PREFIX cfg +++ "_04_Euclidean_HCA.png".

(** Lines 62-66: PyMOL optimization and the start of the global timer. *)
Definition startup : M Q :=
  pm_undo_disable_if_present ;;
  global_start <- time_time ;;
  print [PStr (nl +++ "=== HOTSPOT ANALYSIS PIPELINE STARTED ===" +++ nl)] ;;
  ret global_start.

(** Lines 71-84: load the FTMap structures. *)
Definition load_structures (cfg : config) : M unit :=
  files <- glob_expanded (BASE_PATH cfg) ;;
  let n_files := len files in
  if n_files =? 0 then
    raise (RuntimeError "No FTMap PDB files found. Check BASE_PATH.")
  else
    print [PStr ("Found " +++ str_Z n_files +++ " FTMap structures" +++ nl)] ;;
    load_start <- time_time ;;
    for_enumerate files 1 (fun i file =>
      load_ftmap file ;;
      progress_bar i n_files load_start "Loading FTMap files") ;;
    print [PStr (nl +++ "✔ FTMap structures loaded" +++ nl)].

(** Lines 89-103: global structural alignment. *)
Definition align_structures (cfg : config) : M unit :=
  if ALIGN_STRUCTURES cfg then
    print [PStr "Aligning structures..."] ;;
    align_start <- time_time ;;
    objs <- pm_get_object_list ;;
    ref <- list_first objs ;;
    for_enumerate (tl objs) 1 (fun i obj =>
      try_except (pm_align obj ref) (fun _ => ret tt) ;;
      progress_bar i (len objs - 1) align_start "Aligning") ;;
    print [PStr (nl +++ "✔ Alignment completed" +++ nl)]
  else ret tt.

(** Lines 108-118: hotspot selection and its validation. *)
Definition select_hotspots (cfg : config) : M unit :=
  print [PStr ("Using hotspot selection:" +++ nl +++ "  " +++ HOTSPOT_SEL cfg +++ nl)] ;;
  hotspots <- pm_get_object_list_sel (HOTSPOT_SEL cfg) ;;
  if len hotspots <? 2 then
    raise (RuntimeError (too_few_hotspots_msg (len hotspots) (S0_CUTOFF cfg)))
  else
    print [PStr ("✔ " +++ str_Z (len hotspots) +++ " hotspots selected for analysis" +++ nl)].

Definition pairwise_call (cfg : config) (function : string) (align : bool) (radius : Q)
  : pairwise_args :=
  {| pw_sel := HOTSPOT_SEL cfg; pw_function := function; pw_align := align;
     pw_radius := radius; pw_color_threshold := Some 0;
     pw_hide_threshold := Some false; pw_annotate := true |}.

Definition euclidean_call (cfg : config) : euclidean_args :=
  {| eu_sel := EUCLIDEAN_SEL cfg; eu_properties := ["S0"; "CD"; "MD"];
     eu_normalize := true; eu_linkage_method := "ward";
     eu_hide_threshold := Some false; eu_annotate := true |}.

(** Lines 123-140: 1) Hotspot Overlap (HO). *)
Definition job_HO (cfg : config) : M unit :=
  print [PStr "Running HCA: Hotspot Overlap (HO)..."] ;;
  start <- time_time ;;
  plot_pairwise_hca (pairwise_call cfg "ho" false (3 # 2)) ;;
  plt_title "Hotspot Overlap (HO) | S0 > 20" ;;
  savefig_300_tight (out_HO cfg) ;;
  plt_close ;;
  now <- time_time ;;
  print [PStr "✔ HO completed in "; PFloat 0 1 (now - start); PStr ("s" +++ nl)].

(** Lines 145-162: 2) residue Jaccard. *)
Definition job_Jaccard (cfg : config) : M unit :=
  print [PStr "Running HCA: Residue Jaccard similarity..."] ;;
  start <- time_time ;;
  plot_pairwise_hca (pairwise_call cfg "jaccard" true (5 # 1)) ;;
  plt_title "Residue Jaccard Similarity | S0 > 20" ;;
  savefig_300_tight (out_Jaccard cfg) ;;
  plt_close ;;
  now <- time_time ;;
  print [PStr "✔ Jaccard completed in "; PFloat 0 1 (now - start); PStr ("s" +++ nl)].

(** Lines 167-184: 3) residue overlap. *)
Definition job_Overlap (cfg : config) : M unit :=
  print [PStr "Running HCA: Residue Overlap similarity..."] ;;
  start <- time_time ;;
  plot_pairwise_hca (pairwise_call cfg "overlap" true (5 # 1)) ;;
  plt_title "Residue Overlap Similarity | S0 > 20" ;;
  savefig_300_tight (out_Overlap cfg) ;;
  plt_close ;;
  now <- time_time ;;
  print [PStr "✔ Overlap completed in "; PFloat 0 1 (now - start); PStr ("s" +++ nl)].

(** Lines 189-205: 4) multivariate Euclidean HCA. *)
Definition job_Euclidean (cfg : config) : M unit :=
  print [PStr "Running multivariate Euclidean HCA (S0 + CD + MD)..."] ;;
  start <- time_time ;;
  plot_euclidean_hca (euclidean_call cfg) ;;
  plt_title "Euclidean HCA (S0 + CD + MD) | S0 > 20" ;;
  savefig_300_tight (out_Euclidean cfg) ;;
  plt_close ;;
  now <- time_time ;;
  print [PStr "✔ Euclidean HCA completed in "; PFloat 0 1 (now - start);
         PStr ("s" +++ nl)].

(** Lines 210-217: final report. *)
Definition final_report (cfg : config) (global_start : Q) : M unit :=
  now <- time_time ;;
  let total_time := (now - global_start)%Q in
  print [PStr "=== PIPELINE COMPLETED SUCCESSFULLY ==="] ;;
  print [PStr "Total execution time: "; PFloat 0 1 total_time; PStr " seconds"] ;;
  print [PStr "Generated files:"] ;;
  print [PStr ("  " +++ out_HO cfg)] ;;
  print [PStr ("  " +++ out_Jaccard cfg)] ;;
  print [PStr ("  " +++ out_Overlap cfg)] ;;
  print [PStr ("  " +++ out_Euclidean cfg +++ nl)].

Definition main (cfg : config) : M unit :=
  global_start <- startup ;;
  load_structures cfg ;;
  align_structures cfg ;;
  select_hotspots cfg ;;
  job_HO cfg ;;
  job_Jaccard cfg ;;
  job_Overlap cfg ;;
  job_Euclidean cfg ;;
  final_report cfg global_start.

End HcaAll.

(** ** The four single-analysis scripts *)

(** [hca_HO.py], [hca_Euclidian.py], [hca_jaccard.py] and
    [hca_overlap.py] each define the same [progress_bar], character for
    character; it is embedded once.
    The numbers it computes for [avg] and [eta]: *)
Definition avg_single (elapsed : Q) (i : Z) : Q :=
  if i =? 0 then 0%Q else (elapsed / inject_Z i)%Q.

Definition eta_single (elapsed : Q) (i total : Z) : Q :=
  (avg_single elapsed i * inject_Z (total - i))%Q.

(** [avg = elapsed / i if i else 0]: the division is not evaluated when
    [i] is zero. *)
Definition average_single (elapsed : Q) (i : Z) : M Q :=
  if i =? 0 then ret 0%Q else float_truediv elapsed i.

Definition progress_bar_single (i total : Z) (start : Q) (label : string) : M unit :=
  now <- time_time ;;
  let elapsed := (now - start)%Q in
  avg <- average_single elapsed i ;;
  let eta := (avg * inject_Z (total - i))%Q in
  filled <- int_truediv (30 * i) total ;;
  let bar := ljust (str_mul "=" filled) 30 "-" in
  stdout_write
    [PStr (cr +++ label +++ " [" +++ bar +++ "] " +++ str_Z i +++ "/" +++ str_Z total
           +++ " | ETA ");
     PFloat 5 1 eta; PStr "s"].

(** The user parameters of a single-analysis script. *)
Record config := {
  BASE_PATH : string;
  S0_CUTOFF : Z;
  OUTPUT : string
}.

(** [str(e)] for a caught exception. *)
Definition exn_str (e : exn) : string :=
  match e with
  | RuntimeError msg => msg
  | IndexError => "list index out of range"
  | ZeroDivisionError => "division by zero"
  | CollaboratorError msg => msg
  end.

(** [for x in xs: body]. *)
Fixpoint for_each {A} (xs : list A) (body : A -> M unit) : M unit :=
  match xs with
  | [] => ret tt
  | x :: xs' => body x ;; for_each xs' body
  end.

Definition pairwise_plain (sel function : string) (align : bool) (radius : Q)
  : pairwise_args :=
  {| pw_sel := sel; pw_function := function; pw_align := align; pw_radius := radius;
     pw_color_threshold := None; pw_hide_threshold := None; pw_annotate := true |}.

Module HcaHO.

Definition progress_bar := progress_bar_single.

Definition HOTSPOT_SEL (cfg : config) : string :=
  "((*.B* *.D*) AND p.S0>" +++ str_Z (S0_CUTOFF cfg) +++ ")".

Definition too_few_hotspots_msg (k cutoff : Z) : string :=
  "Only " +++ str_Z k +++ " hotspots found with S0 > " +++ str_Z cutoff +++ ". "
  +++ "At least two are required for HO analysis.".

(** Lines 52-69. *)
Definition load_structures (cfg : config) : M unit :=
  pm_undo_disable_if_present ;;
  print [PStr (nl +++ "=== HCA: Hotspot Overlap (HO) ===" +++ nl)] ;;
  files <- glob_expanded (BASE_PATH cfg) ;;
  match files with
  | [] => raise (RuntimeError "No FTMap PDB files found. Check BASE_PATH.")
  | _ =>
      start <- time_time ;;
      for_enumerate files 1 (fun i f =>
        load_ftmap f ;;
        progress_bar i (len files) start "Loading FTMap") ;;
      print [PStr (nl +++ "✔ FTMap structures loaded" +++ nl)]
  end.

Definition is_protein (obj : string) : M bool :=
  n <- pm_count_atoms (obj +++ " and polymer.protein") ;;
  ret (0 <? n).

(** Lines 74-94: align the protein structures only. *)
Definition align_proteins (cfg : config) : M unit :=
  print [PStr "Aligning protein structures only..."] ;;
  objs <- pm_get_object_list ;;
  proteins <- filter_M is_protein objs ;;
  if len proteins <? 2 then
    raise (RuntimeError "Not enough protein structures for alignment.")
  else
    ref <- list_first proteins ;;
    align_start <- time_time ;;
    for_enumerate (tl proteins) 1 (fun i obj =>
      try_except (pm_align obj ref)
        (fun e => print [PStr (nl +++ "⚠️ Alignment failed for " +++ obj +++ ": "
                               +++ exn_str e)]) ;;
      progress_bar i (len proteins - 1) align_start "Aligning proteins") ;;
    print [PStr (nl +++ "✔ Protein alignment completed" +++ nl)].

(** Lines 99-106: hotspot validation. *)
Definition validate_hotspots (cfg : config) : M unit :=
  hotspots <- pm_get_object_list_sel (HOTSPOT_SEL cfg) ;;
  if len hotspots <? 2 then
    raise (RuntimeError (too_few_hotspots_msg (len hotspots) (S0_CUTOFF cfg)))
  else
    print [PStr ("✔ " +++ str_Z (len hotspots) +++ " hotspots selected for analysis" +++ nl)].

(** Lines 111-128. *)
Definition job (cfg : config) : M unit :=
  print [PStr "Running Hotspot Overlap (HO) clustering..."] ;;
  start <- time_time ;;
  plot_pairwise_hca (pairwise_plain (HOTSPOT_SEL cfg) "ho" false (3 # 2)) ;;
  plt_title "Hotspot Overlap (HO) | S0 > 20" ;;
  savefig_300_tight (OUTPUT cfg) ;;
  plt_close ;;
  now <- time_time ;;
  print [PStr "✔ HO clustering completed in "; PFloat 0 1 (now - start); PStr "s"] ;;
  print [PStr ("Saved: " +++ OUTPUT cfg)] ;;
  print [PStr (nl +++ "=== HO ANALYSIS FINISHED SUCCESSFULLY ===" +++ nl)].

Definition main (cfg : config) : M unit :=
  load_structures cfg ;;
  align_proteins cfg ;;
  validate_hotspots cfg ;;
  job cfg.

End HcaHO.

Module HcaEuclidian.

Definition progress_bar := progress_bar_single.

Definition as_written : config :=
  {| BASE_PATH := "/home/jaimilson/Downloads/3B24_B_-_ADRIAN/*.pdb";
     S0_CUTOFF := 20;
     OUTPUT := "3B24_B_S0_20_Euclidean.png" |}.

Definition EUCLIDEAN_SEL (cfg : config) : string :=
  "*.K15_* AND p.S0>" +++ str_Z (S0_CUTOFF cfg).

(** Lines 42-56. *)
Definition load_structures (cfg : config) : M unit :=
  pm_undo_disable_if_present ;;
  print [PStr (nl +++ "=== HCA: Euclidean (S0 + CD + MD) ===" +++ nl)] ;;
  files <- glob_expanded (BASE_PATH cfg) ;;
  match files with
  | [] => raise (RuntimeError "No FTMap PDB files found.")
  | _ =>
      start <- time_time ;;
      for_enumerate files 1 (fun i f =>
        load_ftmap f ;;
        progress_bar i (len files) start "Loading") ;;
      print [PStr (nl +++ "✔ FTMap loaded" +++ nl)]
  end.

(** Lines 58-74. *)
Definition job (cfg : config) : M unit :=
  print [PStr "Running Euclidean clustering..."] ;;
  start <- time_time ;;
  plot_euclidean_hca
    {| eu_sel := EUCLIDEAN_SEL cfg; eu_properties := ["S0"; "CD"; "MD"];
       eu_normalize := true; eu_linkage_method := "ward";
       eu_hide_threshold := None; eu_annotate := true |} ;;
  plt_title "Euclidean HCA (S0 + CD + MD) | S0 > 20" ;;
  savefig_300_tight (OUTPUT cfg) ;;
  plt_close ;;
  now <- time_time ;;
  print [PStr "✔ Euclidean HCA completed in "; PFloat 0 1 (now - start); PStr "s"] ;;
  print [PStr ("Saved: " +++ OUTPUT cfg)].

Definition main (cfg : config) : M unit :=
  load_structures cfg ;;
  job cfg.

End HcaEuclidian.

Module HcaJaccard.

Definition progress_bar := progress_bar_single.

Definition as_written : config :=
  {| BASE_PATH := "/home/jaimilson/Downloads/3B24_B_-_ADRIAN/*.pdb";
     S0_CUTOFF := 20;
     OUTPUT := "3B24_B_S0_20_Jaccard.png" |}.

Definition HOTSPOT_SEL (cfg : config) : string :=
  "((*.B* *.D*) AND p.S0>" +++ str_Z (S0_CUTOFF cfg) +++ ")".

(** Lines 43-57. *)
Definition load_structures (cfg : config) : M unit :=
  pm_undo_disable_if_present ;;
  print [PStr (nl +++ "=== HCA: Residue Jaccard ===" +++ nl)] ;;
  files <- glob_expanded (BASE_PATH cfg) ;;
  match files with
  | [] => raise (RuntimeError "No FTMap PDB files found.")
  | _ =>
      start <- time_time ;;
      for_enumerate files 1 (fun i f =>
        load_ftmap f ;;
        progress_bar i (len files) start "Loading") ;;
      print [PStr (nl +++ "✔ FTMap loaded" +++ nl)]
  end.

(** Lines 59-62. *)
Definition align_structures (cfg : config) : M unit :=
  objs <- pm_get_object_list ;;
  ref <- list_first objs ;;
  for_each (tl objs) (fun obj => pm_align obj ref).

(** Lines 64-66. *)
Definition validate_hotspots (cfg : config) : M unit :=
  hotspots <- pm_get_object_list_sel (HOTSPOT_SEL cfg) ;;
  if len hotspots <? 2 then
    raise (RuntimeError "Not enough hotspots for Jaccard analysis")
  else ret tt.

(** Lines 68-84. *)
Definition job (cfg : config) : M unit :=
  print [PStr "Running Jaccard clustering..."] ;;
  start <- time_time ;;
  plot_pairwise_hca (pairwise_plain (HOTSPOT_SEL cfg) "jaccard" true (5 # 1)) ;;
  plt_title "Residue Jaccard Similarity | S0 > 20" ;;
  savefig_300_tight (OUTPUT cfg) ;;
  plt_close ;;
  now <- time_time ;;
  print [PStr "✔ Jaccard completed in "; PFloat 0 1 (now - start); PStr "s"] ;;
  print [PStr ("Saved: " +++ OUTPUT cfg)].

Definition main (cfg : config) : M unit :=
  load_structures cfg ;;
  align_structures cfg ;;
  validate_hotspots cfg ;;
  job cfg.

End HcaJaccard.

Module HcaOverlap.

Definition progress_bar := progress_bar_single.

Definition as_written : config :=
  {| BASE_PATH := "/home/jaimilson/Downloads/3B24_B_-_ADRIAN/*.pdb";
     S0_CUTOFF := 20;
     OUTPUT := "S0_20_Overlap.png" |}.

Definition HOTSPOT_SEL (cfg : config) : string :=
  "((*.B* *.D*) AND p.S0>" +++ str_Z (S0_CUTOFF cfg) +++ ")".

Definition too_few_hotspots_msg (k cutoff : Z) : string :=
  "Only " +++ str_Z k +++ " hotspots found with S0 > " +++ str_Z cutoff +++ ". "
  +++ "At least two are required for overlap analysis.".

(** Lines 46-61. *)
Definition load_structures (cfg : config) : M unit :=
  pm_undo_disable_if_present ;;
  print [PStr (nl +++ "=== HCA: Residue Overlap Similarity ===" +++ nl)] ;;
  files <- glob_expanded (BASE_PATH cfg) ;;
  match files with
  | [] => raise (RuntimeError "No FTMap PDB files found. Check BASE_PATH.")
  | _ =>
      start <- time_time ;;
      for_enumerate files 1 (fun i f =>
        load_ftmap f ;;
        progress_bar i (len files) start "Loading") ;;
      print [PStr (nl +++ "✔ FTMap structures loaded" +++ nl)]
  end.

(** Lines 64-70. *)
Definition align_structures (cfg : config) : M unit :=
  objs <- pm_get_object_list ;;
  ref <- list_first objs ;;
  for_enumerate (tl objs) 1 (fun _ obj => pm_align obj ref) ;;
  print [PStr ("✔ Structures aligned" +++ nl)].

(** Lines 73-80. *)
Definition validate_hotspots (cfg : config) : M unit :=
  hotspots <- pm_get_object_list_sel (HOTSPOT_SEL cfg) ;;
  if len hotspots <? 2 then
    raise (RuntimeError (too_few_hotspots_msg (len hotspots) (S0_CUTOFF cfg)))
  else
    print [PStr ("✔ " +++ str_Z (len hotspots) +++ " hotspots selected" +++ nl)].

(** Lines 83-99. *)
Definition job (cfg : config) : M unit :=
  print [PStr "Running residue overlap clustering..."] ;;
  start <- time_time ;;
  plot_pairwise_hca (pairwise_plain (HOTSPOT_SEL cfg) "overlap" true (5 # 1)) ;;
  plt_title "Residue Overlap Similarity | S0 > 20" ;;
  savefig_300_tight (OUTPUT cfg) ;;
  plt_close ;;
  now <- time_time ;;
  print [PStr "✔ Overlap HCA completed in "; PFloat 0 1 (now - start); PStr "s"] ;;
  print [PStr ("Saved: " +++ OUTPUT cfg +++ nl)].

Definition main (cfg : config) : M unit :=
  load_structures cfg ;;
  align_structures cfg ;;
  validate_hotspots cfg ;;
  job cfg.

End HcaOverlap.

(** ** A sample environment *)

(** Two FTMap files, each contributing a protein and two hotspots; every
    collaborator succeeds and the clock advances by one second a
    reading. *)
Definition sample_env : Env :=
  {| env_has_undo_disable := true;
     env_expanduser := fun p => p;
     env_expandvars := fun p => p;
     env_glob := fun _ => ["a.pdb"; "b.pdb"];
     env_load_ftmap := fun f => inl [f +++ ".protein"; f +++ ".B_00"; f +++ ".K15_D_00"];
     env_select := fun sel objs => objs;
     env_count_atoms := fun sel objs => if String.prefix "a.pdb.protein" sel then 100
                                        else if String.prefix "b.pdb.protein" sel then 90
                                        else 0;
     env_align := fun _ _ => None;
     env_plot_pairwise_hca := fun _ => None;
     env_plot_euclidean_hca := fun _ => None;
     env_savefig := fun _ => None;
     env_clock := fun n => inject_Z (Z.of_nat n) |}.

Definition sample_all : HcaAll.config :=
  {| HcaAll.BASE_PATH := "~/ftmap/*.pdb"; HcaAll.S0_CUTOFF := 20;
     HcaAll.ALIGN_STRUCTURES := true; HcaAll.OUTPUT_PREFIX := "run" |}.

(** ** The five scripts as one family *)

Inductive script :=
| ScriptAll (cfg : HcaAll.config)
| ScriptHO (cfg : config)
| ScriptEuclidian (cfg : config)
| ScriptJaccard (cfg : config)
| ScriptOverlap (cfg : config).

Definition script_main (sc : script) : M unit :=
  match sc with
  | ScriptAll cfg => HcaAll.main cfg
  | ScriptHO cfg => HcaHO.main cfg
  | ScriptEuclidian cfg => HcaEuclidian.main cfg
  | ScriptJaccard cfg => HcaJaccard.main cfg
  | ScriptOverlap cfg => HcaOverlap.main cfg
  end.

Definition script_base_path (sc : script) : string :=
  match sc with
  | ScriptAll cfg => HcaAll.BASE_PATH cfg
  | ScriptHO cfg | ScriptEuclidian cfg | ScriptJaccard cfg | ScriptOverlap cfg =>
      BASE_PATH cfg
  end.

Definition script_cutoff (sc : script) : Z :=
  match sc with
  | ScriptAll cfg => HcaAll.S0_CUTOFF cfg
  | ScriptHO cfg | ScriptEuclidian cfg | ScriptJaccard cfg | ScriptOverlap cfg =>
      S0_CUTOFF cfg
  end.

(** The selection string a script hands to [pm.get_object_list] for its
    validation; [hca_Euclidian.py] has no such call. *)
Definition script_hotspot_sel (sc : script) : option string :=
  match sc with
  | ScriptAll cfg => Some (HcaAll.HOTSPOT_SEL cfg)
  | ScriptHO cfg => Some (HcaHO.HOTSPOT_SEL cfg)
  | ScriptEuclidian _ => None
  | ScriptJaccard cfg => Some (HcaJaccard.HOTSPOT_SEL cfg)
  | ScriptOverlap cfg => Some (HcaOverlap.HOTSPOT_SEL cfg)
  end.

Definition run (sc : script) (w : Env) : outcome unit * list event :=
  run_script (script_main sc) w.

(** ** Classes of events *)

Definition is_clustering (e : event) : bool :=
  match e with
  | EvPlotPairwiseHca _ _ | EvPlotEuclideanHca _ _ => true
  | _ => false
  end.

Definition is_align (e : event) : bool :=
  match e with
  | EvAlign _ _ _ => true
  | _ => false
  end.

Definition is_load (e : event) : bool :=
  match e with
  | EvLoadFtmap _ _ => true
  | _ => false
  end.

(** A query of the selection evaluator, with or without a predicate. *)
Definition is_selection (e : event) : bool :=
  match e with
  | EvGetObjectList _ _ | EvCountAtoms _ _ => true
  | _ => false
  end.

(** Title, save and close: the calls on the plot of a job. *)
Definition is_plot_handling (e : event) : bool :=
  match e with
  | EvTitle _ | EvSavefig _ _ _ _ | EvClose => true
  | _ => false
  end.

(** Any call that belongs to a stage from Loading on. *)
Definition is_stage_call (e : event) : bool :=
  is_load e || is_align e || is_selection e || is_clustering e || is_plot_handling e.

(** The pattern a script hands to [glob], after both expansions. *)
Definition expanded_pattern (w : Env) (sc : script) : string :=
  env_expandvars w (env_expanduser w (script_base_path sc)).

(** [emits P m]: whatever the environment and the state, every event of
    a run of [m] satisfies [P]. *)
Definition emits {A} (P : event -> Prop) (m : M A) : Prop :=
  forall w s, Forall P (snd (m w s)).

(** A query of the selection evaluator with a predicate:
    [pm.get_object_list(sel)]. *)
Definition is_sel_query (e : event) : bool :=
  match e with
  | EvGetObjectList (Some _) _ => true
  | _ => false
  end.

(** ** Further environments *)

(** [sample_env] with some collaborators replaced. *)
Definition env_with (files : list string) (objects_of : string -> list string)
           (select : string -> list string -> list string)
           (align : string -> string -> option string)
           (pairwise : pairwise_args -> option string)
           (savefig : string -> option string) : Env :=
  {| env_has_undo_disable := env_has_undo_disable sample_env;
     env_expanduser := env_expanduser sample_env;
     env_expandvars := env_expandvars sample_env;
     env_glob := fun _ => files;
     env_load_ftmap := fun f => inl (objects_of f);
     env_select := select;
     env_count_atoms := env_count_atoms sample_env;
     env_align := align;
     env_plot_pairwise_hca := pairwise;
     env_plot_euclidean_hca := env_plot_euclidean_hca sample_env;
     env_savefig := savefig;
     env_clock := env_clock sample_env |}.

Definition three_objects (f : string) : list string :=
  [f +++ ".protein"; f +++ ".B_00"; f +++ ".K15_D_00"].

Definition all_objects (sel : string) (objs : list string) : list string := objs.

Definition ok2 (_ _ : string) : option string := None.
Definition ok1 {A} (_ : A) : option string := None.

(** The pattern matches no file. *)
Definition no_files_env : Env :=
  env_with [] three_objects all_objects ok2 ok1 ok1.

(** Only one hotspot passes the cutoff; no K15 object does. *)
Definition one_hotspot_env : Env :=
  env_with ["a.pdb"; "b.pdb"] three_objects
           (fun sel _ => if String.prefix "((*.B*" sel then ["a.pdb.B_00"] else [])
           ok2 ok1 ok1.

(** ** Observations on a trace *)

(** [pm.get_object_list()], the query without a predicate. *)
Definition is_get_all (e : event) : bool :=
  match e with
  | EvGetObjectList None _ => true
  | _ => false
  end.

(** The alignment calls of a run, in order, each with its result. *)
Fixpoint align_calls (tr : list event) : list (string * string * option string) :=
  match tr with
  | [] => []
  | EvAlign mobile target r :: tr' => (mobile, target, r) :: align_calls tr'
  | _ :: tr' => align_calls tr'
  end.

(** The structures [hca_HO.py] aligns: those with protein atoms. *)
Definition proteins_of (w : Env) (objs : list string) : list string :=
  filter (fun obj => 0 <? env_count_atoms w (obj +++ " and polymer.protein") objs) objs.

(** The warning [hca_HO.py] prints for a failed alignment. *)
Definition alignment_warning (obj msg : string) : event :=
  EvPrint [PStr (nl +++ "⚠️ Alignment failed for " +++ obj +++ ": " +++ msg)].

(** The alignment of the second file's protein fails. *)
Definition align_fails_env : Env :=
  env_with ["a.pdb"; "b.pdb"] three_objects all_objects
           (fun mobile _ => if String.eqb mobile "b.pdb.protein"
                            then Some "alignment did not converge" else None)
           ok1 ok1.

(** One file that yields a single object. *)
Definition one_object_env : Env :=
  env_with ["a.pdb"] (fun f => [f +++ ".protein"]) all_objects ok2 ok1 ok1.

(** Any [pm.get_object_list] call. *)
Definition is_object_query (e : event) : bool :=
  match e with
  | EvGetObjectList _ _ => true
  | _ => false
  end.

(** What reaches the operator: printed lines and progress lines. *)
Definition is_output (e : event) : bool :=
  match e with
  | EvPrint _ | EvStdoutWrite _ => true
  | _ => false
  end.

Definition console (tr : list event) : list event := filter is_output tr.

(** The session after loading the two sample files. *)
Definition six_objects : list string := three_objects "a.pdb" ++ three_objects "b.pdb".

(** The captions given to [plt.title], in order. *)
Fixpoint titles (tr : list event) : list string :=
  match tr with
  | [] => []
  | EvTitle label :: tr' => label :: titles tr'
  | _ :: tr' => titles tr'
  end.

(** [hca_all_analysis.py] configured with the cutoff 15. *)
Definition cutoff_15 : HcaAll.config :=
  {| HcaAll.BASE_PATH := "~/ftmap/*.pdb"; HcaAll.S0_CUTOFF := 15;
     HcaAll.ALIGN_STRUCTURES := true; HcaAll.OUTPUT_PREFIX := "run" |}.

(** No K15 object passes the cutoff; every other selection answers the
    whole session. *)
Definition no_k15_env : Env :=
  env_with ["a.pdb"; "b.pdb"] three_objects
           (fun sel objs => if String.prefix "*.K15_*" sel then [] else objs)
           ok2 ok1 ok1.

(** ** The plot of a job *)

(** pyplot keeps one current figure.  A clustering call that returns
    leaves its dendrogram there; [plt.title] and [plt.savefig] act on the
    current figure (and make one if there is none); [plt.close()] closes
    it.  [plot_after open e] is whether a figure is open after [e]. *)
Definition plot_after (open : bool) (e : event) : bool :=
  match e with
  | EvPlotPairwiseHca _ None | EvPlotEuclideanHca _ None => true
  | EvTitle _ | EvSavefig _ _ _ _ => true
  | EvClose => false
  | _ => open
  end.

(** Whether a figure is open at the end of a trace. *)
Definition plot_open (open : bool) (tr : list event) : bool :=
  fold_left plot_after tr open.

(** No clustering call is made while a figure is open. *)
Fixpoint plots_isolated (open : bool) (tr : list event) : bool :=
  match tr with
  | [] => true
  | e :: tr' =>
      (if is_clustering e then negb open else true)
      && plots_isolated (plot_after open e) tr'
  end.

(** A clustering or save call that raised. *)
Definition is_job_failure (e : event) : bool :=
  match e with
  | EvPlotPairwiseHca _ (Some _) | EvPlotEuclideanHca _ (Some _)
  | EvSavefig _ _ _ (Some _) => true
  | _ => false
  end.

Definition is_close (e : event) : bool :=
  match e with
  | EvClose => true
  | _ => false
  end.

(** [plt.savefig] fails (say, the output directory is missing). *)
Definition savefig_fails_env : Env :=
  env_with ["a.pdb"; "b.pdb"] three_objects all_objects ok2 ok1
           (fun _ => Some "No such file or directory").

(** The clustering collaborator raises on the pairwise call. *)
Definition clustering_fails_env : Env :=
  env_with ["a.pdb"; "b.pdb"] three_objects all_objects ok2
           (fun _ => Some "degenerate distance matrix") ok1.

(** ** The final report *)

(** The files written by [plt.savefig] calls that returned, in order. *)
Fixpoint saved_files (tr : list event) : list string :=
  match tr with
  | [] => []
  | EvSavefig fname _ _ None :: tr' => fname :: saved_files tr'
  | _ :: tr' => saved_files tr'
  end.

(** The clustering calls, in order: the [function] of a pairwise call,
    ["euclidean"] for the multivariate one. *)
Fixpoint clustering_calls (tr : list event) : list string :=
  match tr with
  | [] => []
  | EvPlotPairwiseHca args _ :: tr' => pw_function args :: clustering_calls tr'
  | EvPlotEuclideanHca _ _ :: tr' => "euclidean" :: clustering_calls tr'
  | _ :: tr' => clustering_calls tr'
  end.

Definition is_report_header (e : event) : bool :=
  match e with
  | EvPrint [PStr s] => String.eqb s "Generated files:"
  | _ => false
  end.

Fixpoint printed_texts (tr : list event) : list string :=
  match tr with
  | [] => []
  | EvPrint [PStr s] :: tr' => s :: printed_texts tr'
  | _ :: tr' => printed_texts tr'
  end.

(** The lines printed after "Generated files:". *)
Fixpoint listed_files (tr : list event) : list string :=
  match tr with
  | [] => []
  | e :: tr' => if is_report_header e then printed_texts tr' else listed_files tr'
  end.

(** The printed lines that report a duration: their leading text and the
    duration. *)
Fixpoint timed_lines (tr : list event) : list (string * Q) :=
  match tr with
  | [] => []
  | EvPrint [PStr text; PFloat _ _ t; PStr _] :: tr' => (text, t) :: timed_lines tr'
  | _ :: tr' => timed_lines tr'
  end.

(** The events the four observations above look at. *)
Definition concerns_report (e : event) : bool :=
  match e with
  | EvSavefig _ _ _ _ | EvPlotPairwiseHca _ _ | EvPlotEuclideanHca _ _ => true
  | EvPrint [PStr s] => String.eqb s "Generated files:"
  | EvPrint _ => true
  | _ => false
  end.

(** The clock never runs backwards. *)
Definition clock_monotone (w : Env) : Prop :=
  forall n m, (n <= m)%nat -> (env_clock w n <= env_clock w m)%Q.

(** ** Properties of blocks, stated once for all scripts *)

(** [guarded sel msgf k]: in a run of [k], a query of [sel] that answers
    fewer than two objects makes the run raise the RuntimeError
    [msgf objs], and then no clustering call was made at all. *)
Definition guarded (sel : string) (msgf : list string -> string) (k : M unit) : Prop :=
  forall w s objs,
    In (EvGetObjectList (Some sel) objs) (snd (k w s)) ->
    len objs < 2 ->
    fst (fst (k w s)) = Raise (RuntimeError (msgf objs)) /\
    Forall (fun e => is_clustering e = false) (snd (k w s)).

(** [validates sel msgf v]: the block [v] queries [sel] once, raises on
    fewer than two objects, and calls no clustering collaborator. *)
Definition validates (sel : string) (msgf : list string -> string) (v : M unit) : Prop :=
  forall w s, exists hs,
    Forall (fun e => is_clustering e = false) (snd (v w s)) /\
    (forall sel' objs, In (EvGetObjectList (Some sel') objs) (snd (v w s)) -> objs = hs) /\
    (len hs < 2 -> fst (fst (v w s)) = Raise (RuntimeError (msgf hs))).

(** [tolerant elig need2 sel warn k]: in a run of [k] that lists the
    objects [objs], with [ref :: rest] the structures eligible for
    alignment, every structure of [rest] is aligned to [ref], in order and
    whatever the earlier alignments answered; the run goes on to query
    [sel] on the same objects; and, when [warn] is set, each failure was
    printed. *)
Definition tolerant (elig : Env -> list string -> list string) (need2 : bool)
           (sel : string) (warn : bool) (k : M unit) : Prop :=
  forall w s objs ref rest,
    In (EvGetObjectList None objs) (snd (k w s)) ->
    elig w objs = ref :: rest ->
    (need2 = true -> rest <> []) ->
    align_calls (snd (k w s)) = map (fun o => (o, ref, env_align w o ref)) rest /\
    (warn = true ->
     forall o msg, In o rest -> env_align w o ref = Some msg ->
                   In (alignment_warning o msg) (snd (k w s))) /\
    In (EvGetObjectList (Some sel) (env_select w sel objs)) (snd (k w s)).

(** [strict sel k]: in a run of [k] that lists the objects [ref :: rest],
    a failing alignment ends the run with the collaborator's exception
    before any selection is queried; when none fails, the structures of
    [rest] are aligned in order and [sel] is queried on the same objects. *)
Definition strict (sel : string) (k : M unit) : Prop :=
  forall w s objs ref rest,
    In (EvGetObjectList None objs) (snd (k w s)) ->
    objs = ref :: rest ->
    ((forall o, In o rest -> env_align w o ref = None) ->
     align_calls (snd (k w s)) = map (fun o => (o, ref, None)) rest /\
     In (EvGetObjectList (Some sel) (env_select w sel objs)) (snd (k w s))) /\
    (forall o, In o rest -> env_align w o ref <> None ->
               (exists msg, fst (fst (k w s)) = Raise (CollaboratorError msg)) /\
               Forall (fun e => is_sel_query e = false) (snd (k w s))).

(** [plot_safe k]: a run of [k] that returns leaves no figure open; no
    clustering call of the run is made while a figure is open; and a
    clustering or save call that raises is the last event of the run,
    which ends with that exception. *)
Definition plot_safe (k : M unit) : Prop :=
  forall w s,
    (fst (fst (k w s)) = Ok tt -> plot_open false (snd (k w s)) = false) /\
    plots_isolated false (snd (k w s)) = true /\
    (forall e, In e (snd (k w s)) -> is_job_failure e = true ->
               (exists tr0, snd (k w s) = tr0 ++ [e]) /\
               (exists msg, fst (fst (k w s)) = Raise (CollaboratorError msg))).

(** [job_like j]: the block [j] either returns, having closed the figure
    it opened, or stops at the clustering or save call that raised. *)
Definition job_like (j : M unit) : Prop :=
  forall w s,
    (exists s' tr,
        j w s = (Ok tt, s', tr) /\
        plot_open false tr = false /\
        plots_isolated false tr = true /\
        Forall (fun e => is_job_failure e = false) tr)
    \/ (exists msg s' tr0 e,
           j w s = (Raise (CollaboratorError msg), s', tr0 ++ [e]) /\
           is_job_failure e = true /\
           plots_isolated false (tr0 ++ [e]) = true /\
           Forall (fun e => is_job_failure e = false) tr0).

(** [reports cfg global_start k]: a run of [k] that returns has made the
    four clustering calls, saved the four files and listed them in that
    order, and has printed the four job durations and the total, each a
    difference of clock readings taken in order. *)
Definition reports (cfg : HcaAll.config) (global_start : Q) (k : M unit) : Prop :=
  forall w s,
    fst (fst (k w s)) = Ok tt ->
    saved_files (snd (k w s))
    = [HcaAll.out_HO cfg; HcaAll.out_Jaccard cfg; HcaAll.out_Overlap cfg;
       HcaAll.out_Euclidean cfg] /\
    clustering_calls (snd (k w s)) = ["ho"; "jaccard"; "overlap"; "euclidean"] /\
    listed_files (snd (k w s))
    = ["  " +++ HcaAll.out_HO cfg; "  " +++ HcaAll.out_Jaccard cfg;
       "  " +++ HcaAll.out_Overlap cfg; "  " +++ HcaAll.out_Euclidean cfg +++ nl] /\
    exists n,
      timed_lines (snd (k w s))
      = [("✔ HO completed in ", env_clock w (1 + n) - env_clock w n);
         ("✔ Jaccard completed in ", env_clock w (3 + n) - env_clock w (2 + n));
         ("✔ Overlap completed in ", env_clock w (5 + n) - env_clock w (4 + n));
         ("✔ Euclidean HCA completed in ", env_clock w (7 + n) - env_clock w (6 + n));
         ("Total execution time: ", env_clock w (8 + n) - global_start)]%Q.

(** The structures a script aligns, out of the objects of the session:
    [hca_HO.py] keeps those with protein atoms, the others take them all. *)
Definition eligible (w : Env) (sc : script) (objs : list string) : list string :=
  match sc with
  | ScriptHO _ => proteins_of w objs
  | _ => objs
  end.

(** [calm k]: a run of [k] that lists fewer than two objects makes no
    alignment call. *)
Definition calm (k : M unit) : Prop :=
  forall w s objs,
    In (EvGetObjectList None objs) (snd (k w s)) ->
    len objs < 2 ->
    align_calls (snd (k w s)) = [].

(** A configuration for [hca_HO.py], whose parameters are left blank in
    the script. *)
Definition sample_HO : config :=
  {| BASE_PATH := "~/ftmap/*.pdb"; S0_CUTOFF := 20; OUTPUT := "run_HO.png" |}.

(** ** The exceptions a run can end with *)

(** [raises_only P m]: an exception that leaves [m] satisfies [P]. *)
Definition raises_only {A} (P : exn -> Prop) (m : M A) : Prop :=
  forall w s e, fst (fst (m w s)) = Raise e -> P e.

(** The texts of the RuntimeErrors the scripts raise themselves. *)
Definition is_diagnostic (msg : string) : bool :=
  String.prefix "No FTMap PDB files found." msg
  || String.prefix "Only " msg
  || String.eqb msg "Not enough protein structures for alignment."
  || String.eqb msg "Not enough hotspots for Jaccard analysis".

(** The scripts that take [objs[0]] of the object list as it comes. *)
Definition takes_first_object (sc : script) : bool :=
  match sc with
  | ScriptAll _ | ScriptJaccard _ | ScriptOverlap _ => true
  | ScriptHO _ | ScriptEuclidian _ => false
  end.

Definition allowed (index_ok : bool) (e : exn) : Prop :=
  match e with
  | RuntimeError msg => is_diagnostic msg = true
  | IndexError => index_ok = true
  | ZeroDivisionError => False
  | CollaboratorError _ => True
  end.

(** ** Clustering on a validated selection *)

(** [vetted k]: a pairwise clustering call of a run of [k] is given a
    selection that an earlier query of the run answered with at least two
    objects. *)
Definition vetted (k : M unit) : Prop :=
  forall w s args r,
    In (EvPlotPairwiseHca args r) (snd (k w s)) ->
    exists objs,
      In (EvGetObjectList (Some (pw_sel args)) objs) (snd (k w s)) /\ 2 <= len objs.

(** [passes sel v]: the block [v] calls no clustering collaborator and,
    when it returns, has queried [sel] and got at least two objects. *)
Definition passes (sel : string) (v : M unit) : Prop :=
  forall w s,
    Forall (fun e => is_clustering e = false) (snd (v w s)) /\
    (forall a, fst (fst (v w s)) = Ok a ->
               exists objs,
                 In (EvGetObjectList (Some sel) objs) (snd (v w s)) /\ 2 <= len objs).

(** ** Loading, observed *)

(** The [load_ftmap] calls of a run, in order, each with its result. *)
Fixpoint load_calls (tr : list event) : list (string * option string) :=
  match tr with
  | [] => []
  | EvLoadFtmap file r :: tr' => (file, r) :: load_calls tr'
  | _ :: tr' => load_calls tr'
  end.

(** Loading the files one after the other, up to and including the first
    one that fails. *)
Fixpoint loads_until_failure (w : Env) (files : list string)
  : list (string * option string) :=
  match files with
  | [] => []
  | f :: fs =>
      match env_load_ftmap w f with
      | inl _ => (f, None) :: loads_until_failure w fs
      | inr msg => [(f, Some msg)]
      end
  end.

(** Any call of a stage after Loading. *)
Definition is_after_loading (e : event) : bool :=
  is_align e || is_selection e || is_clustering e || is_plot_handling e.

(** [loads_ok pattern k]: a run of [k] loads the files matched by
    [pattern] in order and stops at the first failure, which ends the run
    before any later stage. *)
Definition loads_ok (pattern : string) (k : M unit) : Prop :=
  forall w s,
    load_calls (snd (k w s))
    = loads_until_failure w (env_glob w (env_expandvars w (env_expanduser w pattern))) /\
    (forall f msg,
        In (EvLoadFtmap f (Some msg)) (snd (k w s)) ->
        fst (fst (k w s)) = Raise (CollaboratorError msg) /\
        Forall (fun e => is_after_loading e = false) (snd (k w s))).

(** [load_block pattern m]: the same for a block that ends with the
    loading loop. *)
Definition load_block (pattern : string) (m : M unit) : Prop :=
  forall w s, exists r s' tr,
    m w s = (r, s', tr) /\
    load_calls tr
    = loads_until_failure w (env_glob w (env_expandvars w (env_expanduser w pattern))) /\
    Forall (fun e => is_after_loading e = false) tr /\
    (forall f msg, In (EvLoadFtmap f (Some msg)) tr -> r = Raise (CollaboratorError msg)).

(** The second file cannot be parsed. *)
Definition load_fails_env : Env :=
  {| env_has_undo_disable := true;
     env_expanduser := fun p => p;
     env_expandvars := fun p => p;
     env_glob := fun _ => ["a.pdb"; "b.pdb"; "c.pdb"];
     env_load_ftmap := fun f => if String.eqb f "b.pdb" then inr "malformed PDB"
                                else inl (three_objects f);
     env_select := all_objects;
     env_count_atoms := env_count_atoms sample_env;
     env_align := ok2;
     env_plot_pairwise_hca := ok1;
     env_plot_euclidean_hca := ok1;
     env_savefig := ok1;
     env_clock := env_clock sample_env |}.

(** ** An empty session *)

(** A call that comes after the listing of the objects. *)
Definition is_beyond_listing (e : event) : bool :=
  is_align e || is_sel_query e || is_clustering e || is_plot_handling e.

(** [empty_stops k]: a run of [k] that lists no object at all ends with
    the IndexError of [objs[0]], and goes no further. *)
Definition empty_stops (k : M unit) : Prop :=
  forall w s,
    In (EvGetObjectList None []) (snd (k w s)) ->
    fst (fst (k w s)) = Raise IndexError /\
    Forall (fun e => is_beyond_listing e = false) (snd (k w s)).

(** The only file yields no object. *)
Definition no_objects_env : Env :=
  env_with ["a.pdb"] (fun _ => []) all_objects ok2 ok1 ok1.

(** ** The one job of a single-analysis script *)

(** The metric of a single-analysis script and the file it writes;
    [hca_all_analysis.py] has four of each. *)
Definition script_single_job (sc : script) : option (string * string) :=
  match sc with
  | ScriptAll _ => None
  | ScriptHO cfg => Some ("ho", OUTPUT cfg)
  | ScriptEuclidian cfg => Some ("euclidean", OUTPUT cfg)
  | ScriptJaccard cfg => Some ("jaccard", OUTPUT cfg)
  | ScriptOverlap cfg => Some ("overlap", OUTPUT cfg)
  end.

(** [one_job metric out k]: a run of [k] that returns has made one
    clustering call, with [metric], has saved one file, [out], has
    announced it as saved, and has printed one duration, the difference of
    two successive clock readings. *)
Definition one_job (metric out : string) (k : M unit) : Prop :=
  forall w s,
    fst (fst (k w s)) = Ok tt ->
    clustering_calls (snd (k w s)) = [metric] /\
    saved_files (snd (k w s)) = [out] /\
    (exists tail, In (EvPrint [PStr ("Saved: " +++ out +++ tail)]) (snd (k w s))) /\
    (exists text n,
        timed_lines (snd (k w s)) = [(text, env_clock w (S n) - env_clock w n)%Q]).

(** ** The order of the stages *)

(** The stage a call belongs to: 1 Loading (the expansion of the pattern
    and the loads), 2 Aligning (the object list, the protein counts, the
    alignments), 3 Selecting (the query of the hotspot selection), 4
    Analyzing (clustering, caption, save, close).  Console output and
    [undo_disable] belong to no stage. *)
Definition stage_of (e : event) : option nat :=
  match e with
  | EvGlob _ _ | EvLoadFtmap _ _ => Some 1%nat
  | EvGetObjectList None _ | EvCountAtoms _ _ | EvAlign _ _ _ => Some 2%nat
  | EvGetObjectList (Some _) _ => Some 3%nat
  | EvPlotPairwiseHca _ _ | EvPlotEuclideanHca _ _
  | EvTitle _ | EvSavefig _ _ _ _ | EvClose => Some 4%nat
  | EvUndoDisable | EvPrint _ | EvStdoutWrite _ => None
  end.

(** From stage [cur] on, the trace never steps back to an earlier stage. *)
Fixpoint stages_ordered (cur : nat) (tr : list event) : bool :=
  match tr with
  | [] => true
  | e :: tr' =>
      match stage_of e with
      | None => stages_ordered cur tr'
      | Some n => Nat.leb cur n && stages_ordered n tr'
      end
  end.

(** The calls of stage [n], and the calls of no stage. *)
Definition in_stage (n : nat) (e : event) : bool :=
  match stage_of e with
  | None => true
  | Some k => Nat.eqb k n
  end.

Definition ordered_from (cur : nat) (k : M unit) : Prop :=
  forall w s, stages_ordered cur (snd (k w s)) = true.

(** ** The life of a plot *)

Inductive plot_phase := Idle | Plotted | Titled | Saved.

(** One call on the plot of a job: a clustering call needs the previous
    plot closed and, when it returns, leaves a plot; the caption needs a
    fresh plot; the save needs a captioned plot; the close needs a saved
    one.  A call that raises leaves the phase as it is.  [None]: the call
    comes out of turn. *)
Definition plot_step (ph : plot_phase) (e : event) : option plot_phase :=
  match e, ph with
  | EvPlotPairwiseHca _ None, Idle | EvPlotEuclideanHca _ None, Idle => Some Plotted
  | EvPlotPairwiseHca _ (Some _), Idle | EvPlotEuclideanHca _ (Some _), Idle => Some Idle
  | EvPlotPairwiseHca _ _, _ | EvPlotEuclideanHca _ _, _ => None
  | EvTitle _, Plotted => Some Titled
  | EvTitle _, _ => None
  | EvSavefig _ _ _ None, Titled => Some Saved
  | EvSavefig _ _ _ (Some _), Titled => Some Titled
  | EvSavefig _ _ _ _, _ => None
  | EvClose, Saved => Some Idle
  | EvClose, _ => None
  | _, _ => Some ph
  end.

Fixpoint plot_phase_after (ph : plot_phase) (tr : list event) : option plot_phase :=
  match tr with
  | [] => Some ph
  | e :: tr' =>
      match plot_step ph e with
      | Some ph' => plot_phase_after ph' tr'
      | None => None
      end
  end.

(** [in_turn k]: in a run of [k] every call on a plot comes in turn, and
    a run that returns has closed its last plot. *)
Definition in_turn (k : M unit) : Prop :=
  forall w s, exists ph,
    plot_phase_after Idle (snd (k w s)) = Some ph /\
    (fst (fst (k w s)) = Ok tt -> ph = Idle).

(** [job_in_turn j]: the block [j], started with no plot, makes its calls
    in turn and, when it returns, has closed its plot. *)
Definition job_in_turn (j : M unit) : Prop :=
  forall w s,
    (exists s' tr, j w s = (Ok tt, s', tr) /\ plot_phase_after Idle tr = Some Idle)
    \/ (exists e s' tr ph, j w s = (Raise e, s', tr) /\ plot_phase_after Idle tr = Some ph).

(** ** The parameters of the collaborator calls *)

(** The Hotspot Overlap metric is computed on structures as they are
    ([align=False]) within 1.5; the residue metrics align first and use
    5.0; the Euclidean clustering is on S0, CD and MD, normalized, with
    Ward linkage; every call annotates; every file is saved at 300 dpi
    with a tight bounding box. *)
Definition has_fixed_parameters (e : event) : Prop :=
  match e with
  | EvPlotPairwiseHca a _ =>
      pw_annotate a = true /\
      ((pw_function a = "ho" /\ pw_align a = false /\ pw_radius a = 3 # 2)
       \/ ((pw_function a = "jaccard" \/ pw_function a = "overlap")
           /\ pw_align a = true /\ pw_radius a = 5 # 1))
  | EvPlotEuclideanHca a _ =>
      eu_properties a = ["S0"; "CD"; "MD"] /\ eu_normalize a = true /\
      eu_linkage_method a = "ward" /\ eu_annotate a = true
  | EvSavefig _ dpi bbox _ => dpi = 300 /\ bbox = "tight"
  | _ => True
  end.

(** ** The configuration of a run *)

(** The selections every script builds from its cutoff. *)
Definition hotspot_selection (cutoff : Z) : string :=
  "((*.B* *.D*) AND p.S0>" +++ str_Z cutoff +++ ")".

Definition k15_selection (cutoff : Z) : string :=
  "*.K15_* AND p.S0>" +++ str_Z cutoff.

(** The files a script is set to write and the metrics it is written
    for. *)
Definition script_outputs (sc : script) : list string :=
  match sc with
  | ScriptAll cfg =>
      [HcaAll.out_HO cfg; HcaAll.out_Jaccard cfg; HcaAll.out_Overlap cfg;
       HcaAll.out_Euclidean cfg]
  | ScriptHO cfg | ScriptEuclidian cfg | ScriptJaccard cfg | ScriptOverlap cfg =>
      [OUTPUT cfg]
  end.

Definition script_metrics (sc : script) : list string :=
  match sc with
  | ScriptAll _ => ["ho"; "jaccard"; "overlap"; "euclidean"]
  | ScriptHO _ => ["ho"]
  | ScriptEuclidian _ => ["euclidean"]
  | ScriptJaccard _ => ["jaccard"]
  | ScriptOverlap _ => ["overlap"]
  end.

(** A call that stays within the configuration of the script: a query or
    a pairwise clustering on the hotspot selection of the cutoff, a
    Euclidean clustering on the K15 selection of the cutoff, in both
    cases for a metric of the script, and a save to one of its files.
    Only [hca_HO.py] counts atoms. *)
Definition within_script (sc : script) (e : event) : Prop :=
  match e with
  | EvGetObjectList (Some sel) _ =>
      sel = hotspot_selection (script_cutoff sc) /\ script_metrics sc <> ["euclidean"]
  | EvPlotPairwiseHca a _ =>
      pw_sel a = hotspot_selection (script_cutoff sc) /\
      pw_function a <> "euclidean" /\ In (pw_function a) (script_metrics sc)
  | EvPlotEuclideanHca a _ =>
      eu_sel a = k15_selection (script_cutoff sc) /\ In "euclidean" (script_metrics sc)
  | EvSavefig f _ _ _ => In f (script_outputs sc)
  | EvCountAtoms _ _ => script_metrics sc = ["ho"]
  | _ => True
  end.

(** ** The closing line *)

(** The line a script prints once its last file is written. *)
Definition closing_line (sc : script) : event :=
  match sc with
  | ScriptAll _ => EvPrint [PStr "=== PIPELINE COMPLETED SUCCESSFULLY ==="]
  | ScriptHO cfg | ScriptEuclidian cfg | ScriptJaccard cfg =>
      EvPrint [PStr ("Saved: " +++ OUTPUT cfg)]
  | ScriptOverlap cfg => EvPrint [PStr ("Saved: " +++ OUTPUT cfg +++ nl)]
  end.

(** [announced c k]: a run of [k] prints [c] exactly when it returns. *)
Definition announced (c : event) (k : M unit) : Prop :=
  forall w s, In c (snd (k w s)) <-> fst (fst (k w s)) = Ok tt.

(** ** A clock that is behind *)

(** The clock stands at 100 seconds. *)
Definition behind_env : Env :=
  {| env_has_undo_disable := env_has_undo_disable sample_env;
     env_expanduser := env_expanduser sample_env;
     env_expandvars := env_expandvars sample_env;
     env_glob := env_glob sample_env;
     env_load_ftmap := env_load_ftmap sample_env;
     env_select := env_select sample_env;
     env_count_atoms := env_count_atoms sample_env;
     env_align := env_align sample_env;
     env_plot_pairwise_hca := env_plot_pairwise_hca sample_env;
     env_plot_euclidean_hca := env_plot_euclidean_hca sample_env;
     env_savefig := env_savefig sample_env;
     env_clock := fun _ => 100%Q |}.

(** The clock advances by one second a reading and is set back by an
    hour before the last reading of a run of [hca_all_analysis.py] on two
    files, the one of the final report. *)
Definition clock_set_back_env : Env :=
  {| env_has_undo_disable := env_has_undo_disable sample_env;
     env_expanduser := env_expanduser sample_env;
     env_expandvars := env_expandvars sample_env;
     env_glob := env_glob sample_env;
     env_load_ftmap := env_load_ftmap sample_env;
     env_select := env_select sample_env;
     env_count_atoms := env_count_atoms sample_env;
     env_align := env_align sample_env;
     env_plot_pairwise_hca := env_plot_pairwise_hca sample_env;
     env_plot_euclidean_hca := env_plot_euclidean_hca sample_env;
     env_savefig := env_savefig sample_env;
     env_clock := fun n => if (n <? 18)%nat then inject_Z (Z.of_nat n)
                           else (inject_Z (Z.of_nat n) - 3600)%Q |}.

(** * Properties of the scripts *)

(** ** Progress reporter *)

Lemma Qdiv_nonneg (a : Q) (n : Z) : (0 <= a)%Q -> 0 < n -> (0 <= a / inject_Z n)%Q.
Proof.
  intros Ha Hn. unfold Qdiv. apply Qmult_le_0_compat; [exact Ha|].
  apply Qinv_le_0_compat. unfold Qle; simpl. lia.
Qed.

Lemma inject_Z_nonneg (n : Z) : 0 <= n -> (0 <= inject_Z n)%Q.
Proof. intros Hn. unfold Qle; simpl. lia. Qed.

Lemma int_truediv_nonzero (a b : Z) (w : Env) (s : state) :
  b <> 0 -> int_truediv a b w s = (Ok (Z.quot a b), s, []).
Proof.
  intros Hb. unfold int_truediv. destruct (b =? 0) eqn:E; [lia | reflexivity].
Qed.

Lemma float_truediv_nonzero (x : Q) (n : Z) (w : Env) (s : state) :
  n <> 0 -> float_truediv x n w s = (Ok (x / inject_Z n)%Q, s, []).
Proof.
  intros Hn. unfold float_truediv. destruct (Z.eqb_spec n 0) as [E|E]; [lia | reflexivity].
Qed.

(** The guard of each variant keeps the division away from zero: the
    average never raises, and its value is [avg_of] ([avg_single]). *)
Lemma average_runs (elapsed : Q) (current : Z) (w : Env) (s : state) :
  HcaAll.average elapsed current w s = (Ok (HcaAll.avg_of elapsed current), s, []).
Proof.
  unfold HcaAll.average, HcaAll.avg_of.
  destruct (Z.ltb_spec 0 current) as [H|H]; [|reflexivity].
  apply float_truediv_nonzero. lia.
Qed.

Lemma average_single_runs (elapsed : Q) (i : Z) (w : Env) (s : state) :
  average_single elapsed i w s = (Ok (avg_single elapsed i), s, []).
Proof.
  unfold average_single, avg_single.
  destruct (Z.eqb_spec i 0) as [H|H]; [reflexivity|].
  apply float_truediv_nonzero. exact H.
Qed.

(** What each variant writes when [total] is not zero: the bar of
    [int(30 * current / total)] signs and the ETA [eta_of] ([eta_single]). *)
Lemma progress_bar_all_writes (w : Env) (s : state) (current total : Z) (start : Q)
      (prefix : string) :
  total <> 0 ->
  HcaAll.progress_bar current total start prefix w s
  = (Ok tt, tick s,
     [EvStdoutWrite
        [PStr (cr +++ prefix +++ " ["
               +++ (str_mul "=" (Z.quot (30 * current) total)
                    +++ str_mul "-" (30 - Z.quot (30 * current) total))
               +++ "] " +++ str_Z current +++ "/" +++ str_Z total +++ " | "
               +++ "Elapsed: ");
         PFloat 6 1 (env_clock w (ticks s) - start);
         PStr "s | ETA: ";
         PFloat 6 1 (HcaAll.eta_of (env_clock w (ticks s) - start) current total);
         PStr "s"]]).
Proof.
  intros Ht. unfold HcaAll.progress_bar, bind, time_time.
  rewrite average_runs. rewrite int_truediv_nonzero by exact Ht. reflexivity.
Qed.

Lemma progress_bar_single_writes (w : Env) (s : state) (i total : Z) (start : Q)
      (label : string) :
  total <> 0 ->
  progress_bar_single i total start label w s
  = (Ok tt, tick s,
     [EvStdoutWrite
        [PStr (cr +++ label +++ " [" +++ ljust (str_mul "=" (Z.quot (30 * i) total)) 30 "-"
               +++ "] " +++ str_Z i +++ "/" +++ str_Z total +++ " | ETA ");
         PFloat 5 1 (eta_single (env_clock w (ticks s) - start) i total);
         PStr "s"]]).
Proof.
  intros Ht. unfold progress_bar_single, bind, time_time.
  rewrite average_single_runs. rewrite int_truediv_nonzero by exact Ht. reflexivity.
Qed.

(** Both variants of [progress_bar] return normally whenever [total] is
    not zero, and write exactly one line. *)
Lemma progress_bar_all_runs (w : Env) (s : state) (current total : Z) (start : Q)
      (prefix : string) :
  total <> 0 ->
  exists line, HcaAll.progress_bar current total start prefix w s
               = (Ok tt, tick s, [EvStdoutWrite line]).
Proof. intros Ht. rewrite progress_bar_all_writes by exact Ht. eexists. reflexivity. Qed.

Lemma progress_bar_single_runs (w : Env) (s : state) (i total : Z) (start : Q)
      (label : string) :
  total <> 0 ->
  exists line, progress_bar_single i total start label w s
               = (Ok tt, tick s, [EvStdoutWrite line]).
Proof. intros Ht. rewrite progress_bar_single_writes by exact Ht. eexists. reflexivity. Qed.

(** With [total = 0] the bar computation raises, after the clock was read
    and the average taken. *)
Lemma progress_bar_all_zero_total (w : Env) (s : state) (current : Z) (start : Q)
      (prefix : string) :
  HcaAll.progress_bar current 0 start prefix w s = (Raise ZeroDivisionError, tick s, []).
Proof.
  unfold HcaAll.progress_bar, bind, time_time. rewrite average_runs. reflexivity.
Qed.

Lemma progress_bar_single_zero_total (w : Env) (s : state) (i : Z) (start : Q)
      (label : string) :
  progress_bar_single i 0 start label w s = (Raise ZeroDivisionError, tick s, []).
Proof.
  unfold progress_bar_single, bind, time_time. rewrite average_single_runs. reflexivity.
Qed.

(** C5, as the code has it: for [1 <= current <= total], with ints that a
    float holds exactly ([total < 2^53]), and read at a clock value not
    earlier than [start], both variants of [progress_bar] write the ETA
    [(elapsed / current) * (total - current)]; it is non-negative, and it
    is zero when [current = total]. *)
Theorem progress_bar_eta (w : Env) (s : state) (current total : Z) (start : Q)
        (label : string) :
  1 <= total -> 1 <= current <= total -> total < 2 ^ 53 ->
  (start <= env_clock w (ticks s))%Q ->
  exists elapsed eta,
    elapsed = (env_clock w (ticks s) - start)%Q /\
    eta = (elapsed / inject_Z current * inject_Z (total - current))%Q /\
    (0 <= eta)%Q /\
    (current = total -> (eta == 0)%Q) /\
    (exists head,
        HcaAll.progress_bar current total start label w s
        = (Ok tt, tick s,
           [EvStdoutWrite [PStr head; PFloat 6 1 elapsed; PStr "s | ETA: ";
                           PFloat 6 1 eta; PStr "s"]])) /\
    (exists head,
        progress_bar_single current total start label w s
        = (Ok tt, tick s, [EvStdoutWrite [PStr head; PFloat 5 1 eta; PStr "s"]])).
Proof.
  intros Ht Hc _ Hs.
  exists (env_clock w (ticks s) - start)%Q.
  eexists. split; [reflexivity|]. split; [reflexivity|].
  assert (He : (0 <= env_clock w (ticks s) - start)%Q).
  { apply (Qplus_le_l _ _ start). ring_simplify. exact Hs. }
  split.
  { apply Qmult_le_0_compat.
    - apply Qdiv_nonneg; [exact He | lia].
    - apply inject_Z_nonneg. lia. }
  split.
  { intros ->. rewrite Z.sub_diag. change (inject_Z 0) with 0%Q. ring. }
  split.
  - rewrite progress_bar_all_writes by lia.
    unfold HcaAll.eta_of, HcaAll.avg_of.
    destruct (Z.ltb_spec 0 current) as [E|E]; [|lia].
    eexists. reflexivity.
  - rewrite progress_bar_single_writes by lia.
    unfold eta_single, avg_single.
    destruct (Z.eqb_spec current 0) as [E|E]; [lia|].
    eexists. reflexivity.
Qed.

Lemma progress_bar_eta_witness :
  1 <= 4 /\ 1 <= 3 <= 4 /\ 4 < 2 ^ 53 /\
  (0 <= env_clock sample_env (ticks (tick init_state)))%Q /\
  exists elapsed eta,
    elapsed = (env_clock sample_env (ticks (tick init_state)) - 0)%Q /\
    eta = (elapsed / inject_Z 3 * inject_Z (4 - 3))%Q /\
    (0 <= eta)%Q /\
    (3 = 4 -> (eta == 0)%Q) /\
    (exists head,
        HcaAll.progress_bar 3 4 0 "Loading" sample_env (tick init_state)
        = (Ok tt, tick (tick init_state),
           [EvStdoutWrite [PStr head; PFloat 6 1 elapsed; PStr "s | ETA: ";
                           PFloat 6 1 eta; PStr "s"]])) /\
    (exists head,
        progress_bar_single 3 4 0 "Loading" sample_env (tick init_state)
        = (Ok tt, tick (tick init_state),
           [EvStdoutWrite [PStr head; PFloat 5 1 eta; PStr "s"]])).
Proof.
  assert (H1 : 1 <= 4) by lia.
  assert (H2 : 1 <= 3 <= 4) by lia.
  assert (H3 : 4 < 2 ^ 53) by reflexivity.
  assert (H4 : (0 <= env_clock sample_env (ticks (tick init_state)))%Q)
    by (vm_compute; discriminate).
  split; [exact H1|]. split; [exact H2|]. split; [exact H3|]. split; [exact H4|].
  exact (progress_bar_eta sample_env (tick init_state) 3 4 0 "Loading" H1 H2 H3 H4).
Defined.

(** C5 fails as stated: the clock is read with [time.time()], and a call
    whose reading is earlier than [start_time] (here 100 against 105, at
    item 1 of 2) writes a negative ETA in both variants. *)
Lemma eta_is_negative_when_the_clock_is_behind :
  1 <= 2 /\ 1 <= 1 <= 2 /\
  exists eta,
    (eta < 0)%Q /\
    (exists head elapsed,
        HcaAll.progress_bar 1 2 105 "Loading" behind_env init_state
        = (Ok tt, tick init_state,
           [EvStdoutWrite [PStr head; PFloat 6 1 elapsed; PStr "s | ETA: ";
                           PFloat 6 1 eta; PStr "s"]])) /\
    (exists head,
        progress_bar_single 1 2 105 "Loading" behind_env init_state
        = (Ok tt, tick init_state,
           [EvStdoutWrite [PStr head; PFloat 5 1 eta; PStr "s"]])).
Proof.
  split; [lia|]. split; [lia|].
  eexists. split; [|split; [eexists; eexists; vm_compute; reflexivity|]].
  - vm_compute. reflexivity.
  - eexists. vm_compute. reflexivity.
Qed.

(** C10: at [current = 0] the division [elapsed / current] would raise
    ZeroDivisionError; neither variant evaluates it, the average is taken
    as 0 instead, and for every [total >= 1] both variants write one
    progress line, with an empty bar and an ETA of 0, and return without
    raising. *)
Theorem progress_bar_total_at_zero (w : Env) (s : state) (total : Z) (start : Q)
        (label : string) :
  1 <= total ->
  (forall elapsed,
      float_truediv elapsed 0 w s = (Raise ZeroDivisionError, s, []) /\
      HcaAll.average elapsed 0 w s = (Ok 0%Q, s, []) /\
      average_single elapsed 0 w s = (Ok 0%Q, s, [])) /\
  HcaAll.progress_bar 0 total start label w s
  = (Ok tt, tick s,
     [EvStdoutWrite
        [PStr (cr +++ label +++ " [" +++ str_mul "-" 30 +++ "] " +++ "0" +++ "/"
               +++ str_Z total +++ " | " +++ "Elapsed: ");
         PFloat 6 1 (env_clock w (ticks s) - start); PStr "s | ETA: ";
         PFloat 6 1 0; PStr "s"]]) /\
  progress_bar_single 0 total start label w s
  = (Ok tt, tick s,
     [EvStdoutWrite
        [PStr (cr +++ label +++ " [" +++ str_mul "-" 30 +++ "] " +++ "0" +++ "/"
               +++ str_Z total +++ " | ETA ");
         PFloat 5 1 0; PStr "s"]]).
Proof.
  intros Ht. split; [intros elapsed; repeat split|]. split.
  - rewrite progress_bar_all_writes by lia. reflexivity.
  - rewrite progress_bar_single_writes by lia. reflexivity.
Qed.

Lemma progress_bar_total_at_zero_witness :
  1 <= 5 /\
  HcaAll.progress_bar 0 5 0 "Loading" sample_env init_state
  = (Ok tt, tick init_state,
     [EvStdoutWrite
        [PStr (cr +++ "Loading [------------------------------] 0/5 | Elapsed: ");
         PFloat 6 1 (0 - 0); PStr "s | ETA: "; PFloat 6 1 0; PStr "s"]]) /\
  progress_bar_single 0 5 0 "Loading" sample_env init_state
  = (Ok tt, tick init_state,
     [EvStdoutWrite
        [PStr (cr +++ "Loading [------------------------------] 0/5 | ETA ");
         PFloat 5 1 0; PStr "s"]]).
Proof.
  assert (H : 1 <= 5) by lia.
  split; [exact H|].
  exact (proj2 (progress_bar_total_at_zero sample_env init_state 5 0 "Loading" H)).
Defined.

(** ** Reasoning about runs *)

Lemma run_bind_ok {A B} (m : M A) (f : A -> M B) w s a s1 tr1 :
  m w s = (Ok a, s1, tr1) ->
  bind m f w s = match f a w s1 with
                 | (r, s2, tr2) => (r, s2, tr1 ++ tr2)
                 end.
Proof. intros E. unfold bind. rewrite E. reflexivity. Qed.

Lemma run_bind_raise {A B} (m : M A) (f : A -> M B) w s e s1 tr1 :
  m w s = (Raise e, s1, tr1) -> bind m f w s = (Raise e, s1, tr1).
Proof. intros E. unfold bind. rewrite E. reflexivity. Qed.

Section Emits.
Variable P : event -> Prop.

Lemma emits_ret {A} (a : A) : emits P (ret a).
Proof. intros w s. constructor. Qed.

Lemma emits_raise {A} (e : exn) : emits P (@raise A e).
Proof. intros w s. constructor. Qed.

Lemma emits_emit (e : event) : P e -> emits P (emit e).
Proof. intros H w s. repeat constructor. exact H. Qed.

Lemma emits_bind {A B} (m : M A) (f : A -> M B) :
  emits P m -> (forall a, emits P (f a)) -> emits P (bind m f).
Proof.
  intros Hm Hf w s. unfold bind. specialize (Hm w s).
  destruct (m w s) as [[[a|e] s1] tr1]; simpl in *; [|exact Hm].
  specialize (Hf a w s1). destruct (f a w s1) as [[r s2] tr2]; simpl in *.
  apply Forall_app. split; assumption.
Qed.

Lemma emits_try_except {A} (m : M A) (h : exn -> M A) :
  emits P m -> (forall e, emits P (h e)) -> emits P (try_except m h).
Proof.
  intros Hm Hh w s. unfold try_except. specialize (Hm w s).
  destruct (m w s) as [[[a|e] s1] tr1]; simpl in *; [exact Hm|].
  specialize (Hh e w s1). destruct (h e w s1) as [[r s2] tr2]; simpl in *.
  apply Forall_app. split; assumption.
Qed.

Lemma emits_for_enumerate {A} (xs : list A) (body : Z -> A -> M unit) :
  (forall i x, emits P (body i x)) -> forall i, emits P (for_enumerate xs i body).
Proof.
  intros Hb. induction xs as [|x xs IH]; intros i; simpl.
  - apply emits_ret.
  - apply emits_bind; [apply Hb | intros _; apply IH].
Qed.

Lemma emits_for_each {A} (xs : list A) (body : A -> M unit) :
  (forall x, emits P (body x)) -> emits P (for_each xs body).
Proof.
  intros Hb. induction xs as [|x xs IH]; simpl.
  - apply emits_ret.
  - apply emits_bind; [apply Hb | intros _; apply IH].
Qed.

Lemma emits_filter_M {A} (test : A -> M bool) (xs : list A) :
  (forall x, emits P (test x)) -> emits P (filter_M test xs).
Proof.
  intros Ht. induction xs as [|x xs IH]; simpl.
  - apply emits_ret.
  - apply emits_bind; [apply Ht | intros b].
    apply emits_bind; [apply IH | intros rest; apply emits_ret].
Qed.

Lemma emits_time_time : emits P time_time.
Proof. intros w s. constructor. Qed.

Lemma emits_list_first (xs : list string) : emits P (list_first xs).
Proof. destruct xs; [apply emits_raise | apply emits_ret]. Qed.

Lemma emits_int_truediv (a b : Z) : emits P (int_truediv a b).
Proof. unfold int_truediv. destruct (b =? 0); [apply emits_raise | apply emits_ret]. Qed.

Lemma emits_float_truediv (x : Q) (n : Z) : emits P (float_truediv x n).
Proof. unfold float_truediv. destruct (n =? 0); [apply emits_raise | apply emits_ret]. Qed.

Lemma emits_average (elapsed : Q) (current : Z) : emits P (HcaAll.average elapsed current).
Proof.
  unfold HcaAll.average. destruct (0 <? current); [apply emits_float_truediv | apply emits_ret].
Qed.

Lemma emits_average_single (elapsed : Q) (i : Z) : emits P (average_single elapsed i).
Proof.
  unfold average_single. destruct (i =? 0); [apply emits_ret | apply emits_float_truediv].
Qed.

Lemma emits_undo_disable : P EvUndoDisable -> emits P pm_undo_disable_if_present.
Proof.
  intros H w s. unfold pm_undo_disable_if_present.
  destruct (env_has_undo_disable w); repeat constructor. exact H.
Qed.

Lemma emits_glob (pattern : string) :
  (forall p files, P (EvGlob p files)) -> emits P (glob_expanded pattern).
Proof. intros H w s. repeat constructor. apply H. Qed.

Lemma emits_load_ftmap (file : string) :
  (forall r, P (EvLoadFtmap file r)) -> emits P (load_ftmap file).
Proof.
  intros H w s. unfold load_ftmap.
  destruct (env_load_ftmap w file); repeat constructor; apply H.
Qed.

Lemma emits_get_object_list :
  (forall objs, P (EvGetObjectList None objs)) -> emits P pm_get_object_list.
Proof. intros H w s. repeat constructor. apply H. Qed.

Lemma emits_get_object_list_sel (sel : string) :
  (forall objs, P (EvGetObjectList (Some sel) objs)) ->
  emits P (pm_get_object_list_sel sel).
Proof. intros H w s. repeat constructor. apply H. Qed.

Lemma emits_count_atoms (sel : string) :
  (forall n, P (EvCountAtoms sel n)) -> emits P (pm_count_atoms sel).
Proof. intros H w s. repeat constructor. apply H. Qed.

Lemma emits_align (mobile target : string) :
  (forall r, P (EvAlign mobile target r)) -> emits P (pm_align mobile target).
Proof.
  intros H w s. unfold pm_align.
  destruct (env_align w mobile target); repeat constructor; apply H.
Qed.

Lemma emits_plot_pairwise (args : pairwise_args) :
  (forall r, P (EvPlotPairwiseHca args r)) -> emits P (plot_pairwise_hca args).
Proof.
  intros H w s. unfold plot_pairwise_hca.
  destruct (env_plot_pairwise_hca w args); repeat constructor; apply H.
Qed.

Lemma emits_plot_euclidean (args : euclidean_args) :
  (forall r, P (EvPlotEuclideanHca args r)) -> emits P (plot_euclidean_hca args).
Proof.
  intros H w s. unfold plot_euclidean_hca.
  destruct (env_plot_euclidean_hca w args); repeat constructor; apply H.
Qed.

Lemma emits_savefig (fname : string) (dpi : Z) (bbox : string) :
  (forall r, P (EvSavefig fname dpi bbox r)) -> emits P (plt_savefig fname dpi bbox).
Proof.
  intros H w s. unfold plt_savefig.
  destruct (env_savefig w fname); repeat constructor; apply H.
Qed.

Lemma emits_progress_bar_all current total start prefix :
  (forall line, P (EvStdoutWrite line)) ->
  emits P (HcaAll.progress_bar current total start prefix).
Proof.
  intros H. unfold HcaAll.progress_bar.
  apply emits_bind; [apply emits_time_time | intros now].
  apply emits_bind; [apply emits_average | intros avg].
  apply emits_bind; [apply emits_int_truediv | intros filled].
  apply emits_emit. apply H.
Qed.

Lemma emits_progress_bar_single i total start label :
  (forall line, P (EvStdoutWrite line)) ->
  emits P (progress_bar_single i total start label).
Proof.
  intros H. unfold progress_bar_single.
  apply emits_bind; [apply emits_time_time | intros now].
  apply emits_bind; [apply emits_average_single | intros avg].
  apply emits_bind; [apply emits_int_truediv | intros filled].
  apply emits_emit. apply H.
Qed.
End Emits.

(** One step of a proof that a block emits only events of some class;
    [leaf] settles the class membership of a single event. *)
Ltac emits_step leaf :=
  lazymatch goal with
  | |- emits _ (bind _ _) => apply emits_bind; [|intros ?]
  | |- emits _ (ret _) => apply emits_ret
  | |- emits _ (raise _) => apply emits_raise
  | |- emits _ (try_except _ _) => apply emits_try_except; [|intros ?]
  | |- emits _ (for_enumerate _ _ _) => apply emits_for_enumerate; intros ? ?
  | |- emits _ (for_each _ _) => apply emits_for_each; intros ?
  | |- emits _ (filter_M _ _) => apply emits_filter_M; intros ?
  | |- emits _ time_time => apply emits_time_time
  | |- emits _ (list_first _) => apply emits_list_first
  | |- emits _ (int_truediv _ _) => apply emits_int_truediv
  | |- emits _ (print _) => apply emits_emit; leaf
  | |- emits _ (stdout_write _) => apply emits_emit; leaf
  | |- emits _ (plt_title _) => apply emits_emit; leaf
  | |- emits _ plt_close => apply emits_emit; leaf
  | |- emits _ (emit _) => apply emits_emit; leaf
  | |- emits _ pm_undo_disable_if_present => apply emits_undo_disable; leaf
  | |- emits _ (glob_expanded _) => apply emits_glob; intros ? ?; leaf
  | |- emits _ (load_ftmap _) => apply emits_load_ftmap; intros ?; leaf
  | |- emits _ pm_get_object_list => apply emits_get_object_list; intros ?; leaf
  | |- emits _ (pm_get_object_list_sel _) =>
      apply emits_get_object_list_sel; intros ?; leaf
  | |- emits _ (pm_count_atoms _) => apply emits_count_atoms; intros ?; leaf
  | |- emits _ (pm_align _ _) => apply emits_align; intros ?; leaf
  | |- emits _ (plot_pairwise_hca _) => apply emits_plot_pairwise; intros ?; leaf
  | |- emits _ (plot_euclidean_hca _) => apply emits_plot_euclidean; intros ?; leaf
  | |- emits _ (plt_savefig _ _ _) => apply emits_savefig; intros ?; leaf
  | |- emits _ (savefig_300_tight _) => apply emits_savefig; intros ?; leaf
  | |- emits _ (HcaAll.progress_bar _ _ _ _) =>
      apply emits_progress_bar_all; intros ?; leaf
  | |- emits _ (progress_bar_single _ _ _ _) =>
      apply emits_progress_bar_single; intros ?; leaf
  | |- emits _ (if ?b then _ else _) => destruct b
  | |- emits _ (match ?x with _ => _ end) => destruct x
  end.

Ltac emits_with leaf := repeat (emits_step leaf).

(** The usual leaf: the class is a boolean test that computes. *)
Ltac emits_bool := emits_with ltac:(reflexivity).

(** ** Loading *)

(** C4: when the expanded pattern matches no file, every script stops
    with the RuntimeError "No FTMap PDB files found..." and its trace
    holds no load, alignment, selection, clustering or plot call. *)
Theorem no_input_stops_the_run (w : Env) (sc : script) :
  env_glob w (expanded_pattern w sc) = [] ->
  (exists msg, fst (run sc w) = Raise (RuntimeError msg) /\
               String.prefix "No FTMap PDB files found." msg = true) /\
  Forall (fun e => is_stage_call e = false) (snd (run sc w)).
Proof.
  unfold expanded_pattern, run, run_script. intros Hglob.
  destruct sc as [cfg|cfg|cfg|cfg|cfg]; simpl in Hglob; simpl script_main;
    [ unfold HcaAll.main, HcaAll.startup, HcaAll.load_structures
    | unfold HcaHO.main, HcaHO.load_structures
    | unfold HcaEuclidian.main, HcaEuclidian.load_structures
    | unfold HcaJaccard.main, HcaJaccard.load_structures
    | unfold HcaOverlap.main, HcaOverlap.load_structures ];
    unfold bind, pm_undo_disable_if_present, time_time, print, emit, ret,
      glob_expanded, raise, len;
    rewrite Hglob;
    destruct (env_has_undo_disable w); simpl;
    (split; [eexists; split; reflexivity | repeat constructor]).
Qed.

Lemma no_input_stops_the_run_witness :
  env_glob no_files_env (expanded_pattern no_files_env (ScriptAll sample_all)) = [] /\
  (exists msg, fst (run (ScriptAll sample_all) no_files_env) = Raise (RuntimeError msg) /\
               String.prefix "No FTMap PDB files found." msg = true) /\
  Forall (fun e => is_stage_call e = false) (snd (run (ScriptAll sample_all) no_files_env)).
Proof.
  assert (H : env_glob no_files_env (expanded_pattern no_files_env (ScriptAll sample_all))
              = []) by reflexivity.
  split; [exact H|].
  exact (no_input_stops_the_run no_files_env (ScriptAll sample_all) H).
Defined.

(** ** Hotspot validation *)

Lemma prefix_append (sub rest : string) : String.prefix sub (sub +++ rest) = true.
Proof.
  induction sub as [|c sub IH]; simpl.
  - destruct rest; reflexivity.
  - destruct (ascii_dec c c) as [_|Hne]; [exact IH | exfalso; apply Hne; reflexivity].
Qed.

Lemma contains_unfold (sub s : string) :
  contains sub s
  = String.prefix sub s
    || match s with
       | EmptyString => false
       | String _ s' => contains sub s'
       end.
Proof. destruct s; reflexivity. Qed.

Lemma contains_here (sub rest : string) : contains sub (sub +++ rest) = true.
Proof. rewrite contains_unfold, prefix_append. reflexivity. Qed.

Lemma contains_later (sub before s : string) :
  contains sub s = true -> contains sub (before +++ s) = true.
Proof.
  intros H. induction before as [|c before IH]; simpl.
  - exact H.
  - rewrite IH. apply orb_true_r.
Qed.

Lemma no_sel_query_in (tr : list event) (sel : option string) (objs : list string) :
  Forall (fun e => is_sel_query e = false) tr ->
  In (EvGetObjectList sel objs) tr -> sel = None.
Proof.
  intros HF HIn. rewrite Forall_forall in HF. specialize (HF _ HIn).
  destruct sel; [discriminate | reflexivity].
Qed.

Lemma guarded_after {A} sel msgf (m : M A) (f : A -> M unit) :
  emits (fun e => is_sel_query e = false) m ->
  emits (fun e => is_clustering e = false) m ->
  (forall a, guarded sel msgf (f a)) ->
  guarded sel msgf (bind m f).
Proof.
  intros Hsel Hcl Hf w s objs. unfold bind.
  specialize (Hsel w s). specialize (Hcl w s).
  destruct (m w s) as [[[a|e] s1] tr1]; simpl in *.
  - specialize (Hf a w s1 objs). destruct (f a w s1) as [[r s2] tr2]; simpl in *.
    intros HIn Hlen. apply in_app_or in HIn. destruct HIn as [HIn|HIn].
    + apply (no_sel_query_in _ _ _ Hsel) in HIn. discriminate.
    + destruct (Hf HIn Hlen) as [Hr Hc]. split; [exact Hr|].
      apply Forall_app. split; assumption.
  - intros HIn _. apply (no_sel_query_in _ _ _ Hsel) in HIn. discriminate.
Qed.

Lemma guarded_validation sel msgf (v post : M unit) :
  validates sel msgf v ->
  emits (fun e => is_sel_query e = false) post ->
  guarded sel msgf (bind v (fun _ => post)).
Proof.
  intros Hv Hpost w s objs. unfold bind.
  destruct (Hv w s) as [hs [Hcl [Hone Hraise]]].
  destruct (v w s) as [[[a|e] s1] tr1]; simpl in *.
  - specialize (Hpost w s1). destruct (post w s1) as [[r s2] tr2]; simpl in *.
    intros HIn Hlen. apply in_app_or in HIn. destruct HIn as [HIn|HIn].
    + apply Hone in HIn. subst objs. specialize (Hraise Hlen). discriminate.
    + apply (no_sel_query_in _ _ _ Hpost) in HIn. discriminate.
  - intros HIn Hlen. apply Hone in HIn. subst objs. split; [auto | exact Hcl].
Qed.

(** The validation block of each script that has one. *)
Ltac validates_tac :=
  intros w s; eexists;
  cbv [bind pm_get_object_list_sel print emit raise ret];
  match goal with
  | |- context [len ?hs <? 2] => destruct (Z.ltb_spec (len hs) 2)
  end; simpl;
  (split; [repeat constructor|]);
  (split;
   [ intros sel' objs HIn;
     repeat (destruct HIn as [HIn|HIn]; [try discriminate; injection HIn; intros; subst; reflexivity|]);
     destruct HIn
   | intros Hlen; first [reflexivity | lia] ]).

Lemma validates_all (cfg : HcaAll.config) :
  validates (HcaAll.HOTSPOT_SEL cfg)
            (fun hs => HcaAll.too_few_hotspots_msg (len hs) (HcaAll.S0_CUTOFF cfg))
            (HcaAll.select_hotspots cfg).
Proof. unfold HcaAll.select_hotspots. validates_tac. Qed.

Lemma validates_HO (cfg : config) :
  validates (HcaHO.HOTSPOT_SEL cfg)
            (fun hs => HcaHO.too_few_hotspots_msg (len hs) (S0_CUTOFF cfg))
            (HcaHO.validate_hotspots cfg).
Proof. unfold HcaHO.validate_hotspots. validates_tac. Qed.

Lemma validates_jaccard (cfg : config) :
  validates (HcaJaccard.HOTSPOT_SEL cfg)
            (fun _ => "Not enough hotspots for Jaccard analysis")
            (HcaJaccard.validate_hotspots cfg).
Proof. unfold HcaJaccard.validate_hotspots. validates_tac. Qed.

Lemma validates_overlap (cfg : config) :
  validates (HcaOverlap.HOTSPOT_SEL cfg)
            (fun hs => HcaOverlap.too_few_hotspots_msg (len hs) (S0_CUTOFF cfg))
            (HcaOverlap.validate_hotspots cfg).
Proof. unfold HcaOverlap.validate_hotspots. validates_tac. Qed.

Create HintDb blocks.
#[local] Hint Unfold
  HcaAll.startup HcaAll.load_structures HcaAll.align_structures HcaAll.select_hotspots
  HcaAll.job_HO HcaAll.job_Jaccard HcaAll.job_Overlap HcaAll.job_Euclidean
  HcaAll.final_report
  HcaHO.load_structures HcaHO.align_proteins HcaHO.is_protein HcaHO.validate_hotspots
  HcaHO.job HcaHO.progress_bar
  HcaEuclidian.load_structures HcaEuclidian.job HcaEuclidian.progress_bar
  HcaJaccard.load_structures HcaJaccard.align_structures HcaJaccard.validate_hotspots
  HcaJaccard.job HcaJaccard.progress_bar
  HcaOverlap.load_structures HcaOverlap.align_structures HcaOverlap.validate_hotspots
  HcaOverlap.job HcaOverlap.progress_bar : blocks.

(** A block, opened up, emits only events on which the test computes. *)
Ltac emits_block := autounfold with blocks; emits_bool.

Lemma guarded_all (cfg : HcaAll.config) :
  guarded (HcaAll.HOTSPOT_SEL cfg)
          (fun hs => HcaAll.too_few_hotspots_msg (len hs) (HcaAll.S0_CUTOFF cfg))
          (HcaAll.main cfg).
Proof.
  unfold HcaAll.main.
  apply guarded_after; [emits_block | emits_block | intros global_start].
  apply guarded_after; [emits_block | emits_block | intros _].
  apply guarded_after; [emits_block | emits_block | intros _].
  apply guarded_validation; [apply validates_all | emits_block].
Qed.

Lemma guarded_HO (cfg : config) :
  guarded (HcaHO.HOTSPOT_SEL cfg)
          (fun hs => HcaHO.too_few_hotspots_msg (len hs) (S0_CUTOFF cfg))
          (HcaHO.main cfg).
Proof.
  unfold HcaHO.main.
  apply guarded_after; [emits_block | emits_block | intros _].
  apply guarded_after; [emits_block | emits_block | intros _].
  apply guarded_validation; [apply validates_HO | emits_block].
Qed.

Lemma guarded_jaccard (cfg : config) :
  guarded (HcaJaccard.HOTSPOT_SEL cfg)
          (fun _ => "Not enough hotspots for Jaccard analysis")
          (HcaJaccard.main cfg).
Proof.
  unfold HcaJaccard.main.
  apply guarded_after; [emits_block | emits_block | intros _].
  apply guarded_after; [emits_block | emits_block | intros _].
  apply guarded_validation; [apply validates_jaccard | emits_block].
Qed.

Lemma guarded_overlap (cfg : config) :
  guarded (HcaOverlap.HOTSPOT_SEL cfg)
          (fun hs => HcaOverlap.too_few_hotspots_msg (len hs) (S0_CUTOFF cfg))
          (HcaOverlap.main cfg).
Proof.
  unfold HcaOverlap.main.
  apply guarded_after; [emits_block | emits_block | intros _].
  apply guarded_after; [emits_block | emits_block | intros _].
  apply guarded_validation; [apply validates_overlap | emits_block].
Qed.

Lemma guarded_run sel msgf (m : M unit) (w : Env) (objs : list string) :
  guarded sel msgf m ->
  In (EvGetObjectList (Some sel) objs) (snd (run_script m w)) ->
  len objs < 2 ->
  fst (run_script m w) = Raise (RuntimeError (msgf objs)) /\
  Forall (fun e => is_clustering e = false) (snd (run_script m w)).
Proof.
  intros G. specialize (G w init_state objs). unfold run_script.
  destruct (m w init_state) as [[r s] tr]. exact G.
Qed.

Lemma emits_run (P : event -> Prop) (m : M unit) (w : Env) :
  emits P m -> Forall P (snd (run_script m w)).
Proof.
  intros H. specialize (H w init_state). unfold run_script.
  destruct (m w init_state) as [[r s] tr]. exact H.
Qed.

(** C1, as the scripts have it: whenever the validation query of a script
    answers [k < 2] objects, the run raises a RuntimeError and no
    clustering call was made; in [hca_all_analysis.py], [hca_HO.py] and
    [hca_overlap.py] the message contains [k] and the cutoff. *)
Theorem too_few_hotspots_stop_the_run (w : Env) (sc : script) (sel : string)
        (objs : list string) :
  script_hotspot_sel sc = Some sel ->
  In (EvGetObjectList (Some sel) objs) (snd (run sc w)) ->
  len objs < 2 ->
  Forall (fun e => is_clustering e = false) (snd (run sc w)) /\
  exists msg,
    fst (run sc w) = Raise (RuntimeError msg) /\
    match sc with
    | ScriptJaccard _ => True
    | _ => contains (str_Z (len objs)) msg = true /\
           contains (str_Z (script_cutoff sc)) msg = true
    end.
Proof.
  destruct sc as [cfg|cfg|cfg|cfg|cfg]; simpl script_hotspot_sel; unfold run;
    simpl script_main; simpl script_cutoff; intros Hsel; try discriminate;
    injection Hsel as <-; intros HIn Hlen.
  - destruct (guarded_run _ _ _ w objs (guarded_all cfg) HIn Hlen) as [Hr Hc].
    split; [exact Hc|]. eexists. split; [exact Hr|].
    unfold HcaAll.too_few_hotspots_msg. split.
    + apply (contains_later _ "Only "). apply contains_here.
    + apply (contains_later _ "Only "). apply contains_later.
      apply (contains_later _ " hotspots found with S0 > "). apply contains_here.
  - destruct (guarded_run _ _ _ w objs (guarded_HO cfg) HIn Hlen) as [Hr Hc].
    split; [exact Hc|]. eexists. split; [exact Hr|].
    unfold HcaHO.too_few_hotspots_msg. split.
    + apply (contains_later _ "Only "). apply contains_here.
    + apply (contains_later _ "Only "). apply contains_later.
      apply (contains_later _ " hotspots found with S0 > "). apply contains_here.
  - destruct (guarded_run _ _ _ w objs (guarded_jaccard cfg) HIn Hlen) as [Hr Hc].
    split; [exact Hc|]. eexists. split; [exact Hr | exact I].
  - destruct (guarded_run _ _ _ w objs (guarded_overlap cfg) HIn Hlen) as [Hr Hc].
    split; [exact Hc|]. eexists. split; [exact Hr|].
    unfold HcaOverlap.too_few_hotspots_msg. split.
    + apply (contains_later _ "Only "). apply contains_here.
    + apply (contains_later _ "Only "). apply contains_later.
      apply (contains_later _ " hotspots found with S0 > "). apply contains_here.
Qed.

Ltac in_list := repeat (first [left; reflexivity | right]).

Lemma too_few_hotspots_stop_the_run_witness :
  script_hotspot_sel (ScriptAll sample_all) = Some "((*.B* *.D*) AND p.S0>20)" /\
  In (EvGetObjectList (Some "((*.B* *.D*) AND p.S0>20)") ["a.pdb.B_00"])
     (snd (run (ScriptAll sample_all) one_hotspot_env)) /\
  len ["a.pdb.B_00"] < 2 /\
  Forall (fun e => is_clustering e = false) (snd (run (ScriptAll sample_all) one_hotspot_env)) /\
  exists msg,
    fst (run (ScriptAll sample_all) one_hotspot_env) = Raise (RuntimeError msg) /\
    contains (str_Z (len ["a.pdb.B_00"])) msg = true /\
    contains (str_Z (script_cutoff (ScriptAll sample_all))) msg = true.
Proof.
  assert (H0 : script_hotspot_sel (ScriptAll sample_all)
               = Some "((*.B* *.D*) AND p.S0>20)") by reflexivity.
  assert (H1 : In (EvGetObjectList (Some "((*.B* *.D*) AND p.S0>20)") ["a.pdb.B_00"])
                  (snd (run (ScriptAll sample_all) one_hotspot_env)))
    by (vm_compute; in_list).
  assert (H2 : len ["a.pdb.B_00"] < 2) by reflexivity.
  split; [exact H0|]. split; [exact H1|]. split; [exact H2|].
  exact (too_few_hotspots_stop_the_run one_hotspot_env (ScriptAll sample_all) _ _
           H0 H1 H2).
Defined.

(** C1 fails as stated: with one hotspot above the cutoff 20,
    [hca_jaccard.py] raises a message that holds neither "1" nor "20";
    and [hca_Euclidian.py], whose selection is empty in the same
    environment, goes on to call [plot_euclidean_hca]. *)
Lemma jaccard_message_and_euclidian_unchecked :
  (In (EvGetObjectList (Some "((*.B* *.D*) AND p.S0>20)") ["a.pdb.B_00"])
      (snd (run (ScriptJaccard HcaJaccard.as_written) one_hotspot_env)) /\
   fst (run (ScriptJaccard HcaJaccard.as_written) one_hotspot_env)
   = Raise (RuntimeError "Not enough hotspots for Jaccard analysis") /\
   contains (str_Z 1) "Not enough hotspots for Jaccard analysis" = false /\
   contains (str_Z 20) "Not enough hotspots for Jaccard analysis" = false) /\
  (env_select one_hotspot_env "*.K15_* AND p.S0>20"
              (three_objects "a.pdb" ++ three_objects "b.pdb") = [] /\
   fst (run (ScriptEuclidian HcaEuclidian.as_written) one_hotspot_env) = Ok tt /\
   In (EvPlotEuclideanHca
         {| eu_sel := "*.K15_* AND p.S0>20"; eu_properties := ["S0"; "CD"; "MD"];
            eu_normalize := true; eu_linkage_method := "ward";
            eu_hide_threshold := None; eu_annotate := true |} None)
      (snd (run (ScriptEuclidian HcaEuclidian.as_written) one_hotspot_env))).
Proof.
  split; [split; [|split; [|split]] | split; [|split]];
    try (vm_compute; reflexivity); vm_compute; in_list.
Qed.

(** ** Alignment *)

Lemma align_calls_app (tr1 tr2 : list event) :
  align_calls (tr1 ++ tr2) = align_calls tr1 ++ align_calls tr2.
Proof.
  induction tr1 as [|e tr1 IH]; simpl; [reflexivity|].
  destruct e; simpl; rewrite IH; reflexivity.
Qed.

Lemma align_calls_none (tr : list event) :
  Forall (fun e => is_get_all e || is_align e = false) tr -> align_calls tr = [].
Proof.
  induction 1 as [|e tr He _ IH]; simpl; [reflexivity|].
  destruct e; simpl in *; try exact IH. discriminate.
Qed.

Lemma no_get_all_in (tr : list event) (sel : option string) (objs : list string) :
  Forall (fun e => is_get_all e || is_align e = false) tr ->
  In (EvGetObjectList sel objs) tr -> exists q, sel = Some q.
Proof.
  intros HF HIn. rewrite Forall_forall in HF. specialize (HF _ HIn).
  destruct sel as [q|]; [exists q; reflexivity | discriminate].
Qed.

(** The alignment loops of [hca_all_analysis.py] and [hca_HO.py]: each
    structure is aligned inside a [try], the handler [h] returns normally
    after logging [hlog], and the progress call [pb] returns normally.
    Such a loop visits every structure, whatever the alignments answer,
    and leaves the session as it was. *)
Section TolerantLoop.
Variable ref : string.
Variable h : string -> exn -> M unit.
Variable hlog : string -> string -> list event.
Variable pb : Z -> M unit.
Hypothesis h_runs : forall obj msg w s,
    h obj (CollaboratorError msg) w s = (Ok tt, s, hlog obj msg).
Hypothesis hlog_quiet : forall obj msg,
    Forall (fun e => is_get_all e || is_align e = false) (hlog obj msg).
Hypothesis pb_runs : forall i w s, exists line,
      pb i w s = (Ok tt, tick s, [EvStdoutWrite line]).

Lemma tolerant_body_runs (i : Z) (obj : string) w s :
  exists line,
    (try_except (pm_align obj ref) (h obj) ;; pb i) w s
    = (Ok tt, tick s,
       (EvAlign obj ref (env_align w obj ref)
        :: match env_align w obj ref with
           | None => []
           | Some msg => hlog obj msg
           end) ++ [EvStdoutWrite line]).
Proof.
  unfold bind, try_except, pm_align.
  destruct (env_align w obj ref) as [msg|].
  - rewrite h_runs. destruct (pb_runs i w s) as [line ->]. exists line. reflexivity.
  - destruct (pb_runs i w s) as [line ->]. exists line. reflexivity.
Qed.

Lemma tolerant_loop_runs (rest : list string) :
  forall i w s, exists s' tr,
    for_enumerate rest i
      (fun i obj => try_except (pm_align obj ref) (h obj) ;; pb i) w s
    = (Ok tt, s', tr) /\
    session s' = session s /\
    align_calls tr = map (fun o => (o, ref, env_align w o ref)) rest /\
    Forall (fun e => is_get_all e = false) tr /\
    (forall o msg, In o rest -> env_align w o ref = Some msg -> incl (hlog o msg) tr).
Proof.
  induction rest as [|obj rest IH]; intros i w s; simpl.
  - exists s, []. repeat split; try constructor. intros o msg [].
  - destruct (tolerant_body_runs i obj w s) as [line Hb].
    destruct (IH (i + 1) w (tick s)) as [s' [tr [Hl [Hs [Hc [Hg Hw]]]]]].
    unfold bind at 1. rewrite Hb, Hl.
    eexists. eexists. split; [reflexivity|]. split; [exact Hs|]. split; [|split].
    + rewrite !align_calls_app. simpl. rewrite Hc.
      destruct (env_align w obj ref) as [msg|]; simpl; [|reflexivity].
      rewrite (align_calls_none (hlog obj msg)) by apply hlog_quiet. reflexivity.
    + apply Forall_app. split; [|exact Hg].
      apply Forall_app. split; [|repeat constructor].
      constructor; [reflexivity|].
      destruct (env_align w obj ref) as [msg|]; [|constructor].
      eapply Forall_impl; [|apply hlog_quiet]. intros e He.
      apply orb_false_iff in He. apply He.
    + intros o msg [<-|HIn] Ho.
      * rewrite Ho. intros e He. apply in_or_app. left. apply in_or_app. left.
        right. exact He.
      * intros e He. apply in_or_app. right. exact (Hw o msg HIn Ho e He).
Qed.
End TolerantLoop.

(** Running a block whose first statement is a call that returns. *)
Ltac step_ok := erewrite run_bind_ok by reflexivity; cbv beta.

Lemma all_align_structures_run (cfg : HcaAll.config) (w : Env) (s : state) :
  HcaAll.ALIGN_STRUCTURES cfg = true ->
  match session s with
  | [] => exists tr, HcaAll.align_structures cfg w s = (Raise IndexError, tick s, tr) /\
                     Forall (fun e => is_align e = false) tr /\
                     (forall objs, In (EvGetObjectList None objs) tr -> objs = [])
  | ref :: rest =>
      exists s' tr,
        HcaAll.align_structures cfg w s = (Ok tt, s', tr) /\
        session s' = session s /\
        align_calls tr = map (fun o => (o, ref, env_align w o ref)) rest /\
        (forall objs, In (EvGetObjectList None objs) tr -> objs = ref :: rest)
  end.
Proof.
  intros HA. unfold HcaAll.align_structures. rewrite HA.
  destruct (session s) as [|ref rest] eqn:Es.
  - do 3 step_ok. change (session (tick s)) with (session s). rewrite Es.
    simpl. eexists. split; [reflexivity|]. split; [repeat constructor|].
    intros objs [H|[H|[]]]; [discriminate | injection H; intros; subst; reflexivity].
  - do 3 step_ok. change (session (tick s)) with (session s). rewrite Es.
    step_ok. simpl tl.
    destruct rest as [|r1 rest'].
    + simpl. eexists. eexists. split; [reflexivity|]. split; [exact Es|].
      split; [reflexivity|].
      intros objs [H|[H|[H|[]]]]; try discriminate.
      injection H; intros; subst; reflexivity.
    + destruct (tolerant_loop_runs ref (fun _ _ => ret tt) (fun _ _ => [])
                  (fun i => HcaAll.progress_bar i (len (ref :: r1 :: rest') - 1)
                              (env_clock w (ticks s)) "Aligning")) with
          (rest := r1 :: rest') (i := 1) (w := w) (s := tick s)
        as [s' [tr [Hl [Hs [Hc [Hg _]]]]]].
      * reflexivity.
      * constructor.
      * intros i w0 s0. apply progress_bar_all_runs.
        unfold len. simpl length. lia.
      * rewrite (run_bind_ok _ _ _ _ _ _ _ Hl). simpl.
        eexists. eexists. split; [reflexivity|]. split; [rewrite Hs; exact Es|].
        split.
        { simpl. rewrite align_calls_app. simpl. rewrite Hc, app_nil_r. reflexivity. }
        { intros objs [H|[H|H]]; [discriminate | injection H; intros; subst; reflexivity|].
          apply in_app_or in H. destruct H as [H|[H|[]]]; [|discriminate].
          rewrite Forall_forall in Hg. specialize (Hg _ H). discriminate. }
Qed.

Lemma filter_proteins_run (objs : list string) (w : Env) (s : state) :
  exists tr,
    filter_M HcaHO.is_protein objs w s
    = (Ok (filter (fun obj => 0 <? env_count_atoms w (obj +++ " and polymer.protein")
                                      (session s)) objs), s, tr) /\
    Forall (fun e => is_get_all e || is_align e = false) tr.
Proof.
  induction objs as [|obj objs [tr [IH HF]]]; simpl.
  - exists []. split; [reflexivity | constructor].
  - rewrite (run_bind_ok _ _ _ _ _ _ _ (eq_refl : HcaHO.is_protein obj w s = _)).
    rewrite (run_bind_ok _ _ _ _ _ _ _ IH). simpl.
    eexists. split.
    + destruct (0 <? env_count_atoms w (obj +++ " and polymer.protein") (session s));
        reflexivity.
    + constructor; [reflexivity|]. rewrite app_nil_r. exact HF.
Qed.

Lemma HO_align_proteins_run (cfg : config) (w : Env) (s : state) :
  (len (proteins_of w (session s)) < 2 ->
   exists tr,
     HcaHO.align_proteins cfg w s
     = (Raise (RuntimeError "Not enough protein structures for alignment."), s, tr) /\
     Forall (fun e => is_align e = false) tr /\
     (forall objs, In (EvGetObjectList None objs) tr -> objs = session s)) /\
  (forall ref rest,
      proteins_of w (session s) = ref :: rest -> rest <> [] ->
      exists s' tr,
        HcaHO.align_proteins cfg w s = (Ok tt, s', tr) /\
        session s' = session s /\
        align_calls tr = map (fun o => (o, ref, env_align w o ref)) rest /\
        (forall objs, In (EvGetObjectList None objs) tr -> objs = session s) /\
        (forall o msg, In o rest -> env_align w o ref = Some msg ->
                       In (alignment_warning o msg) tr)).
Proof.
  destruct (filter_proteins_run (session s) w s) as [trf [Hf HFf]].
  fold (proteins_of w (session s)) in Hf.
  assert (Hget : forall objs, In (EvGetObjectList None objs) trf -> False).
  { intros objs H. destruct (no_get_all_in _ _ _ HFf H) as [q Hq]. discriminate. }
  split.
  - intros Hlen. unfold HcaHO.align_proteins. do 2 step_ok.
    rewrite (run_bind_ok _ _ _ _ _ _ _ Hf).
    destruct (Z.ltb_spec (len (proteins_of w (session s))) 2) as [_|Hge]; [|lia].
    simpl. eexists. split; [reflexivity|]. split.
    + constructor; [reflexivity|]. constructor; [reflexivity|].
      rewrite app_nil_r. eapply Forall_impl; [|exact HFf].
      intros e He. apply orb_false_iff in He. apply He.
    + intros objs [H|[H|H]]; [discriminate | injection H; intros; subst; reflexivity|].
      rewrite app_nil_r in H. destruct (Hget _ H).
  - intros ref rest Hps Hne. unfold HcaHO.align_proteins. do 2 step_ok.
    rewrite (run_bind_ok _ _ _ _ _ _ _ Hf). rewrite Hps.
    assert (Hlen : 2 <= len (ref :: rest)).
    { destruct rest; [contradiction|]. unfold len. simpl length. lia. }
    destruct (Z.ltb_spec (len (ref :: rest)) 2) as [Hlt|_]; [lia|].
    do 2 step_ok. simpl tl.
    destruct (tolerant_loop_runs ref
                (fun obj e => print [PStr (nl +++ "⚠️ Alignment failed for " +++ obj
                                           +++ ": " +++ exn_str e)])
                (fun obj msg => [alignment_warning obj msg])
                (fun i => HcaHO.progress_bar i (len (ref :: rest) - 1)
                            (env_clock w (ticks s)) "Aligning proteins")) with
        (rest := rest) (i := 1) (w := w) (s := tick s)
      as [s' [tr [Hl [Hs [Hc [Hg Hw]]]]]].
    + reflexivity.
    + intros obj msg. repeat constructor.
    + intros i w0 s0. apply progress_bar_single_runs. lia.
    + rewrite (run_bind_ok _ _ _ _ _ _ _ Hl). simpl.
      eexists. eexists. split; [reflexivity|]. split; [exact Hs|].
      split; [|split].
      * cbn [align_calls]. rewrite !align_calls_app.
        rewrite (align_calls_none trf) by exact HFf.
        rewrite Hc. simpl. rewrite app_nil_r. reflexivity.
      * intros objs [H|[H|H]]; [discriminate | injection H; intros; subst; reflexivity|].
        apply in_app_or in H. destruct H as [H|H]; [destruct (Hget _ H)|].
        simpl in H. apply in_app_or in H. destruct H as [H|[H|[]]]; [|discriminate].
        rewrite Forall_forall in Hg. specialize (Hg _ H). discriminate.
      * intros o msg Ho Hm. right. right. apply in_or_app. right.
        simpl. apply in_or_app. left. apply (Hw o msg Ho Hm). left. reflexivity.
Qed.

Lemma tolerant_after {A} elig need2 sel warn (m : M A) (f : A -> M unit) :
  emits (fun e => is_get_all e || is_align e = false) m ->
  (forall a, tolerant elig need2 sel warn (f a)) ->
  tolerant elig need2 sel warn (bind m f).
Proof.
  intros Hm Hf w s objs ref rest. unfold bind. specialize (Hm w s).
  destruct (m w s) as [[[a|e] s1] tr1]; simpl in *.
  - specialize (Hf a w s1 objs ref rest).
    destruct (f a w s1) as [[r s2] tr2]; simpl in *.
    intros HIn Helig Hneed. apply in_app_or in HIn. destruct HIn as [HIn|HIn].
    + destruct (no_get_all_in _ _ _ Hm HIn) as [q Hq]. discriminate.
    + destruct (Hf HIn Helig Hneed) as [Hc [Hw Hq]]. split; [|split].
      * rewrite align_calls_app, (align_calls_none tr1) by exact Hm. exact Hc.
      * intros Hwarn o msg Ho Hmsg. apply in_or_app. right. exact (Hw Hwarn o msg Ho Hmsg).
      * apply in_or_app. right. exact Hq.
  - intros HIn _ _. destruct (no_get_all_in _ _ _ Hm HIn) as [q Hq]. discriminate.
Qed.

(** What follows an alignment block: a validation that queries [sel] on
    the session it finds, then the jobs. *)
Lemma query_then_jobs (sel : string) (v post : M unit) :
  emits (fun e => is_get_all e || is_align e = false) v ->
  emits (fun e => is_get_all e || is_align e = false) post ->
  (forall w s, In (EvGetObjectList (Some sel) (env_select w sel (session s)))
                  (snd (v w s))) ->
  forall w s,
    Forall (fun e => is_get_all e || is_align e = false) (snd (bind v (fun _ => post) w s)) /\
    In (EvGetObjectList (Some sel) (env_select w sel (session s)))
       (snd (bind v (fun _ => post) w s)).
Proof.
  intros Hv Hpost Hq w s. unfold bind.
  specialize (Hv w s). specialize (Hq w s).
  destruct (v w s) as [[[a|e] s1] tr1]; simpl in *.
  - specialize (Hpost w s1). destruct (post w s1) as [[r s2] tr2]; simpl in *.
    split; [apply Forall_app; split; assumption | apply in_or_app; left; exact Hq].
  - split; assumption.
Qed.

Lemma all_select_queries (cfg : HcaAll.config) (w : Env) (s : state) :
  In (EvGetObjectList (Some (HcaAll.HOTSPOT_SEL cfg))
                      (env_select w (HcaAll.HOTSPOT_SEL cfg) (session s)))
     (snd (HcaAll.select_hotspots cfg w s)).
Proof.
  unfold HcaAll.select_hotspots. do 2 step_ok.
  destruct (len _ <? 2); simpl; right; left; reflexivity.
Qed.

Lemma HO_validate_queries (cfg : config) (w : Env) (s : state) :
  In (EvGetObjectList (Some (HcaHO.HOTSPOT_SEL cfg))
                      (env_select w (HcaHO.HOTSPOT_SEL cfg) (session s)))
     (snd (HcaHO.validate_hotspots cfg w s)).
Proof.
  unfold HcaHO.validate_hotspots. step_ok.
  destruct (len _ <? 2); simpl; left; reflexivity.
Qed.

Lemma tolerant_all_block (cfg : HcaAll.config) (post : M unit) :
  HcaAll.ALIGN_STRUCTURES cfg = true ->
  emits (fun e => is_get_all e || is_align e = false) post ->
  tolerant (fun _ objs => objs) false (HcaAll.HOTSPOT_SEL cfg) false
           (HcaAll.align_structures cfg ;; HcaAll.select_hotspots cfg ;; post).
Proof.
  intros HA Hpost w s objs ref rest HIn Helig _.
  pose proof (all_align_structures_run cfg w s HA) as Hrun.
  destruct (session s) as [|r0 rs] eqn:Es.
  - destruct Hrun as [tr [Hr [_ Hg]]].
    rewrite (run_bind_raise _ _ _ _ _ _ _ Hr) in HIn. simpl in HIn.
    apply Hg in HIn. subst objs. discriminate.
  - destruct Hrun as [s' [tr [Hr [Hs [Hc Hg]]]]].
    assert (Hrest := query_then_jobs (HcaAll.HOTSPOT_SEL cfg) (HcaAll.select_hotspots cfg)
                       post ltac:(emits_block) Hpost (all_select_queries cfg) w s').
    rewrite (run_bind_ok _ _ _ _ _ _ _ Hr) in *.
    destruct ((HcaAll.select_hotspots cfg ;; post) w s') as [[r s2] tr2].
    simpl in *. destruct Hrest as [HF Hq].
    assert (objs = r0 :: rs) as ->.
    { apply in_app_or in HIn. destruct HIn as [HIn|HIn]; [exact (Hg _ HIn)|].
      destruct (no_get_all_in _ _ _ HF HIn) as [q Hq']. discriminate. }
    injection Helig as <- <-. split; [|split].
    + rewrite align_calls_app, (align_calls_none tr2), app_nil_r by exact HF. exact Hc.
    + discriminate.
    + apply in_or_app. right. rewrite <- Hs. exact Hq.
Qed.

Lemma tolerant_HO_block (cfg : config) (post : M unit) :
  emits (fun e => is_get_all e || is_align e = false) post ->
  tolerant proteins_of true (HcaHO.HOTSPOT_SEL cfg) true
           (HcaHO.align_proteins cfg ;; HcaHO.validate_hotspots cfg ;; post).
Proof.
  intros Hpost w s objs ref rest HIn Helig Hneed.
  destruct (HO_align_proteins_run cfg w s) as [Hfew Hmany].
  assert (Hobjs : objs = session s).
  { destruct (Z.ltb_spec (len (proteins_of w (session s))) 2) as [Hlt|Hge].
    - destruct (Hfew Hlt) as [tr [Hr [_ Hg]]].
      rewrite (run_bind_raise _ _ _ _ _ _ _ Hr) in HIn. exact (Hg _ HIn).
    - destruct (proteins_of w (session s)) as [|p0 [|p1 ps]] eqn:Ep;
        [unfold len in Hge; simpl in Hge; lia | unfold len in Hge; simpl in Hge; lia |].
      destruct (Hmany p0 (p1 :: ps) eq_refl ltac:(discriminate))
        as [s' [tr [Hr [Hs [Hc [Hg Hw]]]]]].
      assert (Hrest := query_then_jobs (HcaHO.HOTSPOT_SEL cfg)
                         (HcaHO.validate_hotspots cfg) post ltac:(emits_block) Hpost
                         (HO_validate_queries cfg) w s').
      rewrite (run_bind_ok _ _ _ _ _ _ _ Hr) in HIn.
      destruct ((HcaHO.validate_hotspots cfg ;; post) w s') as [[r s2] tr2].
      simpl in *. destruct Hrest as [HF _].
      apply in_app_or in HIn. destruct HIn as [HIn|HIn]; [exact (Hg _ HIn)|].
      destruct (no_get_all_in _ _ _ HF HIn) as [q Hq']. discriminate. }
  subst objs.
  destruct (Hmany ref rest Helig (Hneed eq_refl)) as [s' [tr [Hr [Hs [Hc [Hg Hw]]]]]].
  assert (Hrest := query_then_jobs (HcaHO.HOTSPOT_SEL cfg)
                     (HcaHO.validate_hotspots cfg) post ltac:(emits_block) Hpost
                     (HO_validate_queries cfg) w s').
  rewrite (run_bind_ok _ _ _ _ _ _ _ Hr) in *.
  destruct ((HcaHO.validate_hotspots cfg ;; post) w s') as [[r s2] tr2].
  simpl in *. destruct Hrest as [HF Hq]. split; [|split].
  - rewrite align_calls_app, (align_calls_none tr2), app_nil_r by exact HF. exact Hc.
  - intros _ o msg Ho Hmsg. apply in_or_app. left. exact (Hw o msg Ho Hmsg).
  - apply in_or_app. right. rewrite <- Hs. exact Hq.
Qed.

(** The alignment loops of [hca_jaccard.py] and [hca_overlap.py] call
    [pm.align] bare: the first failure ends the loop with its exception. *)
Lemma bare_loop_runs (ref : string) (rest : list string) (w : Env) (s : state) :
  forall i,
    ((forall o, In o rest -> env_align w o ref = None) ->
     for_enumerate rest i (fun _ obj => pm_align obj ref) w s
     = (Ok tt, s, map (fun o => EvAlign o ref None) rest)) /\
    (forall o, In o rest -> env_align w o ref <> None ->
               exists msg tr,
                 for_enumerate rest i (fun _ obj => pm_align obj ref) w s
                 = (Raise (CollaboratorError msg), s, tr) /\
                 Forall (fun e => is_object_query e = false) tr).
Proof.
  induction rest as [|x rest IH]; intros i; simpl.
  - split; [reflexivity | intros o []].
  - destruct (IH (i + 1)) as [IHok IHbad]. split.
    + intros Hall. unfold bind, pm_align at 1. rewrite (Hall x) by (left; reflexivity).
      rewrite IHok by (intros o Ho; apply Hall; right; exact Ho). reflexivity.
    + intros o Ho Hbad. unfold bind, pm_align at 1.
      destruct (env_align w x ref) as [msg|] eqn:Ex.
      * exists msg. eexists. split; [reflexivity | repeat constructor].
      * destruct Ho as [<-|Ho]; [congruence|].
        destruct (IHbad o Ho Hbad) as [msg [tr [-> HF]]].
        exists msg. eexists. split; [reflexivity|]. constructor; [reflexivity | exact HF].
Qed.

Lemma for_each_enumerate {A} (xs : list A) (body : A -> M unit) (i : Z) :
  for_each xs body = for_enumerate xs i (fun _ => body).
Proof.
  revert i. induction xs as [|x xs IH]; intros i; simpl; [reflexivity|].
  rewrite (IH (i + 1)). reflexivity.
Qed.

Lemma align_calls_ok (ref : string) (rest : list string) :
  align_calls (map (fun o => EvAlign o ref None) rest)
  = map (fun o => (o, ref, @None string)) rest.
Proof. induction rest as [|x rest IH]; simpl; [|rewrite IH]; reflexivity. Qed.

Lemma no_object_query_in (tr : list event) (sel : option string) (objs : list string) :
  Forall (fun e => is_object_query e = false) tr ->
  In (EvGetObjectList sel objs) tr -> False.
Proof.
  intros HF HIn. rewrite Forall_forall in HF. specialize (HF _ HIn). discriminate.
Qed.

Lemma object_query_classes (tr : list event) :
  Forall (fun e => is_object_query e || is_align e = false) tr ->
  Forall (fun e => is_get_all e || is_align e = false) tr /\
  Forall (fun e => is_sel_query e = false) tr /\
  Forall (fun e => is_object_query e = false) tr.
Proof.
  intros H. repeat split; (eapply Forall_impl; [|exact H]); intros e He;
    destruct e as [| | | | |[q|]| | | | | | |]; simpl in *; congruence.
Qed.

Lemma strict_after {A} sel (m : M A) (f : A -> M unit) :
  emits (fun e => is_object_query e || is_align e = false) m ->
  (forall a, strict sel (f a)) ->
  strict sel (bind m f).
Proof.
  intros Hm Hf w s objs ref rest. unfold bind. specialize (Hm w s).
  destruct (m w s) as [[[a|e] s1] tr1]; simpl in *;
    destruct (object_query_classes _ Hm) as [Hga [Hsq Hoq]].
  - specialize (Hf a w s1 objs ref rest).
    destruct (f a w s1) as [[r s2] tr2]; simpl in *.
    intros HIn Hobjs. apply in_app_or in HIn. destruct HIn as [HIn|HIn];
      [destruct (no_object_query_in _ _ _ Hoq HIn)|].
    destruct (Hf HIn Hobjs) as [Hok Hbad]. split.
    + intros Hall. destruct (Hok Hall) as [Hc Hq]. split.
      * rewrite align_calls_app, (align_calls_none tr1) by exact Hga. exact Hc.
      * apply in_or_app. right. exact Hq.
    + intros o Ho Hfail. destruct (Hbad o Ho Hfail) as [Hr HF]. split; [exact Hr|].
      apply Forall_app. split; assumption.
  - intros HIn _. destruct (no_object_query_in _ _ _ Hoq HIn).
Qed.

Lemma all_or_some_fails (w : Env) (ref : string) (rest : list string) :
  (forall o, In o rest -> env_align w o ref = None) \/
  (exists o, In o rest /\ env_align w o ref <> None).
Proof.
  induction rest as [|x rest [IH|[o [Ho Hne]]]].
  - left. intros o [].
  - destruct (env_align w x ref) as [msg|] eqn:Ex.
    + right. exists x. split; [left; reflexivity | congruence].
    + left. intros o [<-|Ho]; [exact Ex | exact (IH o Ho)].
  - right. exists o. split; [right; exact Ho | exact Hne].
Qed.

(** The alignment block of [hca_jaccard.py] or [hca_overlap.py]: the
    object list, its first element, the bare loop, then [after]. *)
Lemma bare_block_runs (after : M unit) (w : Env) (s : state) (ref : string)
      (rest : list string) :
  (forall w s, exists tr, after w s = (Ok tt, s, tr) /\
                          Forall (fun e => is_object_query e || is_align e = false) tr) ->
  session s = ref :: rest ->
  exists r tr,
    (objs <- pm_get_object_list ;;
     ref <- list_first objs ;;
     for_enumerate (tl objs) 1 (fun _ obj => pm_align obj ref) ;;
     after) w s
    = (r, s, EvGetObjectList None (ref :: rest) :: tr) /\
    Forall (fun e => is_object_query e = false) tr /\
    ((forall o, In o rest -> env_align w o ref = None) ->
     r = Ok tt /\ align_calls tr = map (fun o => (o, ref, None)) rest) /\
    (forall o, In o rest -> env_align w o ref <> None ->
               exists msg, r = Raise (CollaboratorError msg)).
Proof.
  intros Hafter Es. step_ok. rewrite Es. step_ok. simpl tl.
  destruct (bare_loop_runs ref rest w s 1) as [Hok Hbad].
  destruct (all_or_some_fails w ref rest) as [Hall|[o [Ho Hne]]].
  - rewrite (run_bind_ok _ _ _ _ _ _ _ (Hok Hall)).
    destruct (Hafter w s) as [tra [-> HFa]].
    destruct (object_query_classes _ HFa) as [HFa1 [_ HFa3]].
    eexists. eexists. split; [reflexivity|]. split; [|split].
    + simpl. apply Forall_app. split; [|exact HFa3].
      apply Forall_forall. intros e He. apply in_map_iff in He.
      destruct He as [x [<- _]]. reflexivity.
    + intros _. split; [reflexivity|]. simpl.
      rewrite align_calls_app, align_calls_ok, (align_calls_none tra) by exact HFa1.
      apply app_nil_r.
    + intros o Ho Hne. destruct (Hne (Hall o Ho)).
  - destruct (Hbad o Ho Hne) as [msg [tr' [Hr' HF']]].
    rewrite (run_bind_raise _ _ _ _ _ _ _ Hr').
    eexists. eexists. split; [reflexivity|]. split; [exact HF'|]. split.
    + intros Hall. destruct (Hne (Hall o Ho)).
    + intros _ _ _. exists msg. reflexivity.
Qed.

Lemma bare_block_empty (after : M unit) (w : Env) (s : state) :
  session s = [] ->
  (objs <- pm_get_object_list ;;
   ref <- list_first objs ;;
   for_enumerate (tl objs) 1 (fun _ obj => pm_align obj ref) ;;
   after) w s
  = (Raise IndexError, s, [EvGetObjectList None []]).
Proof. intros Es. step_ok. rewrite Es. reflexivity. Qed.

Lemma strict_block (sel : string) (after v post : M unit) :
  (forall w s, exists tr, after w s = (Ok tt, s, tr) /\
                          Forall (fun e => is_object_query e || is_align e = false) tr) ->
  emits (fun e => is_get_all e || is_align e = false) v ->
  emits (fun e => is_get_all e || is_align e = false) post ->
  (forall w s, In (EvGetObjectList (Some sel) (env_select w sel (session s)))
                  (snd (v w s))) ->
  strict sel
    ((objs <- pm_get_object_list ;;
      ref <- list_first objs ;;
      for_enumerate (tl objs) 1 (fun _ obj => pm_align obj ref) ;;
      after) ;;
     v ;; post).
Proof.
  intros Hafter Hv Hpost Hq w s objs ref rest HIn Hobjs. subst objs.
  assert (Hrest := query_then_jobs sel v post Hv Hpost Hq w s).
  destruct (session s) as [|r0 rs] eqn:Es.
  - rewrite (run_bind_raise _ _ _ _ _ _ _ (bare_block_empty after w s Es)) in HIn.
    destruct HIn as [H|[]]. discriminate.
  - destruct (bare_block_runs after w s r0 rs Hafter Es)
      as [r [tr [Hr [HF [Hok Hbad]]]]].
    destruct r as [[]|e].
    + rewrite (run_bind_ok _ _ _ _ _ _ _ Hr) in *.
      destruct ((v ;; post) w s) as [[r2 s2] tr2]. simpl in *.
      destruct Hrest as [HF2 Hq2].
      assert (ref :: rest = r0 :: rs) as Hsame.
      { destruct HIn as [H|H]; [congruence|].
        apply in_app_or in H. destruct H as [H|H];
          [destruct (no_object_query_in _ _ _ HF H)|].
        destruct (no_get_all_in _ _ _ HF2 H) as [q Hq']. discriminate. }
      injection Hsame as -> ->. split.
      * intros Hall. destruct (Hok Hall) as [_ Hc]. split.
        { rewrite align_calls_app, Hc, (align_calls_none tr2) by exact HF2.
          apply app_nil_r. }
        { right. apply in_or_app. right. exact Hq2. }
      * intros o Ho Hne. destruct (Hbad o Ho Hne) as [msg Hmsg]. discriminate.
    + rewrite (run_bind_raise _ _ _ _ _ _ _ Hr) in *. simpl in *.
      assert (ref :: rest = r0 :: rs) as Hsame.
      { destruct HIn as [H|H]; [congruence|].
        destruct (no_object_query_in _ _ _ HF H). }
      injection Hsame as -> ->. split.
      * intros Hall. destruct (Hok Hall) as [Habs _]. discriminate.
      * intros o Ho Hne. destruct (Hbad o Ho Hne) as [msg Hmsg]. split.
        { exists msg. exact Hmsg. }
        { constructor; [reflexivity|].
          eapply Forall_impl; [|exact HF]. intros ev Hev.
          destruct ev; simpl in *; congruence. }
Qed.

Lemma bind_ret_tt (m : M unit) (w : Env) (s : state) :
  (m ;; ret tt) w s = m w s.
Proof.
  unfold bind, ret. destruct (m w s) as [[[[]|e] s1] tr]; [|reflexivity].
  rewrite app_nil_r. reflexivity.
Qed.

Lemma bind_ext_l {A B} (m m' : M A) (f : A -> M B) :
  (forall w s, m w s = m' w s) -> forall w s, bind m f w s = bind m' f w s.
Proof. intros H w s. unfold bind. rewrite H. reflexivity. Qed.

Lemma bind_ext_r {A B} (m : M A) (f f' : A -> M B) :
  (forall a w s, f a w s = f' a w s) -> forall w s, bind m f w s = bind m f' w s.
Proof.
  intros H w s. unfold bind. destruct (m w s) as [[[a|e] s1] tr]; [|reflexivity].
  rewrite H. reflexivity.
Qed.

Lemma strict_ext (sel : string) (k k' : M unit) :
  (forall w s, k w s = k' w s) -> strict sel k' -> strict sel k.
Proof. intros H Hk w s. rewrite H. apply Hk. Qed.

Lemma jaccard_block_shape (cfg : config) (w : Env) (s : state) :
  HcaJaccard.align_structures cfg w s
  = (objs <- pm_get_object_list ;;
     ref <- list_first objs ;;
     for_enumerate (tl objs) 1 (fun _ obj => pm_align obj ref) ;;
     ret tt) w s.
Proof.
  unfold HcaJaccard.align_structures.
  apply bind_ext_r. intros objs w0 s0. apply bind_ext_r. intros ref w1 s1.
  rewrite bind_ret_tt, (for_each_enumerate _ _ 1). reflexivity.
Qed.

Lemma jaccard_validate_queries (cfg : config) (w : Env) (s : state) :
  In (EvGetObjectList (Some (HcaJaccard.HOTSPOT_SEL cfg))
                      (env_select w (HcaJaccard.HOTSPOT_SEL cfg) (session s)))
     (snd (HcaJaccard.validate_hotspots cfg w s)).
Proof.
  unfold HcaJaccard.validate_hotspots. step_ok.
  destruct (len _ <? 2); simpl; left; reflexivity.
Qed.

Lemma overlap_validate_queries (cfg : config) (w : Env) (s : state) :
  In (EvGetObjectList (Some (HcaOverlap.HOTSPOT_SEL cfg))
                      (env_select w (HcaOverlap.HOTSPOT_SEL cfg) (session s)))
     (snd (HcaOverlap.validate_hotspots cfg w s)).
Proof.
  unfold HcaOverlap.validate_hotspots. step_ok.
  destruct (len _ <? 2); simpl; left; reflexivity.
Qed.

Lemma tolerant_all_main (cfg : HcaAll.config) :
  HcaAll.ALIGN_STRUCTURES cfg = true ->
  tolerant (fun _ objs => objs) false (HcaAll.HOTSPOT_SEL cfg) false (HcaAll.main cfg).
Proof.
  intros HA. unfold HcaAll.main.
  apply tolerant_after; [emits_block | intros global_start].
  apply tolerant_after; [emits_block | intros _].
  apply tolerant_all_block; [exact HA | emits_block].
Qed.

Lemma tolerant_HO_main (cfg : config) :
  tolerant proteins_of true (HcaHO.HOTSPOT_SEL cfg) true (HcaHO.main cfg).
Proof.
  unfold HcaHO.main.
  apply tolerant_after; [emits_block | intros _].
  apply tolerant_HO_block. emits_block.
Qed.

Lemma strict_jaccard_main (cfg : config) :
  strict (HcaJaccard.HOTSPOT_SEL cfg) (HcaJaccard.main cfg).
Proof.
  unfold HcaJaccard.main.
  apply strict_after; [emits_block | intros _].
  eapply strict_ext; [apply bind_ext_l; apply jaccard_block_shape|].
  apply strict_block.
  - intros w s. exists []. split; [reflexivity | constructor].
  - emits_block.
  - emits_block.
  - apply jaccard_validate_queries.
Qed.

Lemma strict_overlap_main (cfg : config) :
  strict (HcaOverlap.HOTSPOT_SEL cfg) (HcaOverlap.main cfg).
Proof.
  unfold HcaOverlap.main.
  apply strict_after; [emits_block | intros _].
  unfold HcaOverlap.align_structures.
  apply strict_block.
  - intros w s. eexists. split; [reflexivity | repeat constructor].
  - emits_block.
  - emits_block.
  - apply overlap_validate_queries.
Qed.

Lemma tolerant_run elig need2 sel warn (m : M unit) (w : Env) objs ref rest :
  tolerant elig need2 sel warn m ->
  In (EvGetObjectList None objs) (snd (run_script m w)) ->
  elig w objs = ref :: rest ->
  (need2 = true -> rest <> []) ->
  align_calls (snd (run_script m w)) = map (fun o => (o, ref, env_align w o ref)) rest /\
  (warn = true ->
   forall o msg, In o rest -> env_align w o ref = Some msg ->
                 In (alignment_warning o msg) (snd (run_script m w))) /\
  In (EvGetObjectList (Some sel) (env_select w sel objs)) (snd (run_script m w)).
Proof.
  intros T. specialize (T w init_state objs ref rest). unfold run_script.
  destruct (m w init_state) as [[r s] tr]. exact T.
Qed.

Lemma strict_run sel (m : M unit) (w : Env) objs ref rest :
  strict sel m ->
  In (EvGetObjectList None objs) (snd (run_script m w)) ->
  objs = ref :: rest ->
  ((forall o, In o rest -> env_align w o ref = None) ->
   align_calls (snd (run_script m w)) = map (fun o => (o, ref, None)) rest /\
   In (EvGetObjectList (Some sel) (env_select w sel objs)) (snd (run_script m w))) /\
  (forall o, In o rest -> env_align w o ref <> None ->
             (exists msg, fst (run_script m w) = Raise (CollaboratorError msg)) /\
             Forall (fun e => is_sel_query e = false) (snd (run_script m w))).
Proof.
  intros T. specialize (T w init_state objs ref rest). unfold run_script.
  destruct (m w init_state) as [[r s] tr]. exact T.
Qed.

(** C2, as the scripts have it.  In [hca_all_analysis.py] (with
    [ALIGN_STRUCTURES]) and [hca_HO.py] every structure after the
    reference is aligned, whatever the earlier alignments answered, and
    the hotspot selection is then queried on the unchanged object list;
    [hca_HO.py] prints a warning for each failure. *)
Theorem alignment_failures_by_script (w : Env) (objs : list string) (ref : string)
        (rest : list string) :
  (forall cfg,
      HcaAll.ALIGN_STRUCTURES cfg = true ->
      In (EvGetObjectList None objs) (snd (run (ScriptAll cfg) w)) ->
      objs = ref :: rest ->
      align_calls (snd (run (ScriptAll cfg) w))
      = map (fun o => (o, ref, env_align w o ref)) rest /\
      In (EvGetObjectList (Some (HcaAll.HOTSPOT_SEL cfg))
                          (env_select w (HcaAll.HOTSPOT_SEL cfg) objs))
         (snd (run (ScriptAll cfg) w))) /\
  (forall cfg,
      In (EvGetObjectList None objs) (snd (run (ScriptHO cfg) w)) ->
      proteins_of w objs = ref :: rest ->
      rest <> [] ->
      align_calls (snd (run (ScriptHO cfg) w))
      = map (fun o => (o, ref, env_align w o ref)) rest /\
      (forall o msg, In o rest -> env_align w o ref = Some msg ->
                     In (alignment_warning o msg) (snd (run (ScriptHO cfg) w))) /\
      In (EvGetObjectList (Some (HcaHO.HOTSPOT_SEL cfg))
                          (env_select w (HcaHO.HOTSPOT_SEL cfg) objs))
         (snd (run (ScriptHO cfg) w))).
Proof.
  unfold run. simpl script_main. split.
  - intros cfg HA HIn Hobjs.
    destruct (tolerant_run _ _ _ _ _ w objs ref rest (tolerant_all_main cfg HA) HIn Hobjs)
      as [Hc [_ Hq]]; [discriminate|].
    split; assumption.
  - intros cfg HIn Hps Hne.
    destruct (tolerant_run _ _ _ _ _ w objs ref rest (tolerant_HO_main cfg) HIn Hps)
      as [Hc [Hw Hq]]; [intros _; exact Hne|].
    split; [exact Hc|]. split; [exact (Hw eq_refl) | exact Hq].
Qed.

(** The two scripts that call [pm.align] bare: a failing alignment ends
    the run with the collaborator's exception, before any selection. *)
Lemma bare_alignment_failure_ends_the_run (w : Env) (objs : list string) (ref : string)
      (rest : list string) (o : string) (sc : script) :
  (exists cfg, sc = ScriptJaccard cfg \/ sc = ScriptOverlap cfg) ->
  In (EvGetObjectList None objs) (snd (run sc w)) ->
  objs = ref :: rest ->
  In o rest -> env_align w o ref <> None ->
  (exists msg, fst (run sc w) = Raise (CollaboratorError msg)) /\
  Forall (fun e => is_sel_query e = false) (snd (run sc w)).
Proof.
  intros [cfg [->| ->]] HIn Hobjs Ho Hne; unfold run in *; simpl script_main in *.
  - exact (proj2 (strict_run _ _ w objs ref rest (strict_jaccard_main cfg) HIn Hobjs)
                 o Ho Hne).
  - exact (proj2 (strict_run _ _ w objs ref rest (strict_overlap_main cfg) HIn Hobjs)
                 o Ho Hne).
Qed.

Lemma alignment_failures_by_script_witness :
  HcaAll.ALIGN_STRUCTURES sample_all = true /\
  In (EvGetObjectList None six_objects) (snd (run (ScriptAll sample_all) align_fails_env)) /\
  six_objects = "a.pdb.protein" :: tl six_objects /\
  env_align align_fails_env "b.pdb.protein" "a.pdb.protein"
  = Some "alignment did not converge" /\
  align_calls (snd (run (ScriptAll sample_all) align_fails_env))
  = map (fun o => (o, "a.pdb.protein", env_align align_fails_env o "a.pdb.protein"))
        (tl six_objects) /\
  In (EvGetObjectList (Some (HcaAll.HOTSPOT_SEL sample_all))
                      (env_select align_fails_env (HcaAll.HOTSPOT_SEL sample_all)
                                  six_objects))
     (snd (run (ScriptAll sample_all) align_fails_env)).
Proof.
  assert (H1 : HcaAll.ALIGN_STRUCTURES sample_all = true) by reflexivity.
  assert (H2 : In (EvGetObjectList None six_objects)
                  (snd (run (ScriptAll sample_all) align_fails_env)))
    by (vm_compute; in_list).
  assert (H3 : six_objects = "a.pdb.protein" :: tl six_objects) by reflexivity.
  split; [exact H1|]. split; [exact H2|]. split; [exact H3|]. split; [reflexivity|].
  exact (proj1 (alignment_failures_by_script align_fails_env six_objects
                  "a.pdb.protein" (tl six_objects)) sample_all H1 H2 H3).
Defined.

(** C2 fails as stated.  In [hca_jaccard.py] the failed alignment of the
    fourth object ends the run, and the two structures after it are never
    aligned.  In [hca_all_analysis.py] the same failure leaves no mark on
    the console: the output is that of a run where all alignments succeed. *)
Lemma jaccard_alignment_failure_is_fatal :
  (fst (run (ScriptJaccard HcaJaccard.as_written) align_fails_env)
   = Raise (CollaboratorError "alignment did not converge") /\
   align_calls (snd (run (ScriptJaccard HcaJaccard.as_written) align_fails_env))
   = [("a.pdb.B_00", "a.pdb.protein", None);
      ("a.pdb.K15_D_00", "a.pdb.protein", None);
      ("b.pdb.protein", "a.pdb.protein", Some "alignment did not converge")]) /\
  (In (EvAlign "b.pdb.protein" "a.pdb.protein" (Some "alignment did not converge"))
      (snd (run (ScriptAll sample_all) align_fails_env)) /\
   console (snd (run (ScriptAll sample_all) align_fails_env))
   = console (snd (run (ScriptAll sample_all) sample_env))).
Proof.
  split; [split | split]; try (vm_compute; reflexivity). vm_compute; in_list.
Qed.

Lemma align_calls_nil (tr : list event) :
  Forall (fun e => is_align e = false) tr -> align_calls tr = [].
Proof.
  induction 1 as [|e tr He _ IH]; simpl; [reflexivity|].
  destruct e; simpl in *; try exact IH. discriminate.
Qed.

Lemma HO_few_proteins (cfg : config) (w : Env) (s : state) (objs : list string) :
  In (EvGetObjectList None objs) (snd (HcaHO.main cfg w s)) ->
  len (proteins_of w objs) < 2 ->
  fst (fst (HcaHO.main cfg w s))
  = Raise (RuntimeError "Not enough protein structures for alignment.") /\
  align_calls (snd (HcaHO.main cfg w s)) = [].
Proof.
  unfold HcaHO.main. intros HIn Hlen.
  assert (Hload : emits (fun e => is_get_all e || is_align e = false)
                        (HcaHO.load_structures cfg)) by emits_block.
  specialize (Hload w s).
  destruct (HcaHO.load_structures cfg w s) as [[[[]|e] s1] tr1] eqn:El; simpl in Hload.
  - rewrite (run_bind_ok _ _ _ _ _ _ _ El) in *.
    destruct (HO_align_proteins_run cfg w s1) as [Hfew Hmany].
    destruct (Z.ltb_spec (len (proteins_of w (session s1))) 2) as [Hlt|Hge].
    + destruct (Hfew Hlt) as [tr [Hr [Ha Hg]]].
      rewrite (run_bind_raise _ _ _ _ _ _ _ Hr) in *. simpl in *. split; [reflexivity|].
      rewrite align_calls_app, (align_calls_none tr1) by exact Hload.
      apply align_calls_nil. exact Ha.
    + exfalso.
      destruct (proteins_of w (session s1)) as [|p0 [|p1 ps]] eqn:Ep;
        [unfold len in Hge; simpl in Hge; lia | unfold len in Hge; simpl in Hge; lia |].
      destruct (Hmany p0 (p1 :: ps) eq_refl ltac:(discriminate))
        as [s' [tr [Hr [Hs [Hc [Hg Hw]]]]]].
      assert (Hrest := query_then_jobs (HcaHO.HOTSPOT_SEL cfg)
                         (HcaHO.validate_hotspots cfg) (HcaHO.job cfg)
                         ltac:(emits_block) ltac:(emits_block)
                         (HO_validate_queries cfg) w s').
      rewrite (run_bind_ok _ _ _ _ _ _ _ Hr) in HIn.
      destruct ((HcaHO.validate_hotspots cfg ;; HcaHO.job cfg) w s') as [[r s2] tr2].
      simpl in *. destruct Hrest as [HF _].
      assert (objs = session s1) as ->.
      { apply in_app_or in HIn. destruct HIn as [HIn|HIn].
        - destruct (no_get_all_in _ _ _ Hload HIn) as [q Hq]. discriminate.
        - apply in_app_or in HIn. destruct HIn as [HIn|HIn]; [exact (Hg _ HIn)|].
          destruct (no_get_all_in _ _ _ HF HIn) as [q Hq]. discriminate. }
      rewrite Ep in Hlen. unfold len in Hlen. simpl in Hlen. lia.
  - rewrite (run_bind_raise _ _ _ _ _ _ _ El) in HIn. simpl in HIn.
    destruct (no_get_all_in _ _ _ Hload HIn) as [q Hq]. discriminate.
Qed.

Lemma calm_after {A} (m : M A) (f : A -> M unit) :
  emits (fun e => is_get_all e || is_align e = false) m ->
  (forall a, calm (f a)) ->
  calm (bind m f).
Proof.
  intros Hm Hf w s objs. unfold bind. specialize (Hm w s).
  destruct (m w s) as [[[a|e] s1] tr1]; simpl in *.
  - specialize (Hf a w s1 objs). destruct (f a w s1) as [[r s2] tr2]; simpl in *.
    intros HIn Hlen. apply in_app_or in HIn. destruct HIn as [HIn|HIn].
    + destruct (no_get_all_in _ _ _ Hm HIn) as [q Hq]. discriminate.
    + rewrite align_calls_app, (align_calls_none tr1) by exact Hm. exact (Hf HIn Hlen).
  - intros _ _. apply align_calls_none. exact Hm.
Qed.

Lemma short_list (ref : string) (rest : list string) : len (ref :: rest) < 2 -> rest = [].
Proof. destruct rest; [reflexivity|]. unfold len. simpl length. lia. Qed.

Lemma calm_all_block (cfg : HcaAll.config) (post : M unit) :
  emits (fun e => is_get_all e || is_align e = false) post ->
  calm (HcaAll.align_structures cfg ;; post).
Proof.
  intros Hpost w s objs HIn Hlen.
  destruct (HcaAll.ALIGN_STRUCTURES cfg) eqn:HA.
  - pose proof (all_align_structures_run cfg w s HA) as Hrun.
    destruct (session s) as [|r0 rs] eqn:Es.
    + destruct Hrun as [tr [Hr [Ha _]]].
      rewrite (run_bind_raise _ _ _ _ _ _ _ Hr). apply align_calls_nil. exact Ha.
    + destruct Hrun as [s' [tr [Hr [Hs [Hc Hg]]]]].
      rewrite (run_bind_ok _ _ _ _ _ _ _ Hr) in *.
      specialize (Hpost w s'). destruct (post w s') as [[r s2] tr2]. simpl in *.
      assert (objs = r0 :: rs) as ->.
      { apply in_app_or in HIn. destruct HIn as [HIn|HIn]; [exact (Hg _ HIn)|].
        destruct (no_get_all_in _ _ _ Hpost HIn) as [q Hq]. discriminate. }
      rewrite (short_list _ _ Hlen) in Hc.
      rewrite align_calls_app, Hc, (align_calls_none tr2) by exact Hpost. reflexivity.
  - assert (Hq : emits (fun e => is_get_all e || is_align e = false)
                       (HcaAll.align_structures cfg ;; post)).
    { unfold HcaAll.align_structures. rewrite HA.
      apply emits_bind; [apply emits_ret | intros _; exact Hpost]. }
    apply align_calls_none. apply Hq.
Qed.

Lemma calm_bare_block (after post : M unit) :
  (forall w s, exists tr, after w s = (Ok tt, s, tr) /\
                          Forall (fun e => is_object_query e || is_align e = false) tr) ->
  emits (fun e => is_get_all e || is_align e = false) post ->
  calm ((objs <- pm_get_object_list ;;
         ref <- list_first objs ;;
         for_enumerate (tl objs) 1 (fun _ obj => pm_align obj ref) ;;
         after) ;;
        post).
Proof.
  intros Hafter Hpost w s objs HIn Hlen.
  destruct (session s) as [|r0 rs] eqn:Es.
  - rewrite (run_bind_raise _ _ _ _ _ _ _ (bare_block_empty after w s Es)). reflexivity.
  - destruct (bare_block_runs after w s r0 rs Hafter Es)
      as [r [tr [Hr [HF [Hok _]]]]].
    assert (Hsame : objs = r0 :: rs).
    { destruct r as [[]|e].
      - rewrite (run_bind_ok _ _ _ _ _ _ _ Hr) in HIn.
        specialize (Hpost w s). destruct (post w s) as [[r2 s2] tr2]. simpl in *.
        destruct HIn as [H|H]; [congruence|].
        apply in_app_or in H. destruct H as [H|H];
          [destruct (no_object_query_in _ _ _ HF H)|].
        destruct (no_get_all_in _ _ _ Hpost H) as [q Hq]. discriminate.
      - rewrite (run_bind_raise _ _ _ _ _ _ _ Hr) in HIn. simpl in HIn.
        destruct HIn as [H|H]; [congruence|].
        destruct (no_object_query_in _ _ _ HF H). }
    subst objs. pose proof (short_list _ _ Hlen) as ->.
    destruct Hok as [-> Hc]; [intros o []|].
    rewrite (run_bind_ok _ _ _ _ _ _ _ Hr).
    specialize (Hpost w s). destruct (post w s) as [[r2 s2] tr2]. simpl in *.
    rewrite align_calls_app, Hc, (align_calls_none tr2) by exact Hpost. reflexivity.
Qed.

Lemma calm_run (m : M unit) (w : Env) (objs : list string) :
  calm m ->
  In (EvGetObjectList None objs) (snd (run_script m w)) ->
  len objs < 2 ->
  align_calls (snd (run_script m w)) = [].
Proof.
  intros C. specialize (C w init_state objs). unfold run_script.
  destruct (m w init_state) as [[r s] tr]. exact C.
Qed.

(** C3, as the scripts have it: a run that finds fewer than two
    structures to align issues no alignment call; [hca_HO.py], which
    counts the protein-bearing structures, then fails with the
    RuntimeError "Not enough protein structures for alignment.". *)
Theorem too_few_structures_by_script (w : Env) (sc : script) (objs : list string) :
  In (EvGetObjectList None objs) (snd (run sc w)) ->
  len (eligible w sc objs) < 2 ->
  align_calls (snd (run sc w)) = [] /\
  (forall cfg, sc = ScriptHO cfg ->
               fst (run sc w)
               = Raise (RuntimeError "Not enough protein structures for alignment.")).
Proof.
  destruct sc as [cfg|cfg|cfg|cfg|cfg]; unfold run; simpl script_main; simpl eligible;
    intros HIn Hlen.
  - split; [|discriminate]. apply (calm_run _ w objs); [|exact HIn | exact Hlen].
    unfold HcaAll.main.
    apply calm_after; [emits_block | intros global_start].
    apply calm_after; [emits_block | intros _].
    apply calm_all_block. emits_block.
  - pose proof (HO_few_proteins cfg w init_state objs) as H.
    unfold run_script in *.
    destruct (HcaHO.main cfg w init_state) as [[r s] tr].
    destruct (H HIn Hlen) as [Hr Hc]. split; [exact Hc | intros _ _; exact Hr].
  - exfalso.
    assert (H : emits (fun e => is_get_all e || is_align e = false)
                      (HcaEuclidian.main cfg))
      by (unfold HcaEuclidian.main; emits_block).
    destruct (no_get_all_in _ _ _ (emits_run _ _ w H) HIn) as [q Hq]. discriminate.
  - split; [|discriminate]. apply (calm_run _ w objs); [|exact HIn | exact Hlen].
    unfold HcaJaccard.main.
    apply calm_after; [emits_block | intros _].
    intros w0 s0 objs0. rewrite (bind_ext_l _ _ _ (jaccard_block_shape cfg)).
    revert w0 s0 objs0. apply calm_bare_block.
    + intros w0 s0. exists []. split; [reflexivity | constructor].
    + emits_block.
  - split; [|discriminate]. apply (calm_run _ w objs); [|exact HIn | exact Hlen].
    unfold HcaOverlap.main.
    apply calm_after; [emits_block | intros _].
    unfold HcaOverlap.align_structures. apply calm_bare_block.
    + intros w0 s0. eexists. split; [reflexivity | repeat constructor].
    + emits_block.
Qed.

Lemma too_few_structures_by_script_witness :
  In (EvGetObjectList None ["a.pdb.protein"])
     (snd (run (ScriptHO sample_HO) one_object_env)) /\
  len (eligible one_object_env (ScriptHO sample_HO) ["a.pdb.protein"]) < 2 /\
  align_calls (snd (run (ScriptHO sample_HO) one_object_env)) = [] /\
  fst (run (ScriptHO sample_HO) one_object_env)
  = Raise (RuntimeError "Not enough protein structures for alignment.").
Proof.
  assert (H1 : In (EvGetObjectList None ["a.pdb.protein"])
                  (snd (run (ScriptHO sample_HO) one_object_env)))
    by (vm_compute; in_list).
  assert (H2 : len (eligible one_object_env (ScriptHO sample_HO)
                             ["a.pdb.protein"]) < 2) by reflexivity.
  split; [exact H1|]. split; [exact H2|].
  destruct (too_few_structures_by_script one_object_env (ScriptHO sample_HO)
              ["a.pdb.protein"] H1 H2) as [Hc Hr].
  split; [exact Hc | exact (Hr _ eq_refl)].
Defined.

(** C3 fails as stated: [hca_all_analysis.py], run on a single structure,
    completes its alignment stage and goes on to the hotspot selection;
    the error it ends with is the one of the hotspot validation. *)
Lemma single_structure_passes_alignment :
  In (EvGetObjectList None ["a.pdb.protein"])
     (snd (run (ScriptAll sample_all) one_object_env)) /\
  In (EvPrint [PStr (nl +++ "✔ Alignment completed" +++ nl)])
     (snd (run (ScriptAll sample_all) one_object_env)) /\
  In (EvGetObjectList (Some "((*.B* *.D*) AND p.S0>20)") ["a.pdb.protein"])
     (snd (run (ScriptAll sample_all) one_object_env)) /\
  fst (run (ScriptAll sample_all) one_object_env)
  = Raise (RuntimeError
             "Only 1 hotspots found with S0 > 20. At least two are required for HCA.").
Proof.
  repeat split; try (vm_compute; reflexivity); vm_compute; in_list.
Qed.

(** ** Captions *)

(** C6 at the cutoff 15: [hca_all_analysis.py] selects with [p.S0>15],
    yet its four plots are captioned with the literal "S0 > 20"; no
    caption mentions 15. *)
Theorem titles_say_20_at_cutoff_15 :
  In (EvGetObjectList (Some "((*.B* *.D*) AND p.S0>15)") six_objects)
     (snd (run (ScriptAll cutoff_15) sample_env)) /\
  fst (run (ScriptAll cutoff_15) sample_env) = Ok tt /\
  titles (snd (run (ScriptAll cutoff_15) sample_env))
  = ["Hotspot Overlap (HO) | S0 > 20";
     "Residue Jaccard Similarity | S0 > 20";
     "Residue Overlap Similarity | S0 > 20";
     "Euclidean HCA (S0 + CD + MD) | S0 > 20"] /\
  forallb (fun label => negb (contains (str_Z 15) label))
          (titles (snd (run (ScriptAll cutoff_15) sample_env))) = true.
Proof.
  split; [vm_compute; in_list|]. repeat split; vm_compute; reflexivity.
Qed.

(** Whatever the script, the environment and the cutoff, a caption is one
    of five literals. *)
Lemma titles_are_literals (w : Env) (sc : script) :
  Forall (fun e => forall label, e = EvTitle label ->
                                 In label ["Hotspot Overlap (HO) | S0 > 20";
                                           "Residue Jaccard Similarity | S0 > 20";
                                           "Residue Overlap Similarity | S0 > 20";
                                           "Euclidean HCA (S0 + CD + MD) | S0 > 20"])
         (snd (run sc w)).
Proof.
  unfold run. apply emits_run.
  destruct sc as [cfg|cfg|cfg|cfg|cfg]; simpl script_main;
    [ unfold HcaAll.main | unfold HcaHO.main | unfold HcaEuclidian.main
    | unfold HcaJaccard.main | unfold HcaOverlap.main ];
    autounfold with blocks;
    emits_with ltac:(intros label Hl; first [discriminate | injection Hl as <-; in_list]).
Qed.

(** ** The selection of the Euclidean job *)

(** C9: in [hca_all_analysis.py] the only selection ever queried, hence
    validated, is [HOTSPOT_SEL]; the Euclidean job is called with the
    different string [EUCLIDEAN_SEL]; and there is a session on which the
    validation passes while [plot_euclidean_hca] is called on a selection
    of size 0. *)
Theorem euclidean_selection_is_not_validated :
  (forall w cfg sel objs,
      In (EvGetObjectList (Some sel) objs) (snd (run (ScriptAll cfg) w)) ->
      sel = HcaAll.HOTSPOT_SEL cfg) /\
  (forall w cfg args r,
      In (EvPlotEuclideanHca args r) (snd (run (ScriptAll cfg) w)) ->
      eu_sel args = HcaAll.EUCLIDEAN_SEL cfg) /\
  (forall cfg, HcaAll.EUCLIDEAN_SEL cfg <> HcaAll.HOTSPOT_SEL cfg) /\
  (In (EvGetObjectList (Some (HcaAll.HOTSPOT_SEL sample_all)) six_objects)
      (snd (run (ScriptAll sample_all) no_k15_env)) /\
   2 <= len six_objects /\
   In (EvPlotEuclideanHca (HcaAll.euclidean_call sample_all) None)
      (snd (run (ScriptAll sample_all) no_k15_env)) /\
   len (env_select no_k15_env (HcaAll.EUCLIDEAN_SEL sample_all) six_objects) < 2).
Proof.
  split; [|split; [|split]].
  - intros w cfg sel objs HIn.
    assert (H : Forall (fun e => forall sel objs, e = EvGetObjectList (Some sel) objs ->
                                                  sel = HcaAll.HOTSPOT_SEL cfg)
                       (snd (run (ScriptAll cfg) w))).
    { unfold run. apply emits_run. simpl script_main. unfold HcaAll.main.
      autounfold with blocks.
      emits_with ltac:(intros sel' objs' Hl;
                       first [discriminate | injection Hl as <- _; reflexivity]). }
    rewrite Forall_forall in H. exact (H _ HIn sel objs eq_refl).
  - intros w cfg args r HIn.
    assert (H : Forall (fun e => forall args r, e = EvPlotEuclideanHca args r ->
                                                eu_sel args = HcaAll.EUCLIDEAN_SEL cfg)
                       (snd (run (ScriptAll cfg) w))).
    { unfold run. apply emits_run. simpl script_main. unfold HcaAll.main.
      autounfold with blocks.
      emits_with ltac:(intros args' r' Hl;
                       first [discriminate | injection Hl as <- _; reflexivity]). }
    rewrite Forall_forall in H. exact (H _ HIn args r eq_refl).
  - intros cfg H. unfold HcaAll.EUCLIDEAN_SEL, HcaAll.HOTSPOT_SEL in H. discriminate.
  - split; [vm_compute; in_list|]. split; [vm_compute; discriminate|].
    split; [vm_compute; in_list | reflexivity].
Qed.

(** ** Releasing the plot *)

Lemma plot_open_app (open : bool) (tr1 tr2 : list event) :
  plot_open open (tr1 ++ tr2) = plot_open (plot_open open tr1) tr2.
Proof. unfold plot_open. apply fold_left_app. Qed.

Lemma plot_open_quiet (open : bool) (tr : list event) :
  Forall (fun e => is_clustering e || is_plot_handling e = false) tr ->
  plot_open open tr = open.
Proof.
  unfold plot_open. induction 1 as [|e tr He _ IH]; simpl; [reflexivity|].
  rewrite <- IH at 2. f_equal.
  destruct e as [| | | | | | | |a [m|]|a [m|]| | |]; simpl in *;
    try reflexivity; discriminate.
Qed.

Lemma plots_isolated_app (open : bool) (tr1 tr2 : list event) :
  plots_isolated open (tr1 ++ tr2)
  = plots_isolated open tr1 && plots_isolated (plot_open open tr1) tr2.
Proof.
  revert open. induction tr1 as [|e tr1 IH]; intros open; simpl; [reflexivity|].
  rewrite IH, andb_assoc. reflexivity.
Qed.

Lemma plots_isolated_quiet (open : bool) (tr : list event) :
  Forall (fun e => is_clustering e || is_plot_handling e = false) tr ->
  plots_isolated open tr = true.
Proof.
  intros H. revert open. induction H as [|e tr He _ IH]; intros open; simpl;
    [reflexivity|].
  rewrite IH. apply orb_false_iff in He. destruct He as [-> _]. reflexivity.
Qed.

Lemma no_job_failure_quiet (tr : list event) (e : event) :
  Forall (fun e => is_clustering e || is_plot_handling e = false) tr ->
  In e tr -> is_job_failure e = true -> False.
Proof.
  intros HF HIn He. rewrite Forall_forall in HF. specialize (HF _ HIn).
  destruct e as [| | | | | | | |a [m|]|a [m|]| |f d b [m|]|]; simpl in *; discriminate.
Qed.

Lemma plot_safe_quiet (k : M unit) :
  emits (fun e => is_clustering e || is_plot_handling e = false) k -> plot_safe k.
Proof.
  intros H w s. specialize (H w s). split; [|split].
  - intros _. apply plot_open_quiet. exact H.
  - apply plots_isolated_quiet. exact H.
  - intros e HIn He. destruct (no_job_failure_quiet _ _ H HIn He).
Qed.

Lemma plot_safe_after {A} (m : M A) (f : A -> M unit) :
  emits (fun e => is_clustering e || is_plot_handling e = false) m ->
  (forall a, plot_safe (f a)) ->
  plot_safe (bind m f).
Proof.
  intros Hm Hf w s. unfold bind. specialize (Hm w s).
  destruct (m w s) as [[[a|e] s1] tr1]; simpl in *.
  - destruct (Hf a w s1) as [Hopen [Hiso Hfail]].
    destruct (f a w s1) as [[r s2] tr2]; simpl in *. split; [|split].
    + intros Hr. rewrite plot_open_app, (plot_open_quiet _ tr1) by exact Hm. auto.
    + rewrite plots_isolated_app, (plots_isolated_quiet _ tr1),
        (plot_open_quiet _ tr1) by exact Hm. exact Hiso.
    + intros ev HIn Hev. apply in_app_or in HIn. destruct HIn as [HIn|HIn];
        [destruct (no_job_failure_quiet _ _ Hm HIn Hev)|].
      destruct (Hfail ev HIn Hev) as [[tr0 ->] Hmsg]. split; [|exact Hmsg].
      exists (tr1 ++ tr0). apply app_assoc.
  - split; [discriminate|]. split; [apply plots_isolated_quiet; exact Hm|].
    intros ev HIn Hev. destruct (no_job_failure_quiet _ _ Hm HIn Hev).
Qed.

Lemma plot_safe_job (j k : M unit) :
  job_like j -> plot_safe k -> plot_safe (bind j (fun _ => k)).
Proof.
  intros Hj Hk w s. unfold bind.
  destruct (Hj w s) as [[s' [tr [-> [Hopen [Hiso Hnf]]]]]
                       |[msg [s' [tr0 [ef [-> [Hef [Hiso Hnf]]]]]]]].
  - destruct (Hk w s') as [Hopen2 [Hiso2 Hfail2]].
    destruct (k w s') as [[r s2] tr2]; simpl in *. split; [|split].
    + intros Hr. rewrite plot_open_app, Hopen. auto.
    + rewrite plots_isolated_app, Hiso, Hopen. exact Hiso2.
    + intros e HIn He. apply in_app_or in HIn. destruct HIn as [HIn|HIn].
      * rewrite Forall_forall in Hnf. rewrite (Hnf _ HIn) in He. discriminate.
      * destruct (Hfail2 e HIn He) as [[tr0 ->] Hmsg]. split; [|exact Hmsg].
        exists (tr ++ tr0). apply app_assoc.
  - simpl. split; [discriminate|]. split; [exact Hiso|].
    intros e HIn He. split; [|exists msg; reflexivity].
    apply in_app_or in HIn. destruct HIn as [HIn|[<-|[]]].
    + rewrite Forall_forall in Hnf. rewrite (Hnf _ HIn) in He. discriminate.
    + exists tr0. reflexivity.
Qed.

(** Every job of the five scripts has that shape. *)
Ltac job_like_tac :=
  intros w s; autounfold with blocks;
  cbv [bind print emit time_time plot_pairwise_hca plot_euclidean_hca plt_title
       savefig_300_tight plt_savefig plt_close ret];
  match goal with
  | |- context [env_plot_pairwise_hca w ?a] =>
      destruct (env_plot_pairwise_hca w a) as [msg|]
  | |- context [env_plot_euclidean_hca w ?a] =>
      destruct (env_plot_euclidean_hca w a) as [msg|]
  end;
  [ right; refine (ex_intro _ _ (ex_intro _ _ (ex_intro _ [_] (ex_intro _ _ _))))
  | match goal with
    | |- context [env_savefig w ?f] => destruct (env_savefig w f) as [msg|]
    end;
    [ right;
      refine (ex_intro _ _ (ex_intro _ _ (ex_intro _ [_; _; _] (ex_intro _ _ _))))
    | left; eexists; eexists ] ];
  simpl; repeat split; repeat constructor.

Lemma job_like_all_HO (cfg : HcaAll.config) : job_like (HcaAll.job_HO cfg).
Proof. job_like_tac. Qed.

Lemma job_like_all_Jaccard (cfg : HcaAll.config) : job_like (HcaAll.job_Jaccard cfg).
Proof. job_like_tac. Qed.

Lemma job_like_all_Overlap (cfg : HcaAll.config) : job_like (HcaAll.job_Overlap cfg).
Proof. job_like_tac. Qed.

Lemma job_like_all_Euclidean (cfg : HcaAll.config) : job_like (HcaAll.job_Euclidean cfg).
Proof. job_like_tac. Qed.

Lemma job_like_HO (cfg : config) : job_like (HcaHO.job cfg).
Proof. job_like_tac. Qed.

Lemma job_like_Euclidian (cfg : config) : job_like (HcaEuclidian.job cfg).
Proof. job_like_tac. Qed.

Lemma job_like_Jaccard (cfg : config) : job_like (HcaJaccard.job cfg).
Proof. job_like_tac. Qed.

Lemma job_like_Overlap (cfg : config) : job_like (HcaOverlap.job cfg).
Proof. job_like_tac. Qed.

Lemma plot_safe_last (j : M unit) : job_like j -> plot_safe j.
Proof.
  intros Hj w s. rewrite <- (bind_ret_tt j w s).
  apply (plot_safe_job j (ret tt) Hj). apply plot_safe_quiet. emits_bool.
Qed.

Lemma plot_safe_main (sc : script) : plot_safe (script_main sc).
Proof.
  destruct sc as [cfg|cfg|cfg|cfg|cfg]; simpl.
  - unfold HcaAll.main.
    apply plot_safe_after; [emits_block | intros global_start].
    apply plot_safe_after; [emits_block | intros _].
    apply plot_safe_after; [emits_block | intros _].
    apply plot_safe_after; [emits_block | intros _].
    apply plot_safe_job; [apply job_like_all_HO|].
    apply plot_safe_job; [apply job_like_all_Jaccard|].
    apply plot_safe_job; [apply job_like_all_Overlap|].
    apply plot_safe_job; [apply job_like_all_Euclidean|].
    apply plot_safe_quiet. emits_block.
  - unfold HcaHO.main.
    apply plot_safe_after; [emits_block | intros _].
    apply plot_safe_after; [emits_block | intros _].
    apply plot_safe_after; [emits_block | intros _].
    apply plot_safe_last. apply job_like_HO.
  - unfold HcaEuclidian.main.
    apply plot_safe_after; [emits_block | intros _].
    apply plot_safe_last. apply job_like_Euclidian.
  - unfold HcaJaccard.main.
    apply plot_safe_after; [emits_block | intros _].
    apply plot_safe_after; [emits_block | intros _].
    apply plot_safe_after; [emits_block | intros _].
    apply plot_safe_last. apply job_like_Jaccard.
  - unfold HcaOverlap.main.
    apply plot_safe_after; [emits_block | intros _].
    apply plot_safe_after; [emits_block | intros _].
    apply plot_safe_after; [emits_block | intros _].
    apply plot_safe_last. apply job_like_Overlap.
Qed.

(** C7, as the scripts have it: in every script a run that succeeds has
    closed the plot of each job, and no clustering call is ever made while
    a plot is open; but when the clustering call or [plt.savefig] of a job
    raises, that call is the last event of the run: the exception ends
    the run and [plt.close()] is not reached. *)
Theorem plots_closed_on_success_only (w : Env) (sc : script) :
  (fst (run sc w) = Ok tt -> plot_open false (snd (run sc w)) = false) /\
  plots_isolated false (snd (run sc w)) = true /\
  (forall e, In e (snd (run sc w)) -> is_job_failure e = true ->
             (exists tr0, snd (run sc w) = tr0 ++ [e]) /\
             (exists msg, fst (run sc w) = Raise (CollaboratorError msg))).
Proof.
  unfold run, run_script. pose proof (plot_safe_main sc w init_state) as H.
  destruct (script_main sc w init_state) as [[r s] tr]. exact H.
Qed.

Lemma plots_closed_on_success_only_witness :
  fst (run (ScriptAll sample_all) sample_env) = Ok tt /\
  plot_open false (snd (run (ScriptAll sample_all) sample_env)) = false.
Proof.
  assert (H : fst (run (ScriptAll sample_all) sample_env) = Ok tt) by reflexivity.
  split; [exact H|].
  exact (proj1 (plots_closed_on_success_only sample_env (ScriptAll sample_all)) H).
Defined.

(** C7 fails as stated: when [plt.savefig] raises in the first job of
    [hca_all_analysis.py], the run ends with the figure open and without
    any [plt.close()]; and when the clustering call of [hca_HO.py] raises,
    no [plt.close()] follows either. *)
Lemma failed_job_leaves_plot_open :
  (fst (run (ScriptAll sample_all) savefig_fails_env)
   = Raise (CollaboratorError "No such file or directory") /\
   plot_open false (snd (run (ScriptAll sample_all) savefig_fails_env)) = true /\
   existsb is_close (snd (run (ScriptAll sample_all) savefig_fails_env)) = false) /\
  (fst (run (ScriptHO sample_HO) clustering_fails_env)
   = Raise (CollaboratorError "degenerate distance matrix") /\
   existsb is_clustering (snd (run (ScriptHO sample_HO) clustering_fails_env))
   = true /\
   existsb is_close (snd (run (ScriptHO sample_HO) clustering_fails_env))
   = false).
Proof. repeat split; vm_compute; reflexivity. Qed.

(** ** The final report of hca_all_analysis.py *)

Lemma report_observations_skip (tr1 tr2 : list event) :
  Forall (fun e => concerns_report e = false) tr1 ->
  saved_files (tr1 ++ tr2) = saved_files tr2 /\
  clustering_calls (tr1 ++ tr2) = clustering_calls tr2 /\
  listed_files (tr1 ++ tr2) = listed_files tr2 /\
  timed_lines (tr1 ++ tr2) = timed_lines tr2.
Proof.
  induction 1 as [|e tr1 He _ [IH1 [IH2 [IH3 IH4]]]]; simpl; [repeat split|].
  destruct e as [|[|[s|] [|p l]]| | | | | | | | | | |]; simpl in *;
    try discriminate; try rewrite He; repeat split; assumption.
Qed.

(** From the first job on, with [global_start] the reading taken at the
    start of the script. *)
Lemma jobs_report (cfg : HcaAll.config) (global_start : Q) (w : Env) (s : state) :
  let k := HcaAll.job_HO cfg ;; HcaAll.job_Jaccard cfg ;; HcaAll.job_Overlap cfg ;;
           HcaAll.job_Euclidean cfg ;; HcaAll.final_report cfg global_start in
  let c := fun i => env_clock w (i + ticks s) in
  fst (fst (k w s)) = Ok tt ->
  saved_files (snd (k w s))
  = [HcaAll.out_HO cfg; HcaAll.out_Jaccard cfg; HcaAll.out_Overlap cfg;
     HcaAll.out_Euclidean cfg] /\
  clustering_calls (snd (k w s)) = ["ho"; "jaccard"; "overlap"; "euclidean"] /\
  listed_files (snd (k w s))
  = ["  " +++ HcaAll.out_HO cfg; "  " +++ HcaAll.out_Jaccard cfg;
     "  " +++ HcaAll.out_Overlap cfg; "  " +++ HcaAll.out_Euclidean cfg +++ nl] /\
  timed_lines (snd (k w s))
  = [("✔ HO completed in ", c 1%nat - c 0%nat);
     ("✔ Jaccard completed in ", c 3%nat - c 2%nat);
     ("✔ Overlap completed in ", c 5%nat - c 4%nat);
     ("✔ Euclidean HCA completed in ", c 7%nat - c 6%nat);
     ("Total execution time: ", c 8%nat - global_start)]%Q.
Proof.
  intros k c. subst k c. autounfold with blocks.
  cbv [bind print emit time_time plot_pairwise_hca plot_euclidean_hca plt_title
       savefig_300_tight plt_savefig plt_close ret].
  repeat match goal with
         | |- context [env_plot_pairwise_hca w ?a] =>
             destruct (env_plot_pairwise_hca w a); [simpl; discriminate|]
         | |- context [env_plot_euclidean_hca w ?a] =>
             destruct (env_plot_euclidean_hca w a); [simpl; discriminate|]
         | |- context [env_savefig w ?f] =>
             destruct (env_savefig w f); [simpl; discriminate|]
         end.
  intros _. simpl. repeat split.
Qed.

Lemma reports_after {A} cfg global_start (m : M A) (f : A -> M unit) :
  emits (fun e => concerns_report e = false) m ->
  (forall a, reports cfg global_start (f a)) ->
  reports cfg global_start (bind m f).
Proof.
  intros Hm Hf w s. unfold bind. specialize (Hm w s).
  destruct (m w s) as [[[a|e] s1] tr1]; simpl in *; [|discriminate].
  specialize (Hf a w s1). destruct (f a w s1) as [[r s2] tr2]; simpl in *.
  intros Hr. destruct (report_observations_skip tr1 tr2 Hm) as [-> [-> [-> ->]]].
  exact (Hf Hr).
Qed.

Lemma reports_jobs (cfg : HcaAll.config) (global_start : Q) :
  reports cfg global_start
          (HcaAll.job_HO cfg ;; HcaAll.job_Jaccard cfg ;; HcaAll.job_Overlap cfg ;;
           HcaAll.job_Euclidean cfg ;; HcaAll.final_report cfg global_start).
Proof.
  intros w s Hr. destruct (jobs_report cfg global_start w s Hr) as [H1 [H2 [H3 H4]]].
  split; [exact H1|]. split; [exact H2|]. split; [exact H3|].
  exists (ticks s). exact H4.
Qed.

Lemma startup_run (w : Env) :
  exists tr, HcaAll.startup w init_state = (Ok (env_clock w 0), tick init_state, tr) /\
             Forall (fun e => concerns_report e = false) tr.
Proof.
  unfold HcaAll.startup, bind, pm_undo_disable_if_present, time_time, print, emit, ret.
  destruct (env_has_undo_disable w); simpl; eexists; split;
    try reflexivity; repeat constructor.
Qed.

(** C8, as the script has it: on a clock that never runs backwards, a run of
    [hca_all_analysis.py] that succeeds has run the four jobs in the
    order overlap (HO), Jaccard, residue overlap, Euclidean, has saved one
    file per job, lists exactly these four paths in that order after
    "Generated files:", and reports a total time that is at least the sum
    of the four job times. *)
Theorem final_report_of_a_successful_run (w : Env) (cfg : HcaAll.config) :
  clock_monotone w ->
  fst (run (ScriptAll cfg) w) = Ok tt ->
  clustering_calls (snd (run (ScriptAll cfg) w)) = ["ho"; "jaccard"; "overlap"; "euclidean"] /\
  saved_files (snd (run (ScriptAll cfg) w))
  = [HcaAll.out_HO cfg; HcaAll.out_Jaccard cfg; HcaAll.out_Overlap cfg;
     HcaAll.out_Euclidean cfg] /\
  listed_files (snd (run (ScriptAll cfg) w))
  = ["  " +++ HcaAll.out_HO cfg; "  " +++ HcaAll.out_Jaccard cfg;
     "  " +++ HcaAll.out_Overlap cfg; "  " +++ HcaAll.out_Euclidean cfg +++ nl] /\
  exists t1 t2 t3 t4 total,
    timed_lines (snd (run (ScriptAll cfg) w))
    = [("✔ HO completed in ", t1); ("✔ Jaccard completed in ", t2);
       ("✔ Overlap completed in ", t3); ("✔ Euclidean HCA completed in ", t4);
       ("Total execution time: ", total)] /\
    (t1 + t2 + t3 + t4 <= total)%Q.
Proof.
  intros Hclock. unfold run, run_script. simpl script_main. unfold HcaAll.main.
  destruct (startup_run w) as [tr0 [Hs HF0]].
  rewrite (run_bind_ok _ _ _ _ _ _ _ Hs).
  assert (R : reports cfg (env_clock w 0)
                (HcaAll.load_structures cfg ;; HcaAll.align_structures cfg ;;
                 HcaAll.select_hotspots cfg ;;
                 HcaAll.job_HO cfg ;; HcaAll.job_Jaccard cfg ;; HcaAll.job_Overlap cfg ;;
                 HcaAll.job_Euclidean cfg ;; HcaAll.final_report cfg (env_clock w 0))).
  { apply reports_after; [emits_block | intros _].
    apply reports_after; [emits_block | intros _].
    apply reports_after; [emits_block | intros _].
    apply reports_jobs. }
  specialize (R w (tick init_state)).
  match goal with
  | |- context [match ?k w (tick init_state) with _ => _ end] =>
      destruct (k w (tick init_state)) as [[r s] tr]
  end.
  simpl in *. intros Hr.
  destruct (R Hr) as [H1 [H2 [H3 [n H4]]]].
  destruct (report_observations_skip tr0 tr HF0) as [-> [-> [-> ->]]].
  split; [exact H2|]. split; [exact H1|]. split; [exact H3|].
  do 5 eexists. split; [exact H4|].
  pose proof (Hclock 0%nat n (Nat.le_0_l n)).
  pose proof (Hclock n (1 + n)%nat ltac:(lia)).
  pose proof (Hclock (1 + n)%nat (2 + n)%nat ltac:(lia)).
  pose proof (Hclock (2 + n)%nat (3 + n)%nat ltac:(lia)).
  pose proof (Hclock (3 + n)%nat (4 + n)%nat ltac:(lia)).
  pose proof (Hclock (4 + n)%nat (5 + n)%nat ltac:(lia)).
  pose proof (Hclock (5 + n)%nat (6 + n)%nat ltac:(lia)).
  pose proof (Hclock (6 + n)%nat (7 + n)%nat ltac:(lia)).
  pose proof (Hclock (7 + n)%nat (8 + n)%nat ltac:(lia)).
  simpl Nat.add in *. lra.
Qed.

Lemma sample_clock_monotone : clock_monotone sample_env.
Proof. intros n m H. unfold Qle. simpl. lia. Defined.

Lemma final_report_of_a_successful_run_witness :
  clock_monotone sample_env /\
  fst (run (ScriptAll sample_all) sample_env) = Ok tt /\
  clustering_calls (snd (run (ScriptAll sample_all) sample_env))
  = ["ho"; "jaccard"; "overlap"; "euclidean"] /\
  saved_files (snd (run (ScriptAll sample_all) sample_env))
  = [HcaAll.out_HO sample_all; HcaAll.out_Jaccard sample_all;
     HcaAll.out_Overlap sample_all; HcaAll.out_Euclidean sample_all] /\
  listed_files (snd (run (ScriptAll sample_all) sample_env))
  = ["  " +++ HcaAll.out_HO sample_all; "  " +++ HcaAll.out_Jaccard sample_all;
     "  " +++ HcaAll.out_Overlap sample_all;
     "  " +++ HcaAll.out_Euclidean sample_all +++ nl] /\
  exists t1 t2 t3 t4 total,
    timed_lines (snd (run (ScriptAll sample_all) sample_env))
    = [("✔ HO completed in ", t1); ("✔ Jaccard completed in ", t2);
       ("✔ Overlap completed in ", t3); ("✔ Euclidean HCA completed in ", t4);
       ("Total execution time: ", total)] /\
    (t1 + t2 + t3 + t4 <= total)%Q.
Proof.
  assert (H : fst (run (ScriptAll sample_all) sample_env) = Ok tt) by reflexivity.
  split; [exact sample_clock_monotone|]. split; [exact H|].
  exact (final_report_of_a_successful_run sample_env sample_all sample_clock_monotone H).
Defined.

(** C8 fails as stated: the times are differences of [time.time()]
    readings, and when the clock is set back during the run the run still
    succeeds, each job reports one second, and the total reported is
    negative, below the sum of the job times. *)
Lemma total_time_falls_short_when_the_clock_is_set_back :
  fst (run (ScriptAll sample_all) clock_set_back_env) = Ok tt /\
  exists t1 t2 t3 t4 total,
    timed_lines (snd (run (ScriptAll sample_all) clock_set_back_env))
    = [("✔ HO completed in ", t1); ("✔ Jaccard completed in ", t2);
       ("✔ Overlap completed in ", t3); ("✔ Euclidean HCA completed in ", t4);
       ("Total execution time: ", total)] /\
    (t1 == 1)%Q /\ (t2 == 1)%Q /\ (t3 == 1)%Q /\ (t4 == 1)%Q /\
    (total == -3582)%Q /\
    (total < t1 + t2 + t3 + t4)%Q.
Proof.
  split; [reflexivity|].
  do 5 eexists. split; [vm_compute; reflexivity|].
  repeat split; vm_compute; reflexivity.
Qed.

Lemma euclidean_selection_is_not_validated_witness :
  In (EvGetObjectList (Some "((*.B* *.D*) AND p.S0>20)") six_objects)
     (snd (run (ScriptAll sample_all) no_k15_env)) /\
  "((*.B* *.D*) AND p.S0>20)" = HcaAll.HOTSPOT_SEL sample_all.
Proof.
  assert (H : In (EvGetObjectList (Some "((*.B* *.D*) AND p.S0>20)") six_objects)
                 (snd (run (ScriptAll sample_all) no_k15_env)))
    by (vm_compute; in_list).
  split; [exact H|].
  exact (proj1 euclidean_selection_is_not_validated no_k15_env sample_all _ _ H).
Defined.

(** * Further properties *)

(** ** The progress bar *)

Lemma length_append (a b : string) :
  String.length (a +++ b) = (String.length a + String.length b)%nat.
Proof. induction a as [|c a IH]; simpl; [|rewrite IH]; reflexivity. Qed.

Lemma length_str_repeat (c : ascii) (n : nat) :
  String.length (str_repeat (String c "") n) = n.
Proof. induction n as [|n IH]; simpl; [|rewrite IH]; reflexivity. Qed.

Lemma filled_bounds (current total : Z) :
  1 <= total -> 0 <= current <= total -> 0 <= Z.quot (30 * current) total <= 30.
Proof.
  intros Ht Hc. rewrite Z.quot_div_nonneg by lia. split.
  - apply Z.div_pos; lia.
  - apply Z.div_le_upper_bound; lia.
Qed.

(** X1: For [0 <= current <= total] and [total < 2^48] both variants of
    [progress_bar] draw the same bar: [floor(30 * current / total)] signs
    "=" followed by "-", thirty characters in all; it is all "=" exactly
    at [current = total]. *)
Theorem progress_bar_has_thirty_slots (w : Env) (s : state) (current total : Z)
        (start : Q) (label : string) :
  1 <= total -> total < 2 ^ 48 -> 0 <= current <= total ->
  exists filled bar,
    filled = 30 * current / total /\
    0 <= filled <= 30 /\
    bar = str_mul "=" filled +++ str_mul "-" (30 - filled) /\
    String.length bar = 30%nat /\
    (filled = 30 <-> current = total) /\
    (exists fields,
        HcaAll.progress_bar current total start label w s
        = (Ok tt, tick s,
           [EvStdoutWrite
              (PStr (cr +++ label +++ " [" +++ bar +++ "] " +++ str_Z current +++ "/"
                     +++ str_Z total +++ " | " +++ "Elapsed: ") :: fields)])) /\
    (exists fields,
        progress_bar_single current total start label w s
        = (Ok tt, tick s,
           [EvStdoutWrite
              (PStr (cr +++ label +++ " [" +++ bar +++ "] " +++ str_Z current +++ "/"
                     +++ str_Z total +++ " | ETA ") :: fields)])).
Proof.
  intros Ht _ Hc. pose proof (filled_bounds current total Ht Hc) as Hf.
  rewrite Z.quot_div_nonneg in Hf by lia.
  exists (30 * current / total). eexists.
  split; [reflexivity|]. split; [exact Hf|]. split; [reflexivity|].
  assert (Hlen : String.length (str_mul "=" (30 * current / total)) 
                 = Z.to_nat (30 * current / total))
    by apply length_str_repeat.
  split; [|split; [|split]].
  - rewrite length_append, Hlen. unfold str_mul. rewrite length_str_repeat. lia.
  - split.
    + intros H. pose proof (Z.mul_div_le (30 * current) total ltac:(lia)) as Hm.
      rewrite H in Hm. lia.
    + intros ->. apply Z.div_mul. lia.
  - rewrite progress_bar_all_writes by lia. rewrite Z.quot_div_nonneg by lia.
    eexists. reflexivity.
  - rewrite progress_bar_single_writes by lia. rewrite Z.quot_div_nonneg by lia.
    unfold ljust. rewrite Hlen.
    replace (str_repeat "-" (30 - Z.to_nat (30 * current / total)))
      with (str_mul "-" (30 - 30 * current / total))
      by (unfold str_mul; f_equal; lia).
    eexists. reflexivity.
Qed.

Lemma progress_bar_has_thirty_slots_witness :
  1 <= 4 /\ 4 < 2 ^ 48 /\ 0 <= 3 <= 4 /\
  exists filled bar,
    filled = 30 * 3 / 4 /\
    0 <= filled <= 30 /\
    bar = str_mul "=" filled +++ str_mul "-" (30 - filled) /\
    String.length bar = 30%nat /\
    (filled = 30 <-> 3 = 4) /\
    (exists fields,
        HcaAll.progress_bar 3 4 0 "Loading" sample_env init_state
        = (Ok tt, tick init_state,
           [EvStdoutWrite
              (PStr (cr +++ "Loading" +++ " [" +++ bar +++ "] " +++ str_Z 3 +++ "/"
                     +++ str_Z 4 +++ " | " +++ "Elapsed: ") :: fields)])) /\
    (exists fields,
        progress_bar_single 3 4 0 "Loading" sample_env init_state
        = (Ok tt, tick init_state,
           [EvStdoutWrite
              (PStr (cr +++ "Loading" +++ " [" +++ bar +++ "] " +++ str_Z 3 +++ "/"
                     +++ str_Z 4 +++ " | ETA ") :: fields)])).
Proof.
  assert (H1 : 1 <= 4) by lia.
  assert (H2 : 4 < 2 ^ 48) by reflexivity.
  assert (H3 : 0 <= 3 <= 4) by lia.
  split; [exact H1|]. split; [exact H2|]. split; [exact H3|].
  exact (progress_bar_has_thirty_slots sample_env init_state 3 4 0 "Loading" H1 H2 H3).
Defined.

(** X2: Within [|current| <= |total| < 2^48] (any [current] below [2^48] when
    [total] is zero), [progress_bar] raises exactly when [total] is zero.
    The division by [current] never raises: the guard of each variant
    skips it at zero.  The exception is the ZeroDivisionError of the bar
    computation, with nothing written; otherwise one line is written.
    Either way the clock is read once. *)
Theorem progress_bar_raises_iff_total_is_zero (w : Env) (s : state) (current total : Z)
        (start : Q) (label : string) :
  Z.abs total < 2 ^ 48 -> Z.abs current < 2 ^ 48 ->
  (total <> 0 -> Z.abs current <= Z.abs total) ->
  (forall elapsed,
      (exists avg, HcaAll.average elapsed current w s = (Ok avg, s, [])) /\
      (exists avg, average_single elapsed current w s = (Ok avg, s, []))) /\
  (total = 0 ->
   HcaAll.progress_bar current total start label w s = (Raise ZeroDivisionError, tick s, [])
   /\ progress_bar_single current total start label w s
      = (Raise ZeroDivisionError, tick s, [])) /\
  (total <> 0 ->
   (exists line, HcaAll.progress_bar current total start label w s
                 = (Ok tt, tick s, [EvStdoutWrite line])) /\
   (exists line, progress_bar_single current total start label w s
                 = (Ok tt, tick s, [EvStdoutWrite line]))).
Proof.
  intros _ _ _. split; [|split].
  - intros elapsed. rewrite average_runs, average_single_runs.
    split; eexists; reflexivity.
  - intros ->. split;
      [apply progress_bar_all_zero_total | apply progress_bar_single_zero_total].
  - intros Ht. split; [apply progress_bar_all_runs | apply progress_bar_single_runs];
      exact Ht.
Qed.

Lemma progress_bar_raises_iff_total_is_zero_witness :
  Z.abs 0 < 2 ^ 48 /\ Z.abs 3 < 2 ^ 48 /\
  HcaAll.progress_bar 3 0 0 "Loading" sample_env init_state
  = (Raise ZeroDivisionError, tick init_state, [])
  /\ progress_bar_single 3 0 0 "Loading" sample_env init_state
     = (Raise ZeroDivisionError, tick init_state, []).
Proof.
  assert (H1 : Z.abs 0 < 2 ^ 48) by reflexivity.
  assert (H2 : Z.abs 3 < 2 ^ 48) by reflexivity.
  assert (H3 : 0 <> 0 -> Z.abs 3 <= Z.abs 0) by (intros H; exfalso; apply H; reflexivity).
  split; [exact H1|]. split; [exact H2|].
  exact (proj1 (proj2 (progress_bar_raises_iff_total_is_zero sample_env init_state 3 0 0
                         "Loading" H1 H2 H3)) eq_refl).
Defined.



(** ** The exceptions a run can end with *)

Section RaisesOnly.
Variable P : exn -> Prop.

Lemma raises_ret {A} (a : A) : raises_only P (ret a).
Proof. intros w s e H. discriminate H. Qed.

Lemma raises_raise {A} (e : exn) : P e -> raises_only P (@raise A e).
Proof. intros He w s e' H. injection H as <-. exact He. Qed.

Lemma raises_quiet {A} (m : M A) :
  (forall w s, exists a, fst (fst (m w s)) = Ok a) -> raises_only P m.
Proof. intros Hm w s e H. destruct (Hm w s) as [a Ha]. congruence. Qed.

Lemma raises_bind {A B} (m : M A) (f : A -> M B) :
  raises_only P m -> (forall a, raises_only P (f a)) -> raises_only P (bind m f).
Proof.
  intros Hm Hf w s e. unfold bind. specialize (Hm w s).
  destruct (m w s) as [[[a|e1] s1] tr1]; simpl in *.
  - specialize (Hf a w s1). destruct (f a w s1) as [[r s2] tr2]. simpl in *. apply Hf.
  - intros H. injection H as <-. apply Hm. reflexivity.
Qed.

Lemma raises_try_except {A} (m : M A) (h : exn -> M A) :
  (forall e, raises_only P (h e)) -> raises_only P (try_except m h).
Proof.
  intros Hh w s e. unfold try_except.
  destruct (m w s) as [[[a|e1] s1] tr1]; simpl; [discriminate|].
  specialize (Hh e1 w s1). destruct (h e1 w s1) as [[r s2] tr2]. simpl in *. apply Hh.
Qed.

Lemma raises_for_enumerate {A} (xs : list A) (body : Z -> A -> M unit) :
  (forall i x, In x xs -> raises_only P (body i x)) ->
  forall i, raises_only P (for_enumerate xs i body).
Proof.
  induction xs as [|x xs IH]; intros Hb i; simpl.
  - apply raises_ret.
  - apply raises_bind; [apply Hb; left; reflexivity | intros _].
    apply IH. intros j y Hy. apply Hb. right. exact Hy.
Qed.

Lemma raises_for_each {A} (xs : list A) (body : A -> M unit) :
  (forall x, In x xs -> raises_only P (body x)) -> raises_only P (for_each xs body).
Proof.
  induction xs as [|x xs IH]; intros Hb; simpl.
  - apply raises_ret.
  - apply raises_bind; [apply Hb; left; reflexivity | intros _].
    apply IH. intros y Hy. apply Hb. right. exact Hy.
Qed.

Lemma raises_filter_M {A} (test : A -> M bool) (xs : list A) :
  (forall x, raises_only P (test x)) -> raises_only P (filter_M test xs).
Proof.
  intros Ht. induction xs as [|x xs IH]; simpl.
  - apply raises_ret.
  - apply raises_bind; [apply Ht | intros b].
    apply raises_bind; [apply IH | intros rest; apply raises_ret].
Qed.

Lemma raises_list_first (xs : list string) :
  (xs = [] -> P IndexError) -> raises_only P (list_first xs).
Proof.
  destruct xs; intros H; [apply raises_raise; auto | apply raises_ret].
Qed.

Lemma raises_progress_all current total start prefix :
  (total = 0 -> P ZeroDivisionError) ->
  raises_only P (HcaAll.progress_bar current total start prefix).
Proof.
  intros H. destruct (Z.eq_dec total 0) as [->|Hne].
  - intros w s e He. rewrite progress_bar_all_zero_total in He.
    injection He as <-. auto.
  - apply raises_quiet. intros w s.
    destruct (progress_bar_all_runs w s current total start prefix Hne) as [line ->].
    exists tt. reflexivity.
Qed.

Lemma raises_progress_single i total start label :
  (total = 0 -> P ZeroDivisionError) ->
  raises_only P (progress_bar_single i total start label).
Proof.
  intros H. destruct (Z.eq_dec total 0) as [->|Hne].
  - intros w s e He. rewrite progress_bar_single_zero_total in He.
    injection He as <-. auto.
  - apply raises_quiet. intros w s.
    destruct (progress_bar_single_runs w s i total start label Hne) as [line ->].
    exists tt. reflexivity.
Qed.

Lemma raises_load_ftmap (file : string) :
  (forall msg, P (CollaboratorError msg)) -> raises_only P (load_ftmap file).
Proof.
  intros H w s e. unfold load_ftmap.
  destruct (env_load_ftmap w file); simpl; intros He; [discriminate|].
  injection He as <-. apply H.
Qed.

Lemma raises_align (mobile target : string) :
  (forall msg, P (CollaboratorError msg)) -> raises_only P (pm_align mobile target).
Proof.
  intros H w s e. unfold pm_align.
  destruct (env_align w mobile target); simpl; intros He; [|discriminate].
  injection He as <-. apply H.
Qed.

Lemma raises_plot_pairwise (args : pairwise_args) :
  (forall msg, P (CollaboratorError msg)) -> raises_only P (plot_pairwise_hca args).
Proof.
  intros H w s e. unfold plot_pairwise_hca.
  destruct (env_plot_pairwise_hca w args); simpl; intros He; [|discriminate].
  injection He as <-. apply H.
Qed.

Lemma raises_plot_euclidean (args : euclidean_args) :
  (forall msg, P (CollaboratorError msg)) -> raises_only P (plot_euclidean_hca args).
Proof.
  intros H w s e. unfold plot_euclidean_hca.
  destruct (env_plot_euclidean_hca w args); simpl; intros He; [|discriminate].
  injection He as <-. apply H.
Qed.

Lemma raises_savefig (fname : string) (dpi : Z) (bbox : string) :
  (forall msg, P (CollaboratorError msg)) -> raises_only P (plt_savefig fname dpi bbox).
Proof.
  intros H w s e. unfold plt_savefig.
  destruct (env_savefig w fname); simpl; intros He; [|discriminate].
  injection He as <-. apply H.
Qed.

Lemma raises_undo_disable : raises_only P pm_undo_disable_if_present.
Proof.
  apply raises_quiet. intros w s. unfold pm_undo_disable_if_present.
  destruct (env_has_undo_disable w); exists tt; reflexivity.
Qed.
End RaisesOnly.

(** One step of a proof that a block raises only exceptions of a class. *)
Ltac raises_step :=
  lazymatch goal with
  | |- raises_only _ (bind _ _) => apply raises_bind; [|intros ?]
  | |- raises_only _ (ret _) => apply raises_ret
  | |- raises_only _ (raise _) => apply raises_raise
  | |- raises_only _ (try_except _ _) => apply raises_try_except; intros ?
  | |- raises_only _ (for_enumerate _ _ _) => apply raises_for_enumerate; intros ? ? ?
  | |- raises_only _ (for_each _ _) => apply raises_for_each; intros ? ?
  | |- raises_only _ (filter_M _ _) => apply raises_filter_M; intros ?
  | |- raises_only _ (list_first _) => apply raises_list_first
  | |- raises_only _ (HcaAll.progress_bar _ _ _ _) => apply raises_progress_all
  | |- raises_only _ (progress_bar_single _ _ _ _) => apply raises_progress_single
  | |- raises_only _ (load_ftmap _) => apply raises_load_ftmap
  | |- raises_only _ (pm_align _ _) => apply raises_align
  | |- raises_only _ (plot_pairwise_hca _) => apply raises_plot_pairwise
  | |- raises_only _ (plot_euclidean_hca _) => apply raises_plot_euclidean
  | |- raises_only _ (plt_savefig _ _ _) => apply raises_savefig
  | |- raises_only _ (savefig_300_tight _) => apply raises_savefig
  | |- raises_only _ pm_undo_disable_if_present => apply raises_undo_disable
  | |- raises_only _ (if ?b then _ else _) => destruct b eqn:?
  | |- raises_only _ (match ?x with _ => _ end) => destruct x eqn:?
  | |- raises_only _ _ =>
      apply raises_quiet; intros ? ?; eexists; reflexivity
  end.

(** A progress call in a loop is never given the total 0: the loop runs
    over a list that is not empty. *)
Ltac total_not_zero :=
  intros ?; exfalso; unfold len in *;
  repeat match goal with
         | H : In _ (tl ?l) |- _ => destruct l as [|? [|? ?]]; simpl in H
         | H : In _ [] |- _ => destruct H
         | H : False |- _ => destruct H
         | H : (_ =? _) = false |- _ => apply Z.eqb_neq in H
         | H : (_ <? _) = false |- _ => apply Z.ltb_ge in H
         end;
  subst; simpl length in *; try discriminate; lia.

Lemma is_diagnostic_only (rest : string) : is_diagnostic ("Only " +++ rest) = true.
Proof.
  unfold is_diagnostic. rewrite (prefix_append "Only " rest).
  rewrite orb_true_r. reflexivity.
Qed.

Ltac raises_leaf :=
  first [ reflexivity
        | apply is_diagnostic_only
        | exact I
        | intros ?; exact I
        | intros ->; simpl in *; first [discriminate | reflexivity]
        | total_not_zero ].

Lemma raises_main (sc : script) :
  raises_only (allowed (takes_first_object sc)) (script_main sc).
Proof.
  destruct sc as [cfg|cfg|cfg|cfg|cfg]; simpl;
    [ unfold HcaAll.main | unfold HcaHO.main | unfold HcaEuclidian.main
    | unfold HcaJaccard.main | unfold HcaOverlap.main ];
    autounfold with blocks; repeat raises_step; raises_leaf.
Qed.

(** X4: No run ends with a ZeroDivisionError: the progress calls always get a
    total that is not zero.  A RuntimeError that ends a run carries one of
    the scripts' own diagnostics.  An IndexError can end a run only in the
    scripts that take the first object of the list unchecked;
    [hca_HO.py], which counts its proteins first, and [hca_Euclidian.py]
    never raise it. *)
Theorem run_ends_with_an_expected_exception (w : Env) (sc : script) (e : exn) :
  fst (run sc w) = Raise e ->
  e <> ZeroDivisionError /\
  (e = IndexError -> takes_first_object sc = true) /\
  (forall msg, e = RuntimeError msg -> is_diagnostic msg = true).
Proof.
  unfold run, run_script. pose proof (raises_main sc w init_state e) as H.
  destruct (script_main sc w init_state) as [[r s] tr]. simpl in *.
  intros Hr. specialize (H Hr). split; [|split].
  - intros ->. exact H.
  - intros ->. exact H.
  - intros msg ->. exact H.
Qed.

Lemma run_ends_with_an_expected_exception_witness :
  fst (run (ScriptAll sample_all) one_object_env)
  = Raise (RuntimeError
             "Only 1 hotspots found with S0 > 20. At least two are required for HCA.") /\
  is_diagnostic "Only 1 hotspots found with S0 > 20. At least two are required for HCA."
  = true.
Proof.
  assert (H : fst (run (ScriptAll sample_all) one_object_env)
              = Raise (RuntimeError
                         "Only 1 hotspots found with S0 > 20. At least two are required for HCA."))
    by reflexivity.
  split; [exact H|].
  exact (proj2 (proj2 (run_ends_with_an_expected_exception one_object_env
                         (ScriptAll sample_all) _ H)) _ eq_refl).
Defined.

(** ** Scripts and settings without alignment *)

(** X7: With [ALIGN_STRUCTURES] unset, [hca_all_analysis.py] neither lists
    the objects nor aligns anything; [hca_Euclidian.py] never does. *)
Theorem no_alignment_when_not_asked (w : Env) (sc : script) :
  (exists cfg, sc = ScriptAll cfg /\ HcaAll.ALIGN_STRUCTURES cfg = false)
  \/ (exists cfg, sc = ScriptEuclidian cfg) ->
  align_calls (snd (run sc w)) = [] /\
  Forall (fun e => is_get_all e = false) (snd (run sc w)).
Proof.
  intros H.
  assert (E : emits (fun e => is_get_all e || is_align e = false) (script_main sc)).
  { destruct H as [[cfg [-> HA]]|[cfg ->]]; simpl.
    - unfold HcaAll.main, HcaAll.align_structures. rewrite HA. emits_block.
    - unfold HcaEuclidian.main. emits_block. }
  pose proof (emits_run _ _ w E) as HF. fold (run sc w) in HF. split.
  - apply align_calls_none. exact HF.
  - eapply Forall_impl; [|exact HF]. intros e He. apply orb_false_iff in He. apply He.
Qed.

Lemma no_alignment_when_not_asked_witness :
  align_calls (snd (run (ScriptEuclidian HcaEuclidian.as_written) sample_env)) = [] /\
  Forall (fun e => is_get_all e = false)
         (snd (run (ScriptEuclidian HcaEuclidian.as_written) sample_env)).
Proof.
  exact (no_alignment_when_not_asked sample_env (ScriptEuclidian HcaEuclidian.as_written)
           (or_intror (ex_intro _ HcaEuclidian.as_written eq_refl))).
Defined.

(** ** The unguarded alignment of hca_jaccard.py and hca_overlap.py *)

(** X8: In [hca_jaccard.py] and [hca_overlap.py] every object after the first
    is aligned to the first, hotspot objects included.  When all these
    alignments succeed the hotspot selection is queried next, on the same
    objects; the first one that fails ends the run with its exception and
    no selection is queried. *)
Theorem bare_alignment_all_or_nothing (w : Env) (sc : script) (sel : string)
        (objs : list string) (ref : string) (rest : list string) :
  (exists cfg, sc = ScriptJaccard cfg \/ sc = ScriptOverlap cfg) ->
  script_hotspot_sel sc = Some sel ->
  In (EvGetObjectList None objs) (snd (run sc w)) ->
  objs = ref :: rest ->
  ((forall o, In o rest -> env_align w o ref = None) ->
   align_calls (snd (run sc w)) = map (fun o => (o, ref, None)) rest /\
   In (EvGetObjectList (Some sel) (env_select w sel objs)) (snd (run sc w))) /\
  (forall o, In o rest -> env_align w o ref <> None ->
             (exists msg, fst (run sc w) = Raise (CollaboratorError msg)) /\
             Forall (fun e => is_sel_query e = false) (snd (run sc w))).
Proof.
  intros [cfg [->| ->]] Hsel HIn Hobjs; simpl in Hsel; injection Hsel as <-;
    unfold run in *; simpl script_main in *.
  - exact (strict_run _ _ w objs ref rest (strict_jaccard_main cfg) HIn Hobjs).
  - exact (strict_run _ _ w objs ref rest (strict_overlap_main cfg) HIn Hobjs).
Qed.

Lemma bare_alignment_all_or_nothing_witness :
  In (EvGetObjectList None six_objects)
     (snd (run (ScriptOverlap HcaOverlap.as_written) sample_env)) /\
  align_calls (snd (run (ScriptOverlap HcaOverlap.as_written) sample_env))
  = map (fun o => (o, "a.pdb.protein", None)) (tl six_objects).
Proof.
  assert (H : In (EvGetObjectList None six_objects)
                 (snd (run (ScriptOverlap HcaOverlap.as_written) sample_env)))
    by (vm_compute; in_list).
  split; [exact H|].
  refine (proj1 (proj1 (bare_alignment_all_or_nothing sample_env
                          (ScriptOverlap HcaOverlap.as_written) _ six_objects
                          "a.pdb.protein" (tl six_objects)
                          (ex_intro _ HcaOverlap.as_written (or_intror eq_refl))
                          eq_refl H eq_refl) _)).
  intros o Ho. reflexivity.
Defined.

(** ** The artifacts of hca_all_analysis.py *)

Lemma append_inj_l (p a b : string) : p +++ a = p +++ b -> a = b.
Proof.
  induction p as [|c p IH]; simpl; intros H; [exact H|].
  injection H as H. exact (IH H).
Qed.

(** X11: Whatever the prefix, the four jobs of [hca_all_analysis.py] write
    four different files: no job overwrites the plot of another. *)
Theorem output_files_are_distinct (cfg : HcaAll.config) :
  NoDup [HcaAll.out_HO cfg; HcaAll.out_Jaccard cfg; HcaAll.out_Overlap cfg;
         HcaAll.out_Euclidean cfg].
Proof.
  unfold HcaAll.out_HO, HcaAll.out_Jaccard, HcaAll.out_Overlap, HcaAll.out_Euclidean.
  repeat constructor; simpl; intros H;
    repeat (destruct H as [H|H]; [apply append_inj_l in H; discriminate H|]);
    exact H.
Qed.

(** ** Clustering on a validated selection *)

Lemma no_clustering_in (tr : list event) (args : pairwise_args) (r : option string) :
  Forall (fun e => is_clustering e = false) tr -> In (EvPlotPairwiseHca args r) tr -> False.
Proof.
  intros HF HIn. rewrite Forall_forall in HF. specialize (HF _ HIn). discriminate.
Qed.

Lemma vetted_after {A} (m : M A) (f : A -> M unit) :
  emits (fun e => is_clustering e = false) m ->
  (forall a, vetted (f a)) ->
  vetted (bind m f).
Proof.
  intros Hm Hf w s args r. unfold bind. specialize (Hm w s).
  destruct (m w s) as [[[a|e] s1] tr1]; simpl in *.
  - specialize (Hf a w s1 args r). destruct (f a w s1) as [[r2 s2] tr2]; simpl in *.
    intros HIn. apply in_app_or in HIn.
    destruct HIn as [HIn|HIn]; [destruct (no_clustering_in _ _ _ Hm HIn)|].
    destruct (Hf HIn) as [objs [Hq Hlen]]. exists objs. split; [|exact Hlen].
    apply in_or_app. right. exact Hq.
  - intros HIn. destruct (no_clustering_in _ _ _ Hm HIn).
Qed.

Lemma vetted_validation (sel : string) (v post : M unit) :
  passes sel v ->
  emits (fun e => forall args r, e = EvPlotPairwiseHca args r -> pw_sel args = sel) post ->
  vetted (bind v (fun _ => post)).
Proof.
  intros Hv Hpost w s args r. unfold bind.
  destruct (Hv w s) as [Hcl Hok].
  destruct (v w s) as [[[a|e] s1] tr1]; simpl in *.
  - specialize (Hpost w s1). destruct (post w s1) as [[r2 s2] tr2]; simpl in *.
    intros HIn. apply in_app_or in HIn.
    destruct HIn as [HIn|HIn]; [destruct (no_clustering_in _ _ _ Hcl HIn)|].
    rewrite Forall_forall in Hpost. rewrite (Hpost _ HIn args r eq_refl).
    destruct (Hok a eq_refl) as [objs [Hq Hlen]]. exists objs. split; [|exact Hlen].
    apply in_or_app. left. exact Hq.
  - intros HIn. destruct (no_clustering_in _ _ _ Hcl HIn).
Qed.

Ltac passes_tac :=
  intros w s; cbv [bind pm_get_object_list_sel print emit raise ret];
  match goal with
  | |- context [len ?hs <? 2] => destruct (Z.ltb_spec (len hs) 2)
  end; simpl;
  (split; [repeat constructor|]);
  intros a Ha; [discriminate Ha|];
  eexists; (split; [|eassumption]); in_list.

Lemma passes_all (cfg : HcaAll.config) :
  passes (HcaAll.HOTSPOT_SEL cfg) (HcaAll.select_hotspots cfg).
Proof. unfold HcaAll.select_hotspots. passes_tac. Qed.

Lemma passes_HO (cfg : config) : passes (HcaHO.HOTSPOT_SEL cfg) (HcaHO.validate_hotspots cfg).
Proof. unfold HcaHO.validate_hotspots. passes_tac. Qed.

Lemma passes_jaccard (cfg : config) :
  passes (HcaJaccard.HOTSPOT_SEL cfg) (HcaJaccard.validate_hotspots cfg).
Proof. unfold HcaJaccard.validate_hotspots. passes_tac. Qed.

Lemma passes_overlap (cfg : config) :
  passes (HcaOverlap.HOTSPOT_SEL cfg) (HcaOverlap.validate_hotspots cfg).
Proof. unfold HcaOverlap.validate_hotspots. passes_tac. Qed.

Ltac same_selection :=
  autounfold with blocks;
  emits_with ltac:(intros args' r' Hl;
                   first [discriminate | injection Hl as <- _; reflexivity]).

Lemma vetted_main (sc : script) : vetted (script_main sc).
Proof.
  destruct sc as [cfg|cfg|cfg|cfg|cfg]; simpl.
  - unfold HcaAll.main.
    apply vetted_after; [emits_block | intros global_start].
    apply vetted_after; [emits_block | intros _].
    apply vetted_after; [emits_block | intros _].
    apply (vetted_validation (HcaAll.HOTSPOT_SEL cfg)); [apply passes_all | same_selection].
  - unfold HcaHO.main.
    apply vetted_after; [emits_block | intros _].
    apply vetted_after; [emits_block | intros _].
    apply (vetted_validation (HcaHO.HOTSPOT_SEL cfg)); [apply passes_HO | same_selection].
  - intros w s args r HIn. exfalso.
    assert (H : emits (fun e => forall args r, e <> EvPlotPairwiseHca args r)
                      (HcaEuclidian.main cfg)).
    { unfold HcaEuclidian.main. autounfold with blocks.
      emits_with ltac:(intros args' r' Hl; discriminate Hl). }
    specialize (H w s). rewrite Forall_forall in H. exact (H _ HIn args r eq_refl).
  - unfold HcaJaccard.main.
    apply vetted_after; [emits_block | intros _].
    apply vetted_after; [emits_block | intros _].
    apply (vetted_validation (HcaJaccard.HOTSPOT_SEL cfg));
      [apply passes_jaccard | same_selection].
  - unfold HcaOverlap.main.
    apply vetted_after; [emits_block | intros _].
    apply vetted_after; [emits_block | intros _].
    apply (vetted_validation (HcaOverlap.HOTSPOT_SEL cfg));
      [apply passes_overlap | same_selection].
Qed.

(** X9: In every script, a pairwise clustering call is only ever made on a
    selection that the run has queried before and found to hold at least
    two objects. *)
Theorem pairwise_clustering_is_validated (w : Env) (sc : script) (args : pairwise_args)
        (r : option string) :
  In (EvPlotPairwiseHca args r) (snd (run sc w)) ->
  exists objs,
    In (EvGetObjectList (Some (pw_sel args)) objs) (snd (run sc w)) /\ 2 <= len objs.
Proof.
  unfold run, run_script. pose proof (vetted_main sc w init_state args r) as H.
  destruct (script_main sc w init_state) as [[r0 s] tr]. exact H.
Qed.

Lemma pairwise_clustering_is_validated_witness :
  In (EvPlotPairwiseHca (pairwise_plain "((*.B* *.D*) AND p.S0>20)" "jaccard" true (5 # 1))
                        None)
     (snd (run (ScriptJaccard HcaJaccard.as_written) sample_env)) /\
  exists objs,
    In (EvGetObjectList (Some "((*.B* *.D*) AND p.S0>20)") objs)
       (snd (run (ScriptJaccard HcaJaccard.as_written) sample_env)) /\ 2 <= len objs.
Proof.
  assert (H : In (EvPlotPairwiseHca
                    (pairwise_plain "((*.B* *.D*) AND p.S0>20)" "jaccard" true (5 # 1))
                    None)
                 (snd (run (ScriptJaccard HcaJaccard.as_written) sample_env)))
    by (vm_compute; in_list).
  split; [exact H|].
  exact (pairwise_clustering_is_validated sample_env (ScriptJaccard HcaJaccard.as_written)
           _ _ H).
Defined.

(** ** Loading in order, stopping at the first failure *)

Lemma load_calls_app (tr1 tr2 : list event) :
  load_calls (tr1 ++ tr2) = load_calls tr1 ++ load_calls tr2.
Proof.
  induction tr1 as [|e tr1 IH]; simpl; [reflexivity|].
  destruct e; simpl; rewrite IH; reflexivity.
Qed.

Lemma load_calls_none (tr : list event) :
  Forall (fun e => is_load e = false) tr -> load_calls tr = [].
Proof.
  induction 1 as [|e tr He _ IH]; simpl; [reflexivity|].
  destruct e; simpl in *; try exact IH. discriminate.
Qed.

Lemma no_load_in (tr : list event) (f : string) (r : option string) :
  Forall (fun e => is_load e = false) tr -> In (EvLoadFtmap f r) tr -> False.
Proof.
  intros HF HIn. rewrite Forall_forall in HF. specialize (HF _ HIn). discriminate.
Qed.

(** The loading loop of every script: load, then report progress. *)
Lemma load_loop_runs (pb : Z -> M unit) (files : list string) :
  (forall i w s, exists line, pb i w s = (Ok tt, tick s, [EvStdoutWrite line])) ->
  forall i w s,
  exists r s' tr,
    for_enumerate files i (fun i f => load_ftmap f ;; pb i) w s = (r, s', tr) /\
    load_calls tr = loads_until_failure w files /\
    Forall (fun e => is_after_loading e = false) tr /\
    (forall f msg, In (EvLoadFtmap f (Some msg)) tr -> r = Raise (CollaboratorError msg)).
Proof.
  intros Hpb. induction files as [|f files IH]; intros i w s; simpl.
  - exists (Ok tt), s, []. repeat split; try constructor. intros f msg [].
  - unfold bind at 1 2. unfold load_ftmap at 1.
    destruct (env_load_ftmap w f) as [objs|msg].
    + destruct (Hpb i w {| session := session s ++ objs; ticks := ticks s |})
        as [line ->].
      destruct (IH (i + 1) w (tick {| session := session s ++ objs; ticks := ticks s |}))
        as [r [s' [tr [-> [Hc [HF Hfail]]]]]].
      eexists. eexists. eexists. split; [reflexivity|]. simpl.
      split; [rewrite Hc; reflexivity|]. split.
      * constructor; [reflexivity|]. constructor; [reflexivity | exact HF].
      * intros f0 msg [H|[H|H]]; try discriminate. exact (Hfail f0 msg H).
    + eexists. eexists. eexists. split; [reflexivity|]. simpl.
      split; [reflexivity|]. split; [repeat constructor|].
      intros f0 msg0 [H|[]]. injection H as _ <-. reflexivity.
Qed.

Lemma loads_ok_block (pattern : string) (m post : M unit) :
  load_block pattern m ->
  emits (fun e => is_load e = false) post ->
  loads_ok pattern (bind m (fun _ => post)).
Proof.
  intros Hm Hpost w s. unfold bind.
  destruct (Hm w s) as [r [s1 [tr1 [-> [Hc [HF Hfail]]]]]].
  destruct r as [a|e]; simpl in *.
  - specialize (Hpost w s1). destruct (post w s1) as [[r s2] tr2]; simpl in *. split.
    + rewrite load_calls_app, (load_calls_none tr2), app_nil_r by exact Hpost. exact Hc.
    + intros f msg HIn. apply in_app_or in HIn. destruct HIn as [HIn|HIn].
      * specialize (Hfail f msg HIn). discriminate.
      * destruct (no_load_in _ _ _ Hpost HIn).
  - split; [exact Hc|]. intros f msg HIn. split; [exact (Hfail f msg HIn) | exact HF].
Qed.

Lemma loads_ok_after {A} (pattern : string) (m : M A) (f : A -> M unit) :
  emits (fun e => is_load e || is_after_loading e = false) m ->
  (forall w s, exists a, fst (fst (m w s)) = Ok a) ->
  (forall a, loads_ok pattern (f a)) ->
  loads_ok pattern (bind m f).
Proof.
  intros Hm Hq Hf w s. unfold bind. specialize (Hm w s). specialize (Hq w s).
  assert (Hl : Forall (fun e => is_load e = false) (snd (m w s)))
    by (eapply Forall_impl; [|exact Hm]; intros e He; apply orb_false_iff in He; apply He).
  assert (Ha : Forall (fun e => is_after_loading e = false) (snd (m w s)))
    by (eapply Forall_impl; [|exact Hm]; intros e He; apply orb_false_iff in He; apply He).
  destruct (m w s) as [[[a|e] s1] tr1]; simpl in *;
    [|destruct Hq as [a Hq]; discriminate].
  destruct (Hf a w s1) as [Hc Hfail].
  destruct (f a w s1) as [[r s2] tr2]; simpl in *. split.
  - rewrite load_calls_app, (load_calls_none tr1) by exact Hl. exact Hc.
  - intros f0 msg HIn. apply in_app_or in HIn.
    destruct HIn as [HIn|HIn]; [destruct (no_load_in _ _ _ Hl HIn)|].
    destruct (Hfail f0 msg HIn) as [Hr HF]. split; [exact Hr|].
    apply Forall_app. split; assumption.
Qed.

Lemma progress_in_loading_runs (files : list string) (start : Q) (label : string) :
  files <> [] ->
  (forall i w s, exists line,
        HcaAll.progress_bar i (len files) start label w s
        = (Ok tt, tick s, [EvStdoutWrite line])) /\
  (forall i w s, exists line,
        progress_bar_single i (len files) start label w s
        = (Ok tt, tick s, [EvStdoutWrite line])).
Proof.
  intros Hne.
  assert (H : len files <> 0) by (destruct files; [contradiction | unfold len; simpl; lia]).
  split; intros i w s;
    [apply progress_bar_all_runs | apply progress_bar_single_runs]; exact H.
Qed.

Lemma after_loading_loop (r : outcome unit) (s' : state) (tr : list event)
      (w : Env) (files : list string) (before : list event) (done : M unit) (line : string) :
  done = print [PStr line] ->
  load_calls tr = loads_until_failure w files ->
  Forall (fun e => is_after_loading e = false) tr ->
  (forall f msg, In (EvLoadFtmap f (Some msg)) tr -> r = Raise (CollaboratorError msg)) ->
  Forall (fun e => is_load e || is_after_loading e = false) before ->
  exists r2 s2 tr2,
    match (match r with
           | Ok _ => match done w s' with (r3, s3, tr3) => (r3, s3, tr ++ tr3) end
           | Raise e => (Raise e, s', tr)
           end) with
    | (r1, s1, tr1) => (r1, s1, before ++ tr1)
    end = (r2, s2, tr2) /\
    load_calls tr2 = loads_until_failure w files /\
    Forall (fun e => is_after_loading e = false) tr2 /\
    (forall f msg, In (EvLoadFtmap f (Some msg)) tr2 -> r2 = Raise (CollaboratorError msg)).
Proof.
  intros -> Hc HF Hfail Hb.
  assert (Hbl : Forall (fun e => is_load e = false) before)
    by (eapply Forall_impl; [|exact Hb]; intros e He; apply orb_false_iff in He; apply He).
  assert (Hba : Forall (fun e => is_after_loading e = false) before)
    by (eapply Forall_impl; [|exact Hb]; intros e He; apply orb_false_iff in He; apply He).
  destruct r as [a|e]; simpl; eexists; eexists; eexists; (split; [reflexivity|]).
  - split; [|split].
    + rewrite !load_calls_app, (load_calls_none before), Hc by exact Hbl.
      simpl. apply app_nil_r.
    + apply Forall_app. split; [exact Hba|]. apply Forall_app. split; [exact HF|].
      repeat constructor.
    + intros f msg HIn. apply in_app_or in HIn.
      destruct HIn as [HIn|HIn]; [destruct (no_load_in _ _ _ Hbl HIn)|].
      apply in_app_or in HIn. destruct HIn as [HIn|[HIn|[]]]; [|discriminate].
      specialize (Hfail f msg HIn). discriminate.
  - split; [|split].
    + rewrite load_calls_app, (load_calls_none before) by exact Hbl. exact Hc.
    + apply Forall_app. split; assumption.
    + intros f msg HIn. apply in_app_or in HIn.
      destruct HIn as [HIn|HIn]; [destruct (no_load_in _ _ _ Hbl HIn)|].
      exact (Hfail f msg HIn).
Qed.

(** The loading block of the four single-analysis scripts. *)
Lemma load_block_single (banner pattern msg label line : string) :
  load_block pattern
    (pm_undo_disable_if_present ;;
     print [PStr banner] ;;
     files <- glob_expanded pattern ;;
     match files with
     | [] => raise (RuntimeError msg)
     | _ =>
         start <- time_time ;;
         for_enumerate files 1 (fun i f =>
           load_ftmap f ;;
           progress_bar_single i (len files) start label) ;;
         print [PStr line]
     end).
Proof.
  intros w s.
  assert (Hu : exists u, pm_undo_disable_if_present w s = (Ok tt, s, u) /\
                         Forall (fun e => is_load e || is_after_loading e = false) u).
  { unfold pm_undo_disable_if_present. destruct (env_has_undo_disable w);
      eexists; split; try reflexivity; repeat constructor. }
  destruct Hu as [u [Hu HFu]]. rewrite (run_bind_ok _ _ _ _ _ _ _ Hu).
  do 2 step_ok.
  destruct (env_glob w (env_expandvars w (env_expanduser w pattern))) as [|f fs] eqn:Eg.
  - simpl. eexists. eexists. eexists. split; [reflexivity|].
    assert (Hul : Forall (fun e => is_load e = false) u)
      by (eapply Forall_impl; [|exact HFu]; intros e He; apply orb_false_iff in He;
          apply He).
    assert (Hua : Forall (fun e => is_after_loading e = false) u)
      by (eapply Forall_impl; [|exact HFu]; intros e He; apply orb_false_iff in He;
          apply He).
    split; [|split].
    + rewrite load_calls_app, (load_calls_none u) by exact Hul. reflexivity.
    + apply Forall_app. split; [exact Hua | repeat constructor].
    + intros f msg0 HIn. apply in_app_or in HIn.
      destruct HIn as [HIn|HIn]; [destruct (no_load_in _ _ _ Hul HIn)|].
      simpl in HIn. intuition discriminate.
  - step_ok.
    destruct (load_loop_runs
                (fun i => progress_bar_single i (len (f :: fs)) (env_clock w (ticks s)) label)
                (f :: fs)
                (proj2 (progress_in_loading_runs (f :: fs) _ label ltac:(discriminate)))
                1 w (tick s))
      as [r [s' [tr [Hl [Hc [HF Hfail]]]]]].
    cbv beta in Hl. unfold bind at 1. rewrite Hl.
    destruct (after_loading_loop r s' tr w (f :: fs)
                (EvPrint [PStr banner]
                 :: EvGlob (env_expandvars w (env_expanduser w pattern)) (f :: fs) :: [])
                (print [PStr line]) line eq_refl Hc HF Hfail ltac:(repeat constructor))
      as [r2 [s2 [tr2 [E [Hc2 [HF2 Hfail2]]]]]].
    assert (Hul : Forall (fun e => is_load e = false) u)
      by (eapply Forall_impl; [|exact HFu]; intros e He; apply orb_false_iff in He;
          apply He).
    assert (Hua : Forall (fun e => is_after_loading e = false) u)
      by (eapply Forall_impl; [|exact HFu]; intros e He; apply orb_false_iff in He;
          apply He).
    exists r2, s2, (u ++ tr2). split.
    + simpl in E |- *.
      destruct r as [[]|e]; simpl in E |- *; injection E as <- <- <-; reflexivity.
    + split; [|split].
      * rewrite load_calls_app, (load_calls_none u) by exact Hul. exact Hc2.
      * apply Forall_app. split; assumption.
      * intros f0 msg0 HIn. apply in_app_or in HIn.
        destruct HIn as [HIn|HIn]; [destruct (no_load_in _ _ _ Hul HIn)|].
        exact (Hfail2 f0 msg0 HIn).
Qed.

Lemma load_block_all (cfg : HcaAll.config) :
  load_block (HcaAll.BASE_PATH cfg) (HcaAll.load_structures cfg).
Proof.
  intros w s. unfold HcaAll.load_structures. step_ok.
  destruct (env_glob w (env_expandvars w (env_expanduser w (HcaAll.BASE_PATH cfg))))
    as [|f fs] eqn:Eg.
  - simpl. eexists. eexists. eexists. split; [reflexivity|].
    split; [reflexivity|]. split; [repeat constructor|].
    intros f msg HIn. simpl in HIn. intuition discriminate.
  - destruct (Z.eqb_spec (len (f :: fs)) 0) as [H0|_];
      [unfold len in H0; simpl in H0; lia|].
    do 2 step_ok.
    destruct (load_loop_runs
                (fun i => HcaAll.progress_bar i (len (f :: fs)) (env_clock w (ticks s))
                            "Loading FTMap files")
                (f :: fs)
                (proj1 (progress_in_loading_runs (f :: fs) _ _ ltac:(discriminate)))
                1 w (tick s))
      as [r [s' [tr [Hl [Hc [HF Hfail]]]]]].
    cbv beta in Hl. unfold bind at 1. rewrite Hl.
    destruct (after_loading_loop r s' tr w (f :: fs)
                (EvGlob (env_expandvars w (env_expanduser w (HcaAll.BASE_PATH cfg)))
                        (f :: fs)
                 :: EvPrint [PStr ("Found " +++ str_Z (len (f :: fs))
                                   +++ " FTMap structures" +++ nl)] :: [])
                (print [PStr (nl +++ "✔ FTMap structures loaded" +++ nl)]) _
                eq_refl Hc HF Hfail ltac:(repeat constructor))
      as [r2 [s2 [tr2 [E [Hc2 [HF2 Hfail2]]]]]].
    exists r2, s2, tr2. split; [|split; [exact Hc2 | split; [exact HF2 | exact Hfail2]]].
    destruct r as [[]|e]; simpl in E |- *; injection E as <- <- <-; reflexivity.
Qed.

Lemma loads_ok_main (sc : script) : loads_ok (script_base_path sc) (script_main sc).
Proof.
  destruct sc as [cfg|cfg|cfg|cfg|cfg]; simpl.
  - unfold HcaAll.main. apply loads_ok_after.
    + emits_block.
    + intros w s. unfold HcaAll.startup, bind, pm_undo_disable_if_present, time_time,
        print, emit, ret.
      destruct (env_has_undo_disable w); eexists; reflexivity.
    + intros global_start. apply loads_ok_block; [apply load_block_all | emits_block].
  - unfold HcaHO.main. apply loads_ok_block; [|emits_block].
    unfold HcaHO.load_structures. apply load_block_single.
  - unfold HcaEuclidian.main. apply loads_ok_block; [|emits_block].
    unfold HcaEuclidian.load_structures. apply load_block_single.
  - unfold HcaJaccard.main. apply loads_ok_block; [|emits_block].
    unfold HcaJaccard.load_structures. apply load_block_single.
  - unfold HcaOverlap.main. apply loads_ok_block; [|emits_block].
    unfold HcaOverlap.load_structures. apply load_block_single.
Qed.

(** X5: Every script loads the paths matched by the pattern one after the
    other, in the order [glob] gives them, each once.  A file that
    fails to load is the last one tried: its exception ends the run, and
    no alignment, selection, clustering or plot call was made. *)
Theorem loading_is_ordered_and_fails_fast (w : Env) (sc : script) :
  load_calls (snd (run sc w))
  = loads_until_failure w (env_glob w (expanded_pattern w sc)) /\
  (forall f msg,
      In (EvLoadFtmap f (Some msg)) (snd (run sc w)) ->
      fst (run sc w) = Raise (CollaboratorError msg) /\
      Forall (fun e => is_after_loading e = false) (snd (run sc w))).
Proof.
  unfold run, run_script, expanded_pattern.
  pose proof (loads_ok_main sc w init_state) as H.
  destruct (script_main sc w init_state) as [[r s] tr]. exact H.
Qed.

Lemma loading_is_ordered_and_fails_fast_witness :
  In (EvLoadFtmap "b.pdb" (Some "malformed PDB"))
     (snd (run (ScriptAll sample_all) load_fails_env)) /\
  load_calls (snd (run (ScriptAll sample_all) load_fails_env))
  = [("a.pdb", None); ("b.pdb", Some "malformed PDB")] /\
  fst (run (ScriptAll sample_all) load_fails_env)
  = Raise (CollaboratorError "malformed PDB") /\
  Forall (fun e => is_after_loading e = false)
         (snd (run (ScriptAll sample_all) load_fails_env)).
Proof.
  assert (H : In (EvLoadFtmap "b.pdb" (Some "malformed PDB"))
                 (snd (run (ScriptAll sample_all) load_fails_env)))
    by (vm_compute; in_list).
  split; [exact H|].
  split; [exact (proj1 (loading_is_ordered_and_fails_fast load_fails_env
                          (ScriptAll sample_all)))|].
  exact (proj2 (loading_is_ordered_and_fails_fast load_fails_env (ScriptAll sample_all))
               _ _ H).
Defined.

(** ** An empty session *)

Lemma listing_classes (tr : list event) :
  Forall (fun e => is_get_all e || is_beyond_listing e = false) tr ->
  Forall (fun e => is_get_all e || is_align e = false) tr /\
  Forall (fun e => is_beyond_listing e = false) tr.
Proof.
  intros H. split; (eapply Forall_impl; [|exact H]); intros e He;
    apply orb_false_iff in He; destruct He as [H1 H2]; [|exact H2].
  unfold is_beyond_listing in H2. rewrite !orb_false_iff in H2.
  rewrite H1. apply H2.
Qed.

Lemma empty_stops_after {A} (m : M A) (f : A -> M unit) :
  emits (fun e => is_get_all e || is_beyond_listing e = false) m ->
  (forall a, empty_stops (f a)) ->
  empty_stops (bind m f).
Proof.
  intros Hm Hf w s. unfold bind. specialize (Hm w s).
  destruct (listing_classes _ Hm) as [Hga Hb].
  destruct (m w s) as [[[a|e] s1] tr1]; simpl in *.
  - specialize (Hf a w s1). destruct (f a w s1) as [[r s2] tr2]; simpl in *.
    intros HIn. apply in_app_or in HIn. destruct HIn as [HIn|HIn].
    + destruct (no_get_all_in _ _ _ Hga HIn) as [q Hq]. discriminate.
    + destruct (Hf HIn) as [Hr HF]. split; [exact Hr|]. apply Forall_app. split; assumption.
  - intros HIn. destruct (no_get_all_in _ _ _ Hga HIn) as [q Hq]. discriminate.
Qed.

Lemma empty_stops_quiet (k : M unit) :
  emits (fun e => is_get_all e || is_align e = false) k -> empty_stops k.
Proof.
  intros H w s HIn. destruct (no_get_all_in _ _ _ (H w s) HIn) as [q Hq]. discriminate.
Qed.

Lemma empty_stops_all_block (cfg : HcaAll.config) (post : M unit) :
  emits (fun e => is_get_all e || is_align e = false) post ->
  empty_stops (HcaAll.align_structures cfg ;; post).
Proof.
  intros Hpost. destruct (HcaAll.ALIGN_STRUCTURES cfg) eqn:HA.
  - intros w s HIn.
    assert (Hq : emits (fun e => is_sel_query e || is_clustering e || is_plot_handling e
                                 = false) (HcaAll.align_structures cfg)) by emits_block.
    specialize (Hq w s).
    pose proof (all_align_structures_run cfg w s HA) as Hrun.
    destruct (session s) as [|r0 rs] eqn:Es.
    + destruct Hrun as [tr [Hr [Ha _]]]. rewrite Hr in Hq. simpl in Hq.
      rewrite (run_bind_raise _ _ _ _ _ _ _ Hr). simpl. split; [reflexivity|].
      rewrite Forall_forall in *. intros e He. specialize (Ha e He). specialize (Hq e He).
      unfold is_beyond_listing. rewrite Ha. rewrite <- !orb_assoc in Hq |- *. exact Hq.
    + exfalso. destruct Hrun as [s' [tr [Hr [_ [_ Hg]]]]].
      rewrite (run_bind_ok _ _ _ _ _ _ _ Hr) in HIn.
      specialize (Hpost w s'). destruct (post w s') as [[r s2] tr2]. simpl in *.
      apply in_app_or in HIn. destruct HIn as [HIn|HIn].
      * specialize (Hg _ HIn). discriminate.
      * destruct (no_get_all_in _ _ _ Hpost HIn) as [q Hq']. discriminate.
  - apply empty_stops_quiet. unfold HcaAll.align_structures. rewrite HA.
    apply emits_bind; [apply emits_ret | intros _; exact Hpost].
Qed.

Lemma empty_stops_bare_block (after post : M unit) :
  (forall w s, exists tr, after w s = (Ok tt, s, tr) /\
                          Forall (fun e => is_object_query e || is_align e = false) tr) ->
  emits (fun e => is_get_all e || is_align e = false) post ->
  empty_stops ((objs <- pm_get_object_list ;;
                ref <- list_first objs ;;
                for_enumerate (tl objs) 1 (fun _ obj => pm_align obj ref) ;;
                after) ;;
               post).
Proof.
  intros Hafter Hpost w s HIn.
  destruct (session s) as [|r0 rs] eqn:Es.
  - rewrite (run_bind_raise _ _ _ _ _ _ _ (bare_block_empty after w s Es)). simpl.
    split; [reflexivity | repeat constructor].
  - exfalso.
    destruct (bare_block_runs after w s r0 rs Hafter Es) as [r [tr [Hr [HF _]]]].
    destruct r as [[]|e].
    + rewrite (run_bind_ok _ _ _ _ _ _ _ Hr) in HIn.
      specialize (Hpost w s). destruct (post w s) as [[r2 s2] tr2]. simpl in *.
      destruct HIn as [H|H]; [discriminate|].
      apply in_app_or in H. destruct H as [H|H];
        [destruct (no_object_query_in _ _ _ HF H)|].
      destruct (no_get_all_in _ _ _ Hpost H) as [q Hq]. discriminate.
    + rewrite (run_bind_raise _ _ _ _ _ _ _ Hr) in HIn. simpl in HIn.
      destruct HIn as [H|H]; [discriminate|].
      destruct (no_object_query_in _ _ _ HF H).
Qed.

(** X6: When the loaded files yield no object at all, the scripts that take
    [objs[0]] unchecked ([hca_all_analysis.py], [hca_jaccard.py],
    [hca_overlap.py]) end with an IndexError, before any alignment,
    selection or clustering. *)
Theorem empty_session_raises_index_error (w : Env) (sc : script) :
  takes_first_object sc = true ->
  In (EvGetObjectList None []) (snd (run sc w)) ->
  fst (run sc w) = Raise IndexError /\
  Forall (fun e => is_beyond_listing e = false) (snd (run sc w)).
Proof.
  intros Ht. unfold run, run_script.
  assert (E : empty_stops (script_main sc)).
  { destruct sc as [cfg|cfg|cfg|cfg|cfg]; try discriminate; simpl.
    - unfold HcaAll.main.
      apply empty_stops_after; [emits_block | intros global_start].
      apply empty_stops_after; [emits_block | intros _].
      apply empty_stops_all_block. emits_block.
    - unfold HcaJaccard.main.
      apply empty_stops_after; [emits_block | intros _].
      intros w0 s0. rewrite (bind_ext_l _ _ _ (jaccard_block_shape cfg)).
      revert w0 s0. apply empty_stops_bare_block.
      + intros w0 s0. exists []. split; [reflexivity | constructor].
      + emits_block.
    - unfold HcaOverlap.main.
      apply empty_stops_after; [emits_block | intros _].
      unfold HcaOverlap.align_structures. apply empty_stops_bare_block.
      + intros w0 s0. eexists. split; [reflexivity | repeat constructor].
      + emits_block. }
  specialize (E w init_state).
  destruct (script_main sc w init_state) as [[r s] tr]. exact E.
Qed.

Lemma empty_session_raises_index_error_witness :
  takes_first_object (ScriptJaccard HcaJaccard.as_written) = true /\
  In (EvGetObjectList None []) (snd (run (ScriptJaccard HcaJaccard.as_written) no_objects_env)) /\
  fst (run (ScriptJaccard HcaJaccard.as_written) no_objects_env) = Raise IndexError /\
  Forall (fun e => is_beyond_listing e = false)
         (snd (run (ScriptJaccard HcaJaccard.as_written) no_objects_env)).
Proof.
  assert (H1 : takes_first_object (ScriptJaccard HcaJaccard.as_written) = true)
    by reflexivity.
  assert (H2 : In (EvGetObjectList None [])
                  (snd (run (ScriptJaccard HcaJaccard.as_written) no_objects_env)))
    by (vm_compute; in_list).
  split; [exact H1|]. split; [exact H2|].
  exact (empty_session_raises_index_error no_objects_env
           (ScriptJaccard HcaJaccard.as_written) H1 H2).
Defined.

(** ** The one job of a single-analysis script *)

Lemma append_nil_r (a : string) : a +++ "" = a.
Proof. induction a as [|c a IH]; simpl; [|rewrite IH]; reflexivity. Qed.

Lemma one_job_after {A} metric out (m : M A) (f : A -> M unit) :
  emits (fun e => concerns_report e = false) m ->
  (forall a, one_job metric out (f a)) ->
  one_job metric out (bind m f).
Proof.
  intros Hm Hf w s. unfold bind. specialize (Hm w s).
  destruct (m w s) as [[[a|e] s1] tr1]; simpl in *; [|discriminate].
  specialize (Hf a w s1). destruct (f a w s1) as [[r s2] tr2]; simpl in *.
  intros Hr. destruct (report_observations_skip tr1 tr2 Hm) as [-> [-> [_ ->]]].
  destruct (Hf Hr) as [H1 [H2 [[tail H3] H4]]].
  split; [exact H1|]. split; [exact H2|]. split; [|exact H4].
  exists tail. apply in_or_app. right. exact H3.
Qed.

Ltac one_job_tac tail :=
  intros w s; autounfold with blocks;
  cbv [bind print emit time_time plot_pairwise_hca plot_euclidean_hca plt_title
       savefig_300_tight plt_savefig plt_close ret];
  repeat match goal with
         | |- context [env_plot_pairwise_hca w ?a] =>
             destruct (env_plot_pairwise_hca w a); [simpl; discriminate|]
         | |- context [env_plot_euclidean_hca w ?a] =>
             destruct (env_plot_euclidean_hca w a); [simpl; discriminate|]
         | |- context [env_savefig w ?f] =>
             destruct (env_savefig w f); [simpl; discriminate|]
         end;
  intros _; simpl;
  (split; [reflexivity|]); (split; [reflexivity|]);
  (split; [exists tail; rewrite ?append_nil_r; in_list
          | eexists; exists (ticks s); reflexivity]).

Lemma one_job_HO (cfg : config) : one_job "ho" (OUTPUT cfg) (HcaHO.job cfg).
Proof. one_job_tac EmptyString. Qed.

Lemma one_job_Euclidian (cfg : config) :
  one_job "euclidean" (OUTPUT cfg) (HcaEuclidian.job cfg).
Proof. one_job_tac EmptyString. Qed.

Lemma one_job_Jaccard (cfg : config) : one_job "jaccard" (OUTPUT cfg) (HcaJaccard.job cfg).
Proof. one_job_tac EmptyString. Qed.

Lemma one_job_Overlap (cfg : config) : one_job "overlap" (OUTPUT cfg) (HcaOverlap.job cfg).
Proof. one_job_tac nl. Qed.

(** X10: A single-analysis script that succeeds has made exactly one
    clustering call, with its own metric, has saved exactly one file, the
    configured [OUTPUT], and names that file in its "Saved:" line; the one
    duration it prints is the difference of two successive clock
    readings. *)
Theorem single_script_success (w : Env) (sc : script) (metric out : string) :
  script_single_job sc = Some (metric, out) ->
  fst (run sc w) = Ok tt ->
  clustering_calls (snd (run sc w)) = [metric] /\
  saved_files (snd (run sc w)) = [out] /\
  (exists tail, In (EvPrint [PStr ("Saved: " +++ out +++ tail)]) (snd (run sc w))) /\
  (exists text n,
      timed_lines (snd (run sc w)) = [(text, env_clock w (S n) - env_clock w n)%Q]).
Proof.
  intros Hjob. unfold run, run_script.
  assert (J : one_job metric out (script_main sc)).
  { destruct sc as [cfg|cfg|cfg|cfg|cfg]; simpl in Hjob; try discriminate;
      injection Hjob as <- <-; simpl.
    - unfold HcaHO.main.
      apply one_job_after; [emits_block | intros _].
      apply one_job_after; [emits_block | intros _].
      apply one_job_after; [emits_block | intros _].
      apply one_job_HO.
    - unfold HcaEuclidian.main.
      apply one_job_after; [emits_block | intros _].
      apply one_job_Euclidian.
    - unfold HcaJaccard.main.
      apply one_job_after; [emits_block | intros _].
      apply one_job_after; [emits_block | intros _].
      apply one_job_after; [emits_block | intros _].
      apply one_job_Jaccard.
    - unfold HcaOverlap.main.
      apply one_job_after; [emits_block | intros _].
      apply one_job_after; [emits_block | intros _].
      apply one_job_after; [emits_block | intros _].
      apply one_job_Overlap. }
  specialize (J w init_state).
  destruct (script_main sc w init_state) as [[r s] tr]. exact J.
Qed.

Lemma single_script_success_witness :
  script_single_job (ScriptOverlap HcaOverlap.as_written)
  = Some ("overlap", "S0_20_Overlap.png") /\
  fst (run (ScriptOverlap HcaOverlap.as_written) sample_env) = Ok tt /\
  clustering_calls (snd (run (ScriptOverlap HcaOverlap.as_written) sample_env))
  = ["overlap"] /\
  saved_files (snd (run (ScriptOverlap HcaOverlap.as_written) sample_env))
  = ["S0_20_Overlap.png"].
Proof.
  assert (H1 : script_single_job (ScriptOverlap HcaOverlap.as_written)
               = Some ("overlap", "S0_20_Overlap.png")) by reflexivity.
  assert (H2 : fst (run (ScriptOverlap HcaOverlap.as_written) sample_env) = Ok tt)
    by reflexivity.
  split; [exact H1|]. split; [exact H2|].
  destruct (single_script_success sample_env (ScriptOverlap HcaOverlap.as_written) _ _
              H1 H2) as [Hc [Hs _]].
  split; [exact Hc | exact Hs].
Defined.

(** ** The order of the stages *)

Lemma stages_ordered_weaken (c n : nat) (tr : list event) :
  (c <= n)%nat -> stages_ordered n tr = true -> stages_ordered c tr = true.
Proof.
  revert c n. induction tr as [|e tr IH]; intros c n Hcn; simpl; [reflexivity|].
  destruct (stage_of e) as [k|]; [|apply (IH c n Hcn)].
  intros H. apply andb_true_iff in H. destruct H as [Hk Hrest].
  apply Nat.leb_le in Hk. rewrite Hrest, andb_true_r. apply Nat.leb_le. lia.
Qed.

Lemma stages_ordered_block (c n : nat) (tr1 tr2 : list event) :
  (c <= n)%nat ->
  Forall (fun e => in_stage n e = true) tr1 ->
  stages_ordered n tr2 = true ->
  stages_ordered c (tr1 ++ tr2) = true.
Proof.
  intros Hcn HF H2. revert c Hcn. induction HF as [|e tr1 He _ IH]; intros c Hcn; simpl.
  - exact (stages_ordered_weaken c n tr2 Hcn H2).
  - unfold in_stage in He. destruct (stage_of e) as [k|]; [|apply IH; exact Hcn].
    apply Nat.eqb_eq in He. subst k.
    rewrite (IH n (Nat.le_refl n)), andb_true_r. apply Nat.leb_le. exact Hcn.
Qed.

Lemma ordered_after {A} (c n : nat) (m : M A) (f : A -> M unit) :
  (c <= n)%nat ->
  emits (fun e => in_stage n e = true) m ->
  (forall a, ordered_from n (f a)) ->
  ordered_from c (bind m f).
Proof.
  intros Hcn Hm Hf w s. unfold bind. specialize (Hm w s).
  destruct (m w s) as [[[a|e] s1] tr1]; simpl in *.
  - specialize (Hf a w s1). destruct (f a w s1) as [[r s2] tr2]; simpl in *.
    apply (stages_ordered_block c n); assumption.
  - rewrite <- (app_nil_r tr1). apply (stages_ordered_block c n); auto.
Qed.

Lemma ordered_last (c n : nat) (k : M unit) :
  (c <= n)%nat -> emits (fun e => in_stage n e = true) k -> ordered_from c k.
Proof.
  intros Hcn Hk w s. rewrite <- (app_nil_r (snd (k w s))).
  apply (stages_ordered_block c n); auto.
Qed.

(** X12: The stages of a run follow one another and never come back: once an
    alignment-stage call is made nothing more is loaded, once the hotspot
    selection is queried nothing more is aligned or listed, and once a
    job has begun no selection is queried any more. *)
Theorem stages_never_go_back (w : Env) (sc : script) :
  stages_ordered 0 (snd (run sc w)) = true.
Proof.
  unfold run, run_script.
  assert (O : ordered_from 0 (script_main sc)).
  { destruct sc as [cfg|cfg|cfg|cfg|cfg]; simpl.
    - unfold HcaAll.main.
      apply (ordered_after 0 0); [lia | emits_block | intros global_start].
      apply (ordered_after 0 1); [lia | emits_block | intros _].
      apply (ordered_after 1 2); [lia | emits_block | intros _].
      apply (ordered_after 2 3); [lia | emits_block | intros _].
      apply (ordered_last 3 4); [lia | emits_block].
    - unfold HcaHO.main.
      apply (ordered_after 0 1); [lia | emits_block | intros _].
      apply (ordered_after 1 2); [lia | emits_block | intros _].
      apply (ordered_after 2 3); [lia | emits_block | intros _].
      apply (ordered_last 3 4); [lia | emits_block].
    - unfold HcaEuclidian.main.
      apply (ordered_after 0 1); [lia | emits_block | intros _].
      apply (ordered_last 1 4); [lia | emits_block].
    - unfold HcaJaccard.main.
      apply (ordered_after 0 1); [lia | emits_block | intros _].
      apply (ordered_after 1 2); [lia | emits_block | intros _].
      apply (ordered_after 2 3); [lia | emits_block | intros _].
      apply (ordered_last 3 4); [lia | emits_block].
    - unfold HcaOverlap.main.
      apply (ordered_after 0 1); [lia | emits_block | intros _].
      apply (ordered_after 1 2); [lia | emits_block | intros _].
      apply (ordered_after 2 3); [lia | emits_block | intros _].
      apply (ordered_last 3 4); [lia | emits_block]. }
  specialize (O w init_state).
  destruct (script_main sc w init_state) as [[r s] tr]. exact O.
Qed.

(** ** The life of a plot *)

Lemma plot_phase_after_app (ph : plot_phase) (tr1 tr2 : list event) :
  plot_phase_after ph (tr1 ++ tr2)
  = match plot_phase_after ph tr1 with
    | Some ph' => plot_phase_after ph' tr2
    | None => None
    end.
Proof.
  revert ph. induction tr1 as [|e tr1 IH]; intros ph; simpl; [reflexivity|].
  destruct (plot_step ph e); [apply IH | reflexivity].
Qed.

Lemma plot_phase_quiet (ph : plot_phase) (tr : list event) :
  Forall (fun e => is_clustering e || is_plot_handling e = false) tr ->
  plot_phase_after ph tr = Some ph.
Proof.
  induction 1 as [|e tr He _ IH]; simpl; [reflexivity|].
  destruct e; simpl in *; try discriminate; destruct ph; exact IH.
Qed.

Lemma in_turn_quiet (k : M unit) :
  emits (fun e => is_clustering e || is_plot_handling e = false) k -> in_turn k.
Proof.
  intros H w s. exists Idle. split; [apply plot_phase_quiet; apply H | reflexivity].
Qed.

Lemma in_turn_after {A} (m : M A) (f : A -> M unit) :
  emits (fun e => is_clustering e || is_plot_handling e = false) m ->
  (forall a, in_turn (f a)) ->
  in_turn (bind m f).
Proof.
  intros Hm Hf w s. unfold bind. specialize (Hm w s).
  destruct (m w s) as [[[a|e] s1] tr1]; simpl in *.
  - destruct (Hf a w s1) as [ph [Hp Hok]].
    destruct (f a w s1) as [[r s2] tr2]; simpl in *.
    exists ph. rewrite plot_phase_after_app, (plot_phase_quiet Idle tr1) by exact Hm.
    split; assumption.
  - exists Idle. split; [apply plot_phase_quiet; exact Hm | discriminate].
Qed.

Lemma in_turn_job (j k : M unit) : job_in_turn j -> in_turn k -> in_turn (bind j (fun _ => k)).
Proof.
  intros Hj Hk w s. unfold bind.
  destruct (Hj w s) as [[s' [tr [-> Hp]]]|[e [s' [tr [ph [-> Hp]]]]]].
  - destruct (Hk w s') as [ph [Hp2 Hok]].
    destruct (k w s') as [[r s2] tr2]; simpl in *.
    exists ph. rewrite plot_phase_after_app, Hp. split; assumption.
  - simpl. exists ph. split; [exact Hp | discriminate].
Qed.

Ltac job_in_turn_tac :=
  intros w s; autounfold with blocks;
  cbv [bind print emit time_time plot_pairwise_hca plot_euclidean_hca plt_title
       savefig_300_tight plt_savefig plt_close ret];
  match goal with
  | |- context [env_plot_pairwise_hca w ?a] => destruct (env_plot_pairwise_hca w a)
  | |- context [env_plot_euclidean_hca w ?a] => destruct (env_plot_euclidean_hca w a)
  end;
  [ right
  | match goal with
    | |- context [env_savefig w ?f] => destruct (env_savefig w f)
    end; [right | left] ];
  simpl; repeat eexists.

Lemma job_in_turn_all_HO (cfg : HcaAll.config) : job_in_turn (HcaAll.job_HO cfg).
Proof. job_in_turn_tac. Qed.

Lemma job_in_turn_all_Jaccard (cfg : HcaAll.config) : job_in_turn (HcaAll.job_Jaccard cfg).
Proof. job_in_turn_tac. Qed.

Lemma job_in_turn_all_Overlap (cfg : HcaAll.config) : job_in_turn (HcaAll.job_Overlap cfg).
Proof. job_in_turn_tac. Qed.

Lemma job_in_turn_all_Euclidean (cfg : HcaAll.config) :
  job_in_turn (HcaAll.job_Euclidean cfg).
Proof. job_in_turn_tac. Qed.

Lemma job_in_turn_HO (cfg : config) : job_in_turn (HcaHO.job cfg).
Proof. job_in_turn_tac. Qed.

Lemma job_in_turn_Euclidian (cfg : config) : job_in_turn (HcaEuclidian.job cfg).
Proof. job_in_turn_tac. Qed.

Lemma job_in_turn_Jaccard (cfg : config) : job_in_turn (HcaJaccard.job cfg).
Proof. job_in_turn_tac. Qed.

Lemma job_in_turn_Overlap (cfg : config) : job_in_turn (HcaOverlap.job cfg).
Proof. job_in_turn_tac. Qed.

Lemma in_turn_last (j : M unit) : job_in_turn j -> in_turn j.
Proof.
  intros Hj w s. rewrite <- (bind_ret_tt j w s).
  apply (in_turn_job j (ret tt) Hj). apply in_turn_quiet. emits_bool.
Qed.

(** X13: In every run the calls on a plot come in turn: a caption is only set
    on the fresh plot of a clustering call that returned, a file is only
    saved from a captioned plot, a plot is only closed after it was saved,
    and the next clustering call comes only after that close.  A run that
    returns has closed its last plot. *)
Theorem plot_calls_come_in_turn (w : Env) (sc : script) :
  exists ph,
    plot_phase_after Idle (snd (run sc w)) = Some ph /\
    (fst (run sc w) = Ok tt -> ph = Idle).
Proof.
  unfold run, run_script.
  assert (T : in_turn (script_main sc)).
  { destruct sc as [cfg|cfg|cfg|cfg|cfg]; simpl.
    - unfold HcaAll.main.
      apply in_turn_after; [emits_block | intros global_start].
      apply in_turn_after; [emits_block | intros _].
      apply in_turn_after; [emits_block | intros _].
      apply in_turn_after; [emits_block | intros _].
      apply in_turn_job; [apply job_in_turn_all_HO|].
      apply in_turn_job; [apply job_in_turn_all_Jaccard|].
      apply in_turn_job; [apply job_in_turn_all_Overlap|].
      apply in_turn_job; [apply job_in_turn_all_Euclidean|].
      apply in_turn_quiet. emits_block.
    - unfold HcaHO.main.
      apply in_turn_after; [emits_block | intros _].
      apply in_turn_after; [emits_block | intros _].
      apply in_turn_after; [emits_block | intros _].
      apply in_turn_last. apply job_in_turn_HO.
    - unfold HcaEuclidian.main.
      apply in_turn_after; [emits_block | intros _].
      apply in_turn_last. apply job_in_turn_Euclidian.
    - unfold HcaJaccard.main.
      apply in_turn_after; [emits_block | intros _].
      apply in_turn_after; [emits_block | intros _].
      apply in_turn_after; [emits_block | intros _].
      apply in_turn_last. apply job_in_turn_Jaccard.
    - unfold HcaOverlap.main.
      apply in_turn_after; [emits_block | intros _].
      apply in_turn_after; [emits_block | intros _].
      apply in_turn_after; [emits_block | intros _].
      apply in_turn_last. apply job_in_turn_Overlap. }
  specialize (T w init_state).
  destruct (script_main sc w init_state) as [[r s] tr]. exact T.
Qed.

(** ** The parameters of the collaborator calls *)

(** X14: The five scripts agree on how each metric is called: whichever
    script runs it, Hotspot Overlap goes with [align=False] and radius
    1.5, Jaccard and residue overlap with [align=True] and radius 5.0, the
    Euclidean clustering with S0, CD, MD, normalization and Ward linkage;
    and every plot is saved at 300 dpi with a tight bounding box. *)
Theorem call_parameters_are_fixed (w : Env) (sc : script) :
  Forall has_fixed_parameters (snd (run sc w)).
Proof.
  unfold run. apply emits_run.
  destruct sc as [cfg|cfg|cfg|cfg|cfg]; simpl script_main;
    [ unfold HcaAll.main | unfold HcaHO.main | unfold HcaEuclidian.main
    | unfold HcaJaccard.main | unfold HcaOverlap.main ];
    autounfold with blocks;
    emits_with ltac:(simpl; first [exact I | tauto | repeat split]).
Qed.

(** ** The configuration of a run *)

(** X15: Every call of a run stays within the configuration of its script: the
    selection queried and clustered pairwise is the hotspot selection of
    the script's cutoff, the Euclidean clustering is given the K15
    selection of that cutoff, each clustering call is for a metric of the
    script, and nothing is saved to a file other than the script's own
    outputs, also in a run that fails.  [hca_Euclidian.py] queries no
    selection, and only [hca_HO.py] counts atoms. *)
Theorem calls_stay_within_the_configuration (w : Env) (sc : script) :
  Forall (within_script sc) (snd (run sc w)).
Proof.
  unfold run. apply emits_run.
  destruct sc as [cfg|cfg|cfg|cfg|cfg]; simpl script_main;
    [ unfold HcaAll.main | unfold HcaHO.main | unfold HcaEuclidian.main
    | unfold HcaJaccard.main | unfold HcaOverlap.main ];
    autounfold with blocks;
    emits_with ltac:(first [ exact I
                           | reflexivity
                           | split; [reflexivity | discriminate]
                           | split; [reflexivity | split; [discriminate | simpl; in_list]]
                           | split; [reflexivity | simpl; in_list]
                           | simpl; in_list ]).
Qed.

(** ** The closing line *)

Lemma announced_after {A} (c : event) (m : M A) (k : A -> M unit) :
  emits (fun e => e <> c) m -> (forall a, announced c (k a)) -> announced c (bind m k).
Proof.
  intros Hm Hk w s. unfold bind. specialize (Hm w s).
  destruct (m w s) as [[[a|e] s1] tr1]; simpl in Hm.
  - specialize (Hk a w s1). destruct (k a w s1) as [[r s2] tr2]; simpl in *.
    rewrite in_app_iff. split.
    + intros [H|H]; [|apply Hk; exact H].
      exfalso. rewrite Forall_forall in Hm. exact (Hm _ H eq_refl).
    + intros H. right. apply Hk. exact H.
  - simpl. split; [|discriminate].
    intros H. exfalso. rewrite Forall_forall in Hm. exact (Hm _ H eq_refl).
Qed.

Ltac announced_tac :=
  autounfold with blocks;
  repeat (apply announced_after; [solve [emits_with ltac:(simpl; discriminate)] | intros ?]);
  intros ? ?; split; intros _; [reflexivity | simpl; left; reflexivity].

(** X16: A script prints its closing line (the banner of
    [hca_all_analysis.py], the "Saved:" line of the others) in exactly the
    runs that return: no failed run announces its output, and nothing
    after the line can fail. *)
Theorem closing_line_iff_success (w : Env) (sc : script) :
  In (closing_line sc) (snd (run sc w)) <-> fst (run sc w) = Ok tt.
Proof.
  assert (H : announced (closing_line sc) (script_main sc)).
  { destruct sc as [cfg|cfg|cfg|cfg|cfg]; simpl script_main; simpl closing_line;
      [ unfold HcaAll.main | unfold HcaHO.main | unfold HcaEuclidian.main
      | unfold HcaJaccard.main | unfold HcaOverlap.main ];
      announced_tac. }
  specialize (H w init_state). unfold run, run_script.
  destruct (script_main sc w init_state) as [[r s] tr]. exact H.
Qed.

Lemma closing_line_iff_success_witness :
  In (closing_line (ScriptOverlap HcaOverlap.as_written))
     (snd (run (ScriptOverlap HcaOverlap.as_written) sample_env)) /\
  ~ In (closing_line (ScriptOverlap HcaOverlap.as_written))
       (snd (run (ScriptOverlap HcaOverlap.as_written) no_files_env)).
Proof.
  split.
  - apply (closing_line_iff_success sample_env (ScriptOverlap HcaOverlap.as_written)).
    reflexivity.
  - intros H.
    apply (closing_line_iff_success no_files_env (ScriptOverlap HcaOverlap.as_written)) in H.
    discriminate H.
Defined.
